(** * Alist file plugin: navigation session, response cache, configuration
      resolution and transfer orchestration of [main.py]

    A shallow embedding of the plugin's command handlers.  Python
    dictionaries keyed by user identity are [gmap string _]; JSON
    configuration dictionaries are [gmap string pyval]; the files of the
    cache directory are a [gmap] from file stem to file; generators that
    [yield] replies append to an output log; the remote server is an
    oracle answering the calls of [AlistClient], every call being logged;
    [try]/[except] is a catch combinator of a small state-and-exception
    monad. *)

From Stdlib Require Import ZArith Ascii String List Lia Bool.
From stdpp Require Import base option list gmap strings pretty fin_maps.

Local Open Scope string_scope.

(* ===================================================================== *)
(** ** Python string methods used by the plugin (text as UTF-8 bytes) *)
(* ===================================================================== *)

Module Py.

(** [s.rstrip(c)] for a one-character set: every trailing [c] goes. *)
Fixpoint rstrip (c : ascii) (s : string) : string :=
  match s with
  | EmptyString => EmptyString
  | String a t =>
      match rstrip c t with
      | EmptyString => if Ascii.eqb a c then EmptyString else String a EmptyString
      | r => String a r
      end
  end.

(** [s.startswith(p)] *)
Definition startswith (s p : string) : bool := String.prefix p s.

(** [s.endswith(p)] *)
Definition endswith (s p : string) : bool :=
  let n := String.length s in
  let k := String.length p in
  (k <=? n)%nat && String.eqb (String.substring (n - k) k s) p.

(** [sub in s] *)
Fixpoint contains (sub s : string) : bool :=
  String.prefix sub s ||
  match s with
  | EmptyString => false
  | String _ t => contains sub t
  end.

(** [s[:n]] for [n >= 0] *)
Definition take (n : nat) (s : string) : string := String.substring 0 n s.

(** Text is held as the bytes of its UTF-8 encoding.  [code_points] reads
    the characters back; bytes that encode no text give nothing. *)
Definition byte (a : ascii) : Z := Z.of_nat (nat_of_ascii a).

Definition trail (a : ascii) : option Z :=
  let n := byte a in
  if (128 <=? n)%Z && (n <? 192)%Z then Some (n - 128)%Z else None.

Fixpoint code_points (s : string) : option (list Z) :=
  match s with
  | EmptyString => Some []
  | String a t =>
      let n := byte a in
      if (n <? 128)%Z then option_map (cons n) (code_points t)
      else if (n <? 224)%Z then
        match t with
        | String b t1 =>
            match trail b with
            | Some x =>
                let c := ((n - 192) * 64 + x)%Z in
                if (128 <=? c)%Z then option_map (cons c) (code_points t1) else None
            | None => None
            end
        | _ => None
        end
      else if (n <? 240)%Z then
        match t with
        | String b (String b' t2) =>
            match trail b, trail b' with
            | Some x, Some y =>
                let c := ((n - 224) * 4096 + x * 64 + y)%Z in
                if (2048 <=? c)%Z && negb ((55296 <=? c)%Z && (c <=? 57343)%Z)
                then option_map (cons c) (code_points t2) else None
            | _, _ => None
            end
        | _ => None
        end
      else if (n <? 248)%Z then
        match t with
        | String b (String b' (String b'' t3)) =>
            match trail b, trail b', trail b'' with
            | Some x, Some y, Some z =>
                let c := ((n - 240) * 262144 + x * 4096 + y * 64 + z)%Z in
                if (65536 <=? c)%Z && (c <=? 1114111)%Z
                then option_map (cons c) (code_points t3) else None
            | _, _, _ => None
            end
        | _ => None
        end
      else None
  end.

(** The zero of every block of decimal digits (Unicode 14.0, the tables
    of CPython 3.11): the nine characters after each are the digits one
    to nine of the same script. *)
Definition decimal_zeros : list Z :=
  [0x0030; 0x0660; 0x06f0; 0x07c0; 0x0966; 0x09e6; 0x0a66; 0x0ae6;
   0x0b66; 0x0be6; 0x0c66; 0x0ce6; 0x0d66; 0x0de6; 0x0e50; 0x0ed0;
   0x0f20; 0x1040; 0x1090; 0x17e0; 0x1810; 0x1946; 0x19d0; 0x1a80;
   0x1a90; 0x1b50; 0x1bb0; 0x1c40; 0x1c50; 0xa620; 0xa8d0; 0xa900;
   0xa9d0; 0xa9f0; 0xaa50; 0xabf0; 0xff10; 0x104a0; 0x10d30; 0x11066;
   0x110f0; 0x11136; 0x111d0; 0x112f0; 0x11450; 0x114d0; 0x11650; 0x116c0;
   0x11730; 0x118e0; 0x11950; 0x11c50; 0x11d50; 0x11da0; 0x16a60; 0x16ac0;
   0x16b50; 0x1d7ce; 0x1d7d8; 0x1d7e2; 0x1d7ec; 0x1d7f6; 0x1e140; 0x1e2f0;
   0x1e950; 0x1fbf0]%Z.

(** The digits that are not decimal (superscripts, subscripts, circled
    and parenthesised digits and the like), as ranges of code points. *)
Definition other_digits : list (Z * Z) :=
  [(0x00b2, 0x00b3); (0x00b9, 0x00b9); (0x1369, 0x1371); (0x19da, 0x19da);
   (0x2070, 0x2070); (0x2074, 0x2079); (0x2080, 0x2089); (0x2460, 0x2468);
   (0x2474, 0x247c); (0x2488, 0x2490); (0x24ea, 0x24ea); (0x24f5, 0x24fd);
   (0x24ff, 0x24ff); (0x2776, 0x277e); (0x2780, 0x2788); (0x278a, 0x2792);
   (0x10a40, 0x10a43); (0x10e60, 0x10e68); (0x11052, 0x1105a);
   (0x1f100, 0x1f10a)]%Z.

(** [unicodedata.decimal(c, None)]: the value of a decimal digit. *)
Definition decimal (c : Z) : option Z :=
  match find (fun z => (z <=? c)%Z && (c <=? z + 9)%Z) decimal_zeros with
  | Some z => Some (c - z)%Z
  | None => None
  end.

(** A character that [str.isdigit] accepts: a decimal digit or another
    digit. *)
Definition is_digit (c : Z) : bool :=
  match decimal c with
  | Some _ => true
  | None => existsb (fun r => (fst r <=? c)%Z && (c <=? snd r)%Z) other_digits
  end.

(** [s.isdigit()]: at least one character, and digits only. *)
Definition isdigit (s : string) : bool :=
  match code_points s with
  | Some (c :: cs) => forallb is_digit (c :: cs)
  | _ => false
  end.

(** The number that decimal digits write, or nothing when a character is
    not a decimal digit. *)
Fixpoint decimal_value (acc : Z) (cs : list Z) : option Z :=
  match cs with
  | [] => Some acc
  | c :: r =>
      match decimal c with
      | Some d => decimal_value (10 * acc + d)%Z r
      | None => None
      end
  end.

(** [sys.int_info.default_max_str_digits] *)
Definition max_str_digits : Z := 4300.

(** [int(s)] for text without sign, blanks or digit separators (all that
    [isdigit] accepts is such text), or nothing where it raises
    [ValueError]: on no character, on a character that is not a decimal
    digit (the digits that are not decimal among them) and on more digits
    than [max_str_digits]. *)
Definition int (s : string) : option Z :=
  match code_points s with
  | Some (c :: cs) =>
      if (Z.of_nat (length (c :: cs)) <=? max_str_digits)%Z
      then decimal_value 0 (c :: cs)
      else None
  | _ => None
  end.

(** [s.split(c)]: always at least one field. *)
Fixpoint split (c : ascii) (s : string) : list string :=
  match s with
  | EmptyString => [EmptyString]
  | String a t =>
      if Ascii.eqb a c then EmptyString :: split c t
      else match split c t with
           | [] => [String a EmptyString]
           | f :: fs => String a f :: fs
           end
  end.

(** [l[:n]]: a negative bound counts from the end. *)
Definition slice_to {A} (l : list A) (n : Z) : list A :=
  if (0 <=? n)%Z then firstn (Z.to_nat n) l
  else firstn (Z.to_nat (Z.of_nat (length l) + n)) l.

(** [l[:b]] where [b] may be [None], which is no bound. *)
Definition slice_upto {A} (l : list A) (b : option Z) : list A :=
  match b with
  | Some n => slice_to l n
  | None => l
  end.

Definition lower_ascii (a : ascii) : ascii :=
  let n := nat_of_ascii a in
  if (65 <=? n)%nat && (n <=? 90)%nat then ascii_of_nat (n + 32) else a.

(** [s.lower()], on ASCII letters. *)
Fixpoint lower (s : string) : string :=
  match s with
  | EmptyString => EmptyString
  | String a t => String (lower_ascii a) (lower t)
  end.

(** The characters after the last [c] and, reversed, those before it. *)
Fixpoint cut_at_last (c : ascii) (rev_chars acc : list ascii)
  : option (list ascii * list ascii) :=
  match rev_chars with
  | [] => None
  | a :: r => if Ascii.eqb a c then Some (acc, r) else cut_at_last c r (a :: acc)
  end.

Fixpoint until_sep (rev_chars : list ascii) : list ascii :=
  match rev_chars with
  | [] => []
  | a :: r => if Ascii.eqb a "/" then [] else a :: until_sep r
  end.

(** [os.path.splitext(p)[1]]: from the last dot of the base name, unless
    only dots come before it. *)
Definition splitext_ext (p : string) : string :=
  let rev_base := until_sep (List.rev (list_ascii_of_string p)) in
  match cut_at_last "." rev_base [] with
  | Some (ext, before) =>
      if forallb (fun a => Ascii.eqb a ".") before then EmptyString
      else String "." (string_of_list_ascii ext)
  | None => EmptyString
  end.

(** [int(s)], or nothing where it raises [ValueError]; signs are
    accepted, surrounding blanks and digit separators are not. *)
Definition int_opt (s : string) : option Z :=
  match s with
  | String "-" t => option_map Z.opp (int t)
  | String "+" t => int t
  | _ => int s
  end.

End Py.

(* ===================================================================== *)
(** ** [hashlib.md5(...).hexdigest()] (RFC 1321) *)
(* ===================================================================== *)

Module MD5.
Local Open Scope Z_scope.

Definition mask32 (x : Z) : Z := Z.land x 0xffffffff.
Definition add32 (x y : Z) : Z := mask32 (x + y).
Definition not32 (x : Z) : Z := Z.lxor x 0xffffffff.
Definition rotl32 (x n : Z) : Z :=
  mask32 (Z.lor (Z.shiftl x n) (Z.shiftr x (32 - n))).

Definition shifts : list Z :=
  [7; 12; 17; 22; 7; 12; 17; 22; 7; 12; 17; 22; 7; 12; 17; 22;
   5; 9; 14; 20; 5; 9; 14; 20; 5; 9; 14; 20; 5; 9; 14; 20;
   4; 11; 16; 23; 4; 11; 16; 23; 4; 11; 16; 23; 4; 11; 16; 23;
   6; 10; 15; 21; 6; 10; 15; 21; 6; 10; 15; 21; 6; 10; 15; 21].

Definition sines : list Z :=
  [0xd76aa478; 0xe8c7b756; 0x242070db; 0xc1bdceee;
   0xf57c0faf; 0x4787c62a; 0xa8304613; 0xfd469501;
   0x698098d8; 0x8b44f7af; 0xffff5bb1; 0x895cd7be;
   0x6b901122; 0xfd987193; 0xa679438e; 0x49b40821;
   0xf61e2562; 0xc040b340; 0x265e5a51; 0xe9b6c7aa;
   0xd62f105d; 0x02441453; 0xd8a1e681; 0xe7d3fbc8;
   0x21e1cde6; 0xc33707d6; 0xf4d50d87; 0x455a14ed;
   0xa9e3e905; 0xfcefa3f8; 0x676f02d9; 0x8d2a4c8a;
   0xfffa3942; 0x8771f681; 0x6d9d6122; 0xfde5380c;
   0xa4beea44; 0x4bdecfa9; 0xf6bb4b60; 0xbebfbc70;
   0x289b7ec6; 0xeaa127fa; 0xd4ef3085; 0x04881d05;
   0xd9d4d039; 0xe6db99e5; 0x1fa27cf8; 0xc4ac5665;
   0xf4292244; 0x432aff97; 0xab9423a7; 0xfc93a039;
   0x655b59c3; 0x8f0ccc92; 0xffeff47d; 0x85845dd1;
   0x6fa87e4f; 0xfe2ce6e0; 0xa3014314; 0x4e0811a1;
   0xf7537e82; 0xbd3af235; 0x2ad7d2bb; 0xeb86d391].

Definition bytes_of_string (s : string) : list Z :=
  map (fun a => Z.of_nat (nat_of_ascii a)) (list_ascii_of_string s).

(** Little-endian bytes of [x], [n] of them. *)
Fixpoint le_bytes (n : nat) (x : Z) : list Z :=
  match n with
  | O => []
  | S k => Z.land x 0xff :: le_bytes k (Z.shiftr x 8)
  end.

Definition pad (msg : list Z) : list Z :=
  let len := Z.of_nat (length msg) in
  let zeros := Z.to_nat ((55 - len) mod 64) in
  msg ++ [0x80] ++ repeat 0 zeros ++ le_bytes 8 (8 * len).

Fixpoint le_word (bs : list Z) : Z :=
  match bs with
  | [] => 0
  | b :: r => Z.lor b (Z.shiftl (le_word r) 8)
  end.

(** Cut a byte list into 32-bit little-endian words. *)
Fixpoint words (fuel : nat) (bs : list Z) : list Z :=
  match fuel, bs with
  | S k, _ :: _ => le_word (firstn 4 bs) :: words k (skipn 4 bs)
  | _, _ => []
  end.

Fixpoint blocks (fuel : nat) (ws : list Z) : list (list Z) :=
  match fuel, ws with
  | S k, _ :: _ => firstn 16 ws :: blocks k (skipn 16 ws)
  | _, _ => []
  end.

Definition round (M : list Z) (st : Z * Z * Z * Z) (i : Z) : Z * Z * Z * Z :=
  let '(A, B, C, D) := st in
  let '(F, g) :=
    if i <? 16 then (Z.lor (Z.land B C) (Z.land (not32 B) D), i)
    else if i <? 32 then (Z.lor (Z.land D B) (Z.land (not32 D) C), (5 * i + 1) mod 16)
    else if i <? 48 then (Z.lxor (Z.lxor B C) D, (3 * i + 5) mod 16)
    else (Z.lxor C (Z.lor B (not32 D)), (7 * i) mod 16) in
  let F' := add32 (add32 (add32 F A) (nth (Z.to_nat i) sines 0)) (nth (Z.to_nat g) M 0) in
  (D, add32 B (rotl32 F' (nth (Z.to_nat i) shifts 0)), B, C).

Definition compress (st : Z * Z * Z * Z) (M : list Z) : Z * Z * Z * Z :=
  let '(a0, b0, c0, d0) := st in
  let '(A, B, C, D) := fold_left (round M) (map Z.of_nat (seq 0 64)) st in
  (add32 a0 A, add32 b0 B, add32 c0 C, add32 d0 D).

Definition hex_digit (n : Z) : ascii :=
  ascii_of_nat (Z.to_nat (if n <? 10 then 48 + n else 87 + n)).

Fixpoint hex_of_bytes (bs : list Z) : string :=
  match bs with
  | [] => EmptyString
  | b :: r => String (hex_digit (Z.shiftr b 4)) (String (hex_digit (Z.land b 15)) (hex_of_bytes r))
  end.

Definition hexdigest (s : string) : string :=
  let bs := pad (bytes_of_string s) in
  let ws := words (length bs) bs in
  let '(a, b, c, d) :=
    fold_left compress (blocks (length ws) ws)
              (0x67452301, 0xefcdab89, 0x98badcfe, 0x10325476) in
  hex_of_bytes (le_bytes 4 a ++ le_bytes 4 b ++ le_bytes 4 c ++ le_bytes 4 d).

End MD5.

(* ===================================================================== *)
(** ** Data model *)
(* ===================================================================== *)

(** JSON scalars and string lists, as configuration values hold them. *)
Inductive pyval :=
| PNone
| PBool (b : bool)
| PInt (z : Z)
| PStr (s : string)
| PList (l : list string).

(** Python truthiness. *)
Definition truthy (v : pyval) : bool :=
  match v with
  | PNone => false
  | PBool b => b
  | PInt z => negb (z =? 0)%Z
  | PStr s => negb (String.eqb s "")
  | PList l => match l with [] => false | _ => true end
  end.

(** A number usable in arithmetic, comparison and slicing ([bool] is an
    [int] in Python); anything else raises [TypeError] there. *)
Definition as_int (v : pyval) : option Z :=
  match v with
  | PInt z => Some z
  | PBool b => Some (if b then 1 else 0)%Z
  | _ => None
  end.

(** [d.get(key)] and [d.get(key, dflt)] on a configuration dictionary. *)
Definition dict_get (d : gmap string pyval) (key : string) (dflt : pyval) : pyval :=
  default dflt (d !! key).

(** One entry of a listing, search or stat reply, its fields read with
    the defaults of [item.get("name", "")], [item.get("is_dir", False)],
    [item.get("size", 0)] and [item.get("modified", "")]. *)
Record Entry := {
  name : string;
  is_dir : bool;
  size : Z;
  modified : string
}.

(** The [data] object of a list reply.  [content] is [None] for a JSON
    null; the object always carries keys, so it is truthy. *)
Record Listing := {
  content : option (list Entry);
  total : Z
}.

(** [{"current_path": str, "items": List[Dict], "parent_paths": List[str]}] *)
Record NavState := {
  current_path : string;
  items : list Entry;
  parent_paths : list string
}.

(** [{"waiting": bool, "target_path": str}] *)
Record UploadState := {
  waiting : bool;
  target_path : string
}.

(** One file of the cache directory: its modification time and the JSON
    object [{"timestamp": ..., "data": ...}] written into it. *)
Record CacheFile := {
  cf_mtime : Z;
  cf_timestamp : Z;
  cf_data : Listing
}.

(** What a file or image component of a message gives when it is fetched:
    [get_file()] / [convert_to_file_path()] raising, returning nothing, or
    a local path with [os.path.exists] and [os.path.getsize] of it. *)
Inductive Fetched :=
| FetchRaises (e : string)
| FetchNothing
| FetchPath (p : string) (file_exists : bool) (file_size : Z).

Record Attachment := {
  att_is_image : bool;
  att_name : string;
  att_fetch : Fetched
}.

(** Deferred actions created with [asyncio.create_task]. *)
Inductive Task :=
| AutoCancelUpload (user_id : string)
| CleanupFile (f : string * Z * string).

(** Requests that leave the process. *)
Inductive Call :=
| CallLogin (base_url : string) (username password : pyval)
| CallList (base_url : string) (auth : option pyval) (path : string)
| CallGet (base_url : string) (auth : option pyval) (path : string)
| CallSearch (base_url : string) (auth : option pyval) (keyword path : string)
| CallPut (base_url : string) (auth : option pyval) (file_path dest : string)
| CallFetch (url : string).

(** Their answers.  [RNone] is any failure the client swallows (status or
    code other than 200, transport exception); [RRaise] is an exception of
    the plain HTTP GET of a download, which no client method wraps. *)
Inductive Reply :=
| RNone
| RToken (t : pyval)
| RListing (l : Listing)
| REntry (e : Entry)
| RFound (l : list Entry)
| RPutOk
| RBody (status : Z) (chunks : list Z)
| RRaise (e : string).

(** The text built by [_format_file_list]. *)
Inductive ListText :=
| TEmptyDir (path : string)
| TFiles (path : string) (shown : list Entry) (dirs files back : nat).

(** Replies yielded to the user. *)
Inductive Msg :=
| MConfigMissing
| MConfigMissingUpload
| MInvalidIndex (n : Z)
| MPreparing (file_name : string)
| MTooLarge (file_size limit_mb : Z)
| MNoDownloadUrl
| MDownloadStart (file_name : string) (file_size : Z)
| MProgress (downloaded file_size : Z)
| MDownloadDone
| MSendFile (file_name : string) (temp : string * Z * string)
| MDownloadHttp (status : Z)
| MDownloadFailed (e : string)
| MListing (t : ListText) (from_cache : bool)
| MCannotAccess (path : string)
| MOperationFailed (e : string)
| MNeedKeyword
| MNeedPath
| MNeedPathOrIndex
| MSearchResult (keyword path : string) (shown : list Entry) (hidden : nat)
| MSearchNothing (keyword : string)
| MSearchFailed (e : string)
| MInfo (path : string) (e : Entry) (link : option string)
| MNoSuchFile (path : string)
| MIsDirectory (n : Z)
| MLink (e : Entry) (url : string)
| MBareLink (url : string)
| MNoLink (path : string)
| MAtRoot
| MWentBack (t : ListText)
| MCannotAccessParent (path : string)
| MBackFailed (e : string)
| MUploadCancelled
| MNotUploading
| MUploadStarted (path : string)
| MUploadUnknownAction
| MNoAttachment
| MCannotGetFile (image : bool)
| MUploadTooLarge (image : bool) (file_size limit_mb : Z)
| MUploadStart (image : bool) (file_name : string) (file_size : Z) (target : string)
| MUploadOk (image : bool) (file_name target : string)
| MDirRefreshed (t : ListText)
| MUploadRejected
| MUploadFailed (e : string)
| MConfigShown (cfg : gmap string pyval)
| MSetupGuide
| MNeedKey
| MNeedValue
| MUnknownKey (key : string)
| MDisplayRange
| MDisplayNotNumber
| MConfigSet (key : string) (v : pyval)
| MTestOk
| MTestFailed
| MTestError (e : string)
| MCacheCleared
| MUnknownConfigAction
| MHelp (auth_mode configured : bool).

(** The plugin instance, the files it keeps, the event loop's clock and
    pending tasks, the log of what was sent and requested, and the remote
    side: what it answers to a call, given the calls made so far. *)
Record World := {
  remote : list Call -> Call -> Reply;
  config : option (gmap string (gmap string pyval));
  user_files : gmap string (gmap string pyval);
  cache_dir : gmap string CacheFile;
  downloads : gset (string * Z * string);
  user_navigation_state : gmap string NavState;
  user_upload_state : gmap string UploadState;
  now : Z;
  tasks : list (Z * Task);
  sent : list Msg;
  calls : list Call
}.

Definition with_user_files (f : gmap string (gmap string pyval)) (w : World) : World :=
  {| remote := remote w; config := config w; user_files := f; cache_dir := cache_dir w;
     downloads := downloads w;
     user_navigation_state := user_navigation_state w;
     user_upload_state := user_upload_state w; now := now w;
     tasks := tasks w; sent := sent w; calls := calls w |}.

Definition with_cache_dir (c : gmap string CacheFile) (w : World) : World :=
  {| remote := remote w; config := config w; user_files := user_files w; cache_dir := c;
     downloads := downloads w;
     user_navigation_state := user_navigation_state w;
     user_upload_state := user_upload_state w; now := now w;
     tasks := tasks w; sent := sent w; calls := calls w |}.

Definition with_downloads (d : gset (string * Z * string)) (w : World) : World :=
  {| remote := remote w; config := config w; user_files := user_files w; cache_dir := cache_dir w;
     downloads := d;
     user_navigation_state := user_navigation_state w;
     user_upload_state := user_upload_state w; now := now w;
     tasks := tasks w; sent := sent w; calls := calls w |}.

Definition with_nav (n : gmap string NavState) (w : World) : World :=
  {| remote := remote w; config := config w; user_files := user_files w; cache_dir := cache_dir w;
     downloads := downloads w;
     user_navigation_state := n;
     user_upload_state := user_upload_state w; now := now w;
     tasks := tasks w; sent := sent w; calls := calls w |}.

Definition with_upload (u : gmap string UploadState) (w : World) : World :=
  {| remote := remote w; config := config w; user_files := user_files w; cache_dir := cache_dir w;
     downloads := downloads w;
     user_navigation_state := user_navigation_state w;
     user_upload_state := u; now := now w;
     tasks := tasks w; sent := sent w; calls := calls w |}.

Definition with_now (t : Z) (w : World) : World :=
  {| remote := remote w; config := config w; user_files := user_files w; cache_dir := cache_dir w;
     downloads := downloads w;
     user_navigation_state := user_navigation_state w;
     user_upload_state := user_upload_state w; now := t;
     tasks := tasks w; sent := sent w; calls := calls w |}.

Definition with_tasks (ts : list (Z * Task)) (w : World) : World :=
  {| remote := remote w; config := config w; user_files := user_files w; cache_dir := cache_dir w;
     downloads := downloads w;
     user_navigation_state := user_navigation_state w;
     user_upload_state := user_upload_state w; now := now w;
     tasks := ts; sent := sent w; calls := calls w |}.

Definition with_sent (s : list Msg) (w : World) : World :=
  {| remote := remote w; config := config w; user_files := user_files w; cache_dir := cache_dir w;
     downloads := downloads w;
     user_navigation_state := user_navigation_state w;
     user_upload_state := user_upload_state w; now := now w;
     tasks := tasks w; sent := s; calls := calls w |}.

Definition with_calls (c : list Call) (w : World) : World :=
  {| remote := remote w; config := config w; user_files := user_files w; cache_dir := cache_dir w;
     downloads := downloads w;
     user_navigation_state := user_navigation_state w;
     user_upload_state := user_upload_state w; now := now w;
     tasks := tasks w; sent := sent w; calls := c |}.

(* ===================================================================== *)
(** ** State and exception monad of the handlers *)
(* ===================================================================== *)

Inductive res (A : Type) :=
| Val (a : A)
| Exc (e : string).
Arguments Val {A} a.
Arguments Exc {A} e.

Definition M (A : Type) : Type := World -> res A * World.

Definition ret {A} (a : A) : M A := fun w => (Val a, w).

Definition bind {A B} (m : M A) (k : A -> M B) : M B :=
  fun w => match m w with
           | (Val a, w') => k a w'
           | (Exc e, w') => (Exc e, w')
           end.

Definition raise {A} (e : string) : M A := fun w => (Exc e, w).

(** [try: body  except Exception as e: handler(e)]; what [body] did to the
    state before it raised stays done. *)
Definition try_except {A} (body : M A) (handler : string -> M A) : M A :=
  fun w => match body w with
           | (Val a, w') => (Val a, w')
           | (Exc e, w') => handler e w'
           end.

Definition get_world : M World := fun w => (Val w, w).
Definition modify (f : World -> World) : M unit := fun w => (Val tt, f w).

Declare Scope handler_scope.
Delimit Scope handler_scope with handler.
Notation "x <~ m ;; k" := (bind m (fun x => k))
  (at level 100, m at next level, right associativity) : handler_scope.
Notation "m ;;; k" := (bind m (fun _ => k))
  (at level 100, right associativity) : handler_scope.
Local Open Scope handler_scope.

(** [yield event.plain_result(...)] *)
Definition yield (m : Msg) : M unit := modify (fun w => with_sent (sent w ++ [m]) w).

(** [asyncio.create_task] of a coroutine that first sleeps [delay] seconds. *)
Definition create_task (delay : Z) (t : Task) : M unit :=
  modify (fun w => with_tasks (tasks w ++ [((now w + delay)%Z, t)]) w).

(** [int(s)]: the number, or [ValueError]. *)
Definition int_of_text (s : string) : M Z :=
  match Py.int s with
  | Some n => ret n
  | None => raise "ValueError"
  end.

(** A number or [TypeError]. *)
Definition number (v : pyval) : M Z :=
  match as_int v with
  | Some z => ret z
  | None => raise "TypeError"
  end.

(** The upper bound of a slice: a number, [None] for no bound, or
    [TypeError]. *)
Definition slice_bound (v : pyval) : M (option Z) :=
  match v with
  | PNone => ret None
  | _ => n <~ number v ;; ret (Some n)
  end.

(* ===================================================================== *)
(** ** Configuration layers: [get_webui_config], [UserConfigManager],
       [get_user_config] *)
(* ===================================================================== *)

(** [self.config.get("global_settings", {}).get(key, default)] when
    [self.config] is truthy, else [default]. *)
Definition get_webui_config (w : World) (key : string) (dflt : pyval) : pyval :=
  match config w with
  | Some c =>
      if decide (c = ∅) then dflt
      else dict_get (default ∅ (c !! "global_settings")) key dflt
  | None => dflt
  end.

Definition default_extensions : list string :=
  [".txt"; ".pdf"; ".doc"; ".docx"; ".zip"; ".rar"; ".jpg"; ".png"; ".gif";
   ".mp4"; ".mp3"].

(** [UserConfigManager.default_config] *)
Definition default_config : gmap string pyval :=
  list_to_map
    [("alist_url", PStr ""); ("username", PStr ""); ("password", PStr "");
     ("token", PStr ""); ("max_display_files", PInt 20);
     ("allowed_extensions", PList default_extensions);
     ("enable_preview", PBool true); ("setup_completed", PBool false)].

(** [UserConfigManager.load_config]: the stored dictionary over the
    defaults; the defaults alone when there is no file. *)
Definition load_config (w : World) (user_id : string) : gmap string pyval :=
  match user_files w !! user_id with
  | Some stored => stored ∪ default_config
  | None => default_config
  end.

(** [UserConfigManager.save_config] *)
Definition save_config (user_id : string) (cfg : gmap string pyval) : M unit :=
  modify (fun w => with_user_files (<[user_id := cfg]> (user_files w)) w).

(** [UserConfigManager.is_configured] *)
Definition is_configured (w : World) (user_id : string) : bool :=
  let cfg := load_config w user_id in
  truthy (dict_get cfg "setup_completed" (PBool false))
  && truthy (dict_get cfg "alist_url" PNone).

(** [x.split(",") if isinstance(x, str) else x] *)
Definition split_extensions (v : pyval) : pyval :=
  match v with
  | PStr s => PList (Py.split "," s)
  | _ => v
  end.

(** [if not user_config.get(key) and dflt: user_config[key] = dflt] *)
Definition fall_back (key : string) (dflt : pyval) (user_config : gmap string pyval)
  : gmap string pyval :=
  if negb (truthy (dict_get user_config key PNone)) && truthy dflt
  then <[key := dflt]> user_config
  else user_config.

Definition get_user_config (w : World) (user_id : string) : gmap string pyval :=
  let require_user_auth := get_webui_config w "require_user_auth" (PBool true) in
  let default_alist_url := get_webui_config w "default_alist_url" (PStr "") in
  let default_username := get_webui_config w "default_username" (PStr "") in
  let default_password := get_webui_config w "default_password" (PStr "") in
  let default_token := get_webui_config w "default_token" (PStr "") in
  let max_display_files := get_webui_config w "max_display_files" (PInt 20) in
  let allowed_extensions :=
    get_webui_config w "allowed_extensions"
      (PStr ".txt,.pdf,.doc,.docx,.zip,.rar,.jpg,.png,.gif,.mp4,.mp3") in
  let enable_preview := get_webui_config w "enable_preview" (PBool true) in
  if truthy require_user_auth then
    let user_config := load_config w user_id in
    let user_config := fall_back "alist_url" default_alist_url user_config in
    let user_config := fall_back "username" default_username user_config in
    let user_config := fall_back "password" default_password user_config in
    let user_config := fall_back "token" default_token user_config in
    let user_config := <["max_display_files" := max_display_files]> user_config in
    let user_config :=
      <["allowed_extensions" := split_extensions allowed_extensions]> user_config in
    <["enable_preview" := enable_preview]> user_config
  else
    list_to_map
      [("alist_url", default_alist_url); ("username", default_username);
       ("password", default_password); ("token", default_token);
       ("max_display_files", max_display_files);
       ("allowed_extensions", split_extensions allowed_extensions);
       ("enable_preview", enable_preview)].

Definition _validate_config (user_config : gmap string pyval) : bool :=
  truthy (dict_get user_config "alist_url" PNone).

(* ===================================================================== *)
(** ** Navigation and upload state *)
(* ===================================================================== *)

Definition set_current_path (p : string) (s : NavState) : NavState :=
  {| current_path := p; items := items s; parent_paths := parent_paths s |}.

Definition set_items (l : list Entry) (s : NavState) : NavState :=
  {| current_path := current_path s; items := l; parent_paths := parent_paths s |}.

Definition set_parent_paths (ps : list string) (s : NavState) : NavState :=
  {| current_path := current_path s; items := items s; parent_paths := ps |}.

Definition initial_nav : NavState :=
  {| current_path := "/"; items := []; parent_paths := [] |}.

(** The state dictionary of a user is created on first use; the handlers
    then mutate that one shared dictionary, here by key. *)
Definition _get_user_navigation_state (user_id : string) : M NavState :=
  fun w => match user_navigation_state w !! user_id with
           | Some s => (Val s, w)
           | None =>
               (Val initial_nav,
                with_nav (<[user_id := initial_nav]> (user_navigation_state w)) w)
           end.

(** [nav_state[field] = ...] on the user's dictionary. *)
Definition mutate_nav (user_id : string) (f : NavState -> NavState) : M unit :=
  modify (fun w => with_nav (alter f user_id (user_navigation_state w)) w).

Definition _is_forward_navigation (current_path new_path : string) : bool :=
  let current := Py.rstrip "/" current_path in
  let new := Py.rstrip "/" new_path in
  if negb (String.eqb current "/")
  then Py.startswith new (current ++ "/")
  else Py.startswith new "/".

Definition _update_user_navigation_state
    (user_id path : string) (new_items : list Entry) : M unit :=
  nav_state <~ _get_user_navigation_state user_id ;;
  (if negb (String.eqb path (current_path nav_state)) then
     (if _is_forward_navigation (current_path nav_state) path
      then mutate_nav user_id
             (fun s => set_parent_paths (parent_paths s ++ [current_path nav_state]) s)
      else ret tt) ;;;
     mutate_nav user_id (set_current_path path)
   else ret tt) ;;;
  mutate_nav user_id (set_items new_items).

Definition _get_item_by_number (user_id : string) (number : Z) : M (option Entry) :=
  nav_state <~ _get_user_navigation_state user_id ;;
  if (1 <=? number)%Z && (number <=? Z.of_nat (length (items nav_state)))%Z
  then ret (items nav_state !! Z.to_nat (number - 1))
  else ret None.

Definition initial_upload : UploadState :=
  {| waiting := false; target_path := "/" |}.

Definition _get_user_upload_state (user_id : string) : M UploadState :=
  fun w => match user_upload_state w !! user_id with
           | Some s => (Val s, w)
           | None =>
               (Val initial_upload,
                with_upload (<[user_id := initial_upload]> (user_upload_state w)) w)
           end.

(** [target_path] defaults to ["/"] at the call sites that omit it. *)
Definition _set_user_upload_waiting
    (user_id : string) (flag : bool) (target : string) : M unit :=
  _get_user_upload_state user_id ;;;
  modify (fun w =>
    with_upload
      (alter (fun _ => {| waiting := flag; target_path := target |}) user_id
             (user_upload_state w)) w).

(** What a user sees of the two dictionaries, whether or not their entry
    has been created yet. *)
Definition nav_of (w : World) (user_id : string) : NavState :=
  default initial_nav (user_navigation_state w !! user_id).

Definition upload_of (w : World) (user_id : string) : UploadState :=
  default initial_upload (user_upload_state w !! user_id).

(* ===================================================================== *)
(** ** [CacheManager] *)
(* ===================================================================== *)

(** [f"{v}"] *)
Definition format_val (v : pyval) : string :=
  match v with
  | PNone => "None"
  | PBool true => "True"
  | PBool false => "False"
  | PInt z => pretty z
  | PStr s => s
  | PList l => "[" ++ String.concat ", " (map (fun s => "'" ++ s ++ "'") l) ++ "]"
  end.

Definition _get_cache_key (url : pyval) (path user_id : string) : string :=
  MD5.hexdigest (format_val url ++ ":" ++ path ++ ":" ++ user_id).

(** Everything runs inside [try]/[except]: a [max_age] that is no number
    makes the comparison raise, which is swallowed into a miss. *)
Definition get_cache (url : pyval) (path user_id : string) (max_age : pyval)
  : M (option Listing) :=
  fun w =>
    let cache_key := _get_cache_key url path user_id in
    match cache_dir w !! cache_key with
    | None => (Val None, w)
    | Some f =>
        match as_int max_age with
        | None => (Val None, w)
        | Some age =>
            if (now w - cf_mtime f >? age)%Z
            then (Val None, with_cache_dir (delete cache_key (cache_dir w)) w)
            else (Val (Some (cf_data f)), w)
        end
    end.

Definition set_cache (url : pyval) (path user_id : string) (data : Listing) : M unit :=
  modify (fun w =>
    let cache_key := _get_cache_key url path user_id in
    with_cache_dir
      (<[cache_key := {| cf_mtime := now w; cf_timestamp := now w; cf_data := data |}]>
         (cache_dir w)) w).

(** The test of the user-scoped loop of [clear_cache] on one file stem. *)
Definition clear_matches (user_id cache_key : string) : bool :=
  let test_key := _get_cache_key (PStr "test") "test" user_id in
  Py.contains user_id test_key || Py.startswith cache_key (Py.take 8 test_key).

Definition clear_cache (user_id : string) : M unit :=
  modify (fun w =>
    if negb (String.eqb user_id "")
    then with_cache_dir
           (filter (fun kv => clear_matches user_id (fst kv) = false) (cache_dir w)) w
    else with_cache_dir ∅ w).

(* ===================================================================== *)
(** ** [AlistClient] *)
(* ===================================================================== *)

(** One request to the outside: answered by [remote], and logged. *)
Definition request (c : Call) : M Reply :=
  fun w => (Val (remote w (calls w) c), with_calls (calls w ++ [c]) w).

(** [d[key]] *)
Definition subscript (d : gmap string pyval) (key : string) : M pyval :=
  match d !! key with
  | Some v => ret v
  | None => raise "KeyError"
  end.

Module AlistClient.

Record t := {
  base_url : string;
  username : pyval;
  password : pyval;
  token : pyval
}.

(** The [Authorization] header, set only for a truthy token. *)
Definition auth (c : t) : option pyval :=
  if truthy (token c) then Some (token c) else None.

Definition login (c : t) : M t :=
  r <~ request (CallLogin (base_url c) (username c) (password c)) ;;
  match r with
  | RToken tok =>
      ret {| base_url := base_url c; username := username c;
             password := password c; token := tok |}
  | _ => ret c
  end.

(** [async with AlistClient(user_config["alist_url"], ...) as client]:
    the constructor strips the URL (a string method), [__aenter__] logs
    in when there is no token but a user name and a password. *)
Definition connect (user_config : gmap string pyval) : M t :=
  url <~ subscript user_config "alist_url" ;;
  match url with
  | PStr u =>
      let c := {| base_url := Py.rstrip "/" u;
                  username := dict_get user_config "username" (PStr "");
                  password := dict_get user_config "password" (PStr "");
                  token := dict_get user_config "token" (PStr "") |} in
      if negb (truthy (token c)) && truthy (username c) && truthy (password c)
      then login c
      else ret c
  | _ => raise "AttributeError"
  end.

Definition list_files (c : t) (path : string) : M (option Listing) :=
  r <~ request (CallList (base_url c) (auth c) path) ;;
  ret (match r with RListing l => Some l | _ => None end).

Definition get_file_info (c : t) (path : string) : M (option Entry) :=
  r <~ request (CallGet (base_url c) (auth c) path) ;;
  ret (match r with REntry e => Some e | _ => None end).

Definition search_files (c : t) (keyword path : string) : M (list Entry) :=
  r <~ request (CallSearch (base_url c) (auth c) keyword path) ;;
  ret (match r with RFound l => l | _ => [] end).

(** The link is [base_url + "/d" + quote(path)]; the percent-encoding
    of the path is left out. *)
Definition get_download_url (c : t) (path : string) : M (option string) :=
  file_info <~ get_file_info c path ;;
  match file_info with
  | Some e => if negb (is_dir e) then ret (Some (base_url c ++ "/d" ++ path)) else ret None
  | None => ret None
  end.

Definition upload_file (c : t) (file_path : string) (file_exists : bool)
    (target_path filename : string) : M bool :=
  if negb file_exists then ret false
  else
    r <~ request (CallPut (base_url c) (auth c) file_path
                    (Py.rstrip "/" target_path ++ "/" ++ filename)) ;;
    ret (match r with RPutOk => true | _ => false end).

End AlistClient.

(* ===================================================================== *)
(** ** Listing display and transfers *)
(* ===================================================================== *)

Definition MiB : Z := (1024 * 1024)%Z.

(** [f"{current_path}{name}"] or [f"{current_path}/{name}"] *)
Definition join_path (current_path file_name : string) : string :=
  if Py.endswith current_path "/" then current_path ++ file_name
  else current_path ++ "/" ++ file_name.

(** Directories first, then files, trimmed to [max_display_files]; the
    user's navigation state is updated with the trimmed list. *)
Definition _format_file_list (files : option (list Entry)) (current_path : string)
    (user_config : gmap string pyval) (user_id : string) : M ListText :=
  match files with
  | None | Some [] => ret (TEmptyDir current_path)
  | Some files =>
      let dirs := List.filter is_dir files in
      let files_only := List.filter (fun f => negb (is_dir f)) files in
      let all_items := (dirs ++ files_only)%list in
      let max_files := dict_get user_config "max_display_files" (PInt 20) in
      (if negb (String.eqb user_id "") then
         b <~ slice_bound max_files ;;
         _update_user_navigation_state user_id current_path (Py.slice_upto all_items b)
       else ret tt) ;;;
      b <~ slice_bound max_files ;;
      (* displayed_items = min(total_items, max_files) *)
      number max_files ;;;
      back <~ (if negb (String.eqb user_id "") then
                 nav_state <~ _get_user_navigation_state user_id ;;
                 ret (length (parent_paths nav_state))
               else ret O) ;;
      ret (TFiles current_path (Py.slice_upto all_items b)
                  (length dirs) (length files_only) back)
  end.

(** The chunk loop of a download: a progress line whenever the running
    total falls within one chunk after a multiple of 10 MiB. *)
Fixpoint receive_chunks (file_size downloaded : Z) (chunks : list Z) : M unit :=
  match chunks with
  | [] => ret tt
  | len :: rest =>
      let downloaded := (downloaded + len)%Z in
      (if (file_size >? 10 * MiB)%Z && (downloaded mod (10 * MiB) <? 8192)%Z
       then yield (MProgress downloaded file_size)
       else ret tt) ;;;
      receive_chunks file_size downloaded rest
  end.

(** The [try] block of [_download_file], entered once the size check has
    passed.  The temporary file is identified by what its name is built
    from: the user, [int(time.time())] and the file name. *)
Definition fetch_and_send (user_id : string) (file_item : Entry)
    (user_config : gmap string pyval) : M unit :=
  let file_name := name file_item in
  let file_size := size file_item in
  try_except
    (nav_state <~ _get_user_navigation_state user_id ;;
     let file_path := join_path (current_path nav_state) file_name in
     client <~ AlistClient.connect user_config ;;
     download_url <~ AlistClient.get_download_url client file_path ;;
     match download_url with
     | None => yield MNoDownloadUrl
     | Some url =>
         w <~ get_world ;;
         let temp := (user_id, now w, file_name) in
         yield (MDownloadStart file_name file_size) ;;;
         r <~ request (CallFetch url) ;;
         match r with
         | RBody status chunks =>
             if (status =? 200)%Z then
               modify (fun w => with_downloads ({[temp]} ∪ downloads w) w) ;;;
               receive_chunks file_size 0 chunks ;;;
               yield MDownloadDone ;;;
               yield (MSendFile file_name temp) ;;;
               create_task 10 (CleanupFile temp)
             else yield (MDownloadHttp status)
         | RRaise e => raise e
         | _ => raise "ClientError"
         end
     end)
    (fun e => yield (MDownloadFailed e)).

Definition _download_file (user_id : string) (file_item : Entry)
    (user_config : gmap string pyval) : M unit :=
  let file_size := size file_item in
  w <~ get_world ;;
  max_download_size_mb <~ number (get_webui_config w "max_download_size" (PInt 50)) ;;
  let max_download_size := (max_download_size_mb * 1024 * 1024)%Z in
  if (file_size >? max_download_size)%Z then
    yield (MTooLarge file_size max_download_size_mb)
  else fetch_and_send user_id file_item user_config.

(** What an upload does once the size check has passed: put, then a
    fresh listing of the target directory. *)
Definition put_and_refresh (image : bool) (user_id target_path filename : string)
    (user_config : gmap string pyval)
    (file_path : string) (file_exists : bool) (file_size : Z) : M unit :=
  yield (MUploadStart image filename file_size target_path) ;;;
  client <~ AlistClient.connect user_config ;;
  success <~ AlistClient.upload_file client file_path file_exists target_path filename ;;
  if success : bool then
    yield (MUploadOk image filename target_path) ;;;
    _set_user_upload_waiting user_id false "/" ;;;
    result <~ AlistClient.list_files client target_path ;;
    match result with
    | Some result =>
        formatted_list <~ _format_file_list (content result) target_path user_config user_id ;;
        yield (MDirRefreshed formatted_list)
    | None => ret tt
    end
  else yield MUploadRejected.

(** The part of [_upload_file] and [_upload_image] after the local file
    has been found: the size limit, then the transfer. *)
Definition upload_fetched (image : bool) (user_id target_path filename : string)
    (user_config : gmap string pyval)
    (file_path : string) (file_exists : bool) (file_size : Z) : M unit :=
  w <~ get_world ;;
  max_upload_size_mb <~ number (get_webui_config w "max_upload_size" (PInt 100)) ;;
  let max_upload_size := (max_upload_size_mb * 1024 * 1024)%Z in
  if (file_size >? max_upload_size)%Z then
    yield (MUploadTooLarge image file_size max_upload_size_mb)
  else
    put_and_refresh image user_id target_path filename user_config
      file_path file_exists file_size.

Definition _upload_file (user_id : string) (file_component : Attachment)
    (user_config : gmap string pyval) : M unit :=
  upload_state <~ _get_user_upload_state user_id ;;
  let target_path := target_path upload_state in
  try_except
    (let file_name := att_name file_component in
     match att_fetch file_component with
     | FetchRaises e => raise e
     | FetchNothing => yield (MCannotGetFile false)
     | FetchPath file_path file_exists file_size =>
         if String.eqb file_path "" || negb file_exists
         then yield (MCannotGetFile false)
         else upload_fetched false user_id target_path file_name user_config
                file_path file_exists file_size
     end)
    (fun e =>
       yield (MUploadFailed e) ;;;
       _set_user_upload_waiting user_id false "/").

Definition image_suffixes : list string :=
  [".png"; ".jpg"; ".jpeg"; ".gif"; ".webp"; ".bmp"].

Definition _upload_image (user_id : string) (image_component : Attachment)
    (user_config : gmap string pyval) : M unit :=
  upload_state <~ _get_user_upload_state user_id ;;
  let target_path := target_path upload_state in
  try_except
    (match att_fetch image_component with
     | FetchRaises e => raise e
     | FetchNothing => yield (MCannotGetFile true)
     | FetchPath image_path file_exists file_size =>
         if String.eqb image_path "" || negb file_exists
         then yield (MCannotGetFile true)
         else
           w <~ get_world ;;
           let timestamp := now w in
           let ext :=
             if existsb (Py.endswith (Py.lower image_path)) image_suffixes
             then Py.splitext_ext image_path
             else ".jpg" in
           let filename := "image_" ++ pretty timestamp ++ ext in
           upload_fetched true user_id target_path filename user_config
             image_path file_exists file_size
     end)
    (fun e =>
       yield (MUploadFailed e) ;;;
       _set_user_upload_waiting user_id false "/").

(* ===================================================================== *)
(** ** Commands of the [alist] group and the attachment handler *)
(* ===================================================================== *)

(** [/alist config ...] *)
Definition config_command (user_id action key value : string) : M unit :=
  if String.eqb action "show" then
    w <~ get_world ;;
    let user_config := get_user_config w user_id in
    let mask k (c : gmap string pyval) :=
      if truthy (dict_get c k PNone) then <[k := PStr "***"]> c else c in
    yield (MConfigShown (delete "setup_completed" (mask "token" (mask "password" user_config))))
  else if String.eqb action "setup" then
    yield MSetupGuide
  else if String.eqb action "set" then
    if String.eqb key "" then yield MNeedKey
    else if String.eqb value "" then yield MNeedValue
    else
      w <~ get_world ;;
      let user_config := load_config w user_id in
      let valid_keys := ["alist_url"; "username"; "password"; "token"; "max_display_files"] in
      if negb (existsb (String.eqb key) valid_keys) then yield (MUnknownKey key)
      else
        let store (v : pyval) :=
          let user_config := <[key := v]> user_config in
          let user_config :=
            if String.eqb key "alist_url" && truthy v
            then <["setup_completed" := PBool true]> user_config
            else user_config in
          save_config user_id user_config ;;;
          yield (MConfigSet key v) in
        if String.eqb key "max_display_files" then
          match Py.int_opt value with
          | Some n => if (n <? 1)%Z || (n >? 100)%Z then yield MDisplayRange
                      else store (PInt n)
          | None => yield MDisplayNotNumber
          end
        else store (PStr value)
  else if String.eqb action "test" then
    w <~ get_world ;;
    let user_config := get_user_config w user_id in
    if negb (_validate_config user_config) then yield MConfigMissing
    else
      try_except
        (client <~ AlistClient.connect user_config ;;
         files <~ AlistClient.list_files client "/" ;;
         match files with
         | Some _ => yield MTestOk
         | None => yield MTestFailed
         end)
        (fun e => yield (MTestError e))
  else if String.eqb action "clear_cache" then
    clear_cache user_id ;;;
    yield MCacheCleared
  else yield MUnknownConfigAction.

(** The part of [/alist ls] under its [try]: cache, then the server. *)
Definition browse (user_id target_path : string) (user_config : gmap string pyval)
  : M unit :=
  try_except
    (w <~ get_world ;;
     let enable_cache := get_webui_config w "enable_cache" (PBool true) in
     let cache_duration := get_webui_config w "cache_duration" (PInt 300) in
     cached_result <~
       (if truthy enable_cache then
          url <~ subscript user_config "alist_url" ;;
          get_cache url target_path user_id cache_duration
        else ret None) ;;
     match cached_result with
     | Some cached_result =>
         formatted_list <~
           _format_file_list (content cached_result) target_path user_config user_id ;;
         yield (MListing formatted_list true)
     | None =>
         client <~ AlistClient.connect user_config ;;
         result <~ AlistClient.list_files client target_path ;;
         match result with
         | Some result =>
             (if truthy enable_cache then
                url <~ subscript user_config "alist_url" ;;
                set_cache url target_path user_id result
              else ret tt) ;;;
             formatted_list <~
               _format_file_list (content result) target_path user_config user_id ;;
             yield (MListing formatted_list false)
         | None => yield (MCannotAccess target_path)
         end
     end)
    (fun e => yield (MOperationFailed e)).

(** [/alist ls [path | number]] *)
Definition list_files (user_id path : string) : M unit :=
  w <~ get_world ;;
  let user_config := get_user_config w user_id in
  if negb (_validate_config user_config) then yield MConfigMissing
  else if Py.isdigit path then
    number <~ int_of_text path ;;
    nav_state <~ _get_user_navigation_state user_id ;;
    item <~ _get_item_by_number user_id number ;;
    match item with
    | Some item =>
        if is_dir item then
          browse user_id (join_path (current_path nav_state) (name item)) user_config
        else
          yield (MPreparing (name item)) ;;;
          _download_file user_id item user_config
    | None => yield (MInvalidIndex number)
    end
  else browse user_id path user_config.

(** [/alist search <keyword> [path]] *)
Definition search_files (user_id keyword path : string) : M unit :=
  if String.eqb keyword "" then yield MNeedKeyword
  else
    w <~ get_world ;;
    let user_config := get_user_config w user_id in
    if negb (_validate_config user_config) then yield MConfigMissing
    else
      try_except
        (client <~ AlistClient.connect user_config ;;
         files <~ AlistClient.search_files client keyword path ;;
         match files with
         | [] => yield (MSearchNothing keyword)
         | _ =>
             max_files <~ number (dict_get user_config "max_display_files" (PInt 20)) ;;
             yield (MSearchResult keyword path (Py.slice_to files max_files)
                      (Z.to_nat (Z.of_nat (length files) - max_files)))
         end)
        (fun e => yield (MSearchFailed e)).

(** [/alist info <path>] *)
Definition file_info (user_id path : string) : M unit :=
  if String.eqb path "" then yield MNeedPath
  else
    w <~ get_world ;;
    let user_config := get_user_config w user_id in
    if negb (_validate_config user_config) then yield MConfigMissing
    else
      try_except
        (client <~ AlistClient.connect user_config ;;
         info <~ AlistClient.get_file_info client path ;;
         match info with
         | Some e =>
             link <~ (if negb (is_dir e)
                      then AlistClient.get_download_url client path
                      else ret None) ;;
             yield (MInfo path e link)
         | None => yield (MNoSuchFile path)
         end)
        (fun e => yield (MOperationFailed e)).

(** [/alist download <path | number>] *)
Definition get_download_link (user_id path : string) : M unit :=
  if String.eqb path "" then yield MNeedPathOrIndex
  else
    w <~ get_world ;;
    let user_config := get_user_config w user_id in
    if negb (_validate_config user_config) then yield MConfigMissing
    else if Py.isdigit path then
      number <~ int_of_text path ;;
      item <~ _get_item_by_number user_id number ;;
      match item with
      | Some item =>
          if is_dir item then yield (MIsDirectory number)
          else
            yield (MPreparing (name item)) ;;;
            _download_file user_id item user_config
      | None => yield (MInvalidIndex number)
      end
    else
      try_except
        (client <~ AlistClient.connect user_config ;;
         download_url <~ AlistClient.get_download_url client path ;;
         match download_url with
         | Some url =>
             info <~ AlistClient.get_file_info client path ;;
             match info with
             | Some e => yield (MLink e url)
             | None => yield (MBareLink url)
             end
         | None => yield (MNoLink path)
         end)
        (fun e => yield (MOperationFailed e)).

(** The [try] block of [/alist quit]: the previous path is listed again,
    uncached; the state is written directly and then once more through
    [_format_file_list]. *)
Definition relist_previous (user_id previous_path : string)
    (user_config : gmap string pyval) : M unit :=
  try_except
    (client <~ AlistClient.connect user_config ;;
     result <~ AlistClient.list_files client previous_path ;;
     match result with
     | Some result =>
         let files := content result in
         mutate_nav user_id (set_current_path previous_path) ;;;
         w <~ get_world ;;
         b <~ slice_bound (get_webui_config w "max_display_files" (PInt 20)) ;;
         match files with
         | Some fs => mutate_nav user_id (set_items (Py.slice_upto fs b))
         | None => raise "TypeError"
         end ;;;
         formatted_list <~
           _format_file_list files previous_path user_config user_id ;;
         yield (MWentBack formatted_list)
     | None => yield (MCannotAccessParent previous_path)
     end)
    (fun e => yield (MBackFailed e)).

(** [/alist quit] *)
Definition quit_navigation (user_id : string) : M unit :=
  w <~ get_world ;;
  let user_config := get_user_config w user_id in
  if negb (_validate_config user_config) then yield MConfigMissing
  else
    nav_state <~ _get_user_navigation_state user_id ;;
    match List.rev (parent_paths nav_state) with
    | [] => yield MAtRoot
    | previous_path :: _ =>
        (* previous_path = nav_state["parent_paths"].pop() *)
        mutate_nav user_id (fun s => set_parent_paths (removelast (parent_paths s)) s) ;;;
        relist_previous user_id previous_path user_config
    end.

(** The body of [auto_cancel_upload] once its 600 seconds have passed. *)
Definition auto_cancel_upload (user_id : string) : M unit :=
  upload_state <~ _get_user_upload_state user_id ;;
  if waiting upload_state
  then _set_user_upload_waiting user_id false "/"
  else ret tt.

(** [/alist upload [cancel]] *)
Definition upload_command (user_id action : string) : M unit :=
  if String.eqb action "cancel" then
    upload_state <~ _get_user_upload_state user_id ;;
    if waiting upload_state then
      _set_user_upload_waiting user_id false "/" ;;;
      yield MUploadCancelled
    else yield MNotUploading
  else if String.eqb action "" then
    w <~ get_world ;;
    let user_config := get_user_config w user_id in
    if negb (_validate_config user_config) then yield MConfigMissing
    else
      nav_state <~ _get_user_navigation_state user_id ;;
      let current_path := current_path nav_state in
      _set_user_upload_waiting user_id true current_path ;;;
      yield (MUploadStarted current_path) ;;;
      create_task 600 (AutoCancelUpload user_id)
  else yield MUploadUnknownAction.

(** A message carrying file or image components. *)
Definition handle_file_message (user_id : string) (file_components : list Attachment)
  : M unit :=
  upload_state <~ _get_user_upload_state user_id ;;
  if negb (waiting upload_state) then ret tt
  else
    w <~ get_world ;;
    let user_config := get_user_config w user_id in
    if negb (_validate_config user_config) then
      yield MConfigMissingUpload ;;;
      _set_user_upload_waiting user_id false "/"
    else
      match file_components with
      | [] => yield MNoAttachment
      | file_component :: _ =>
          if att_is_image file_component
          then _upload_image user_id file_component user_config
          else _upload_file user_id file_component user_config
      end.

(** [/alist help] *)
Definition help_command (user_id : string) : M unit :=
  w <~ get_world ;;
  let user_config := get_user_config w user_id in
  let is_user_auth_mode := get_webui_config w "require_user_auth" (PBool true) in
  yield (MHelp (truthy is_user_auth_mode) (_validate_config user_config)).

(* ===================================================================== *)
(** ** The event loop: messages arrive at given times, due tasks fire
       first *)
(* ===================================================================== *)

Inductive Command :=
| CmdConfig (action key value : string)
| CmdLs (path : string)
| CmdSearch (keyword path : string)
| CmdInfo (path : string)
| CmdDownload (path : string)
| CmdQuit
| CmdUpload (action : string)
| CmdHelp
| Attachments (file_components : list Attachment).

Definition handle (user_id : string) (c : Command) : M unit :=
  match c with
  | CmdConfig action key value => config_command user_id action key value
  | CmdLs path => list_files user_id path
  | CmdSearch keyword path => search_files user_id keyword path
  | CmdInfo path => file_info user_id path
  | CmdDownload path => get_download_link user_id path
  | CmdQuit => quit_navigation user_id
  | CmdUpload action => upload_command user_id action
  | CmdHelp => help_command user_id
  | Attachments file_components => handle_file_message user_id file_components
  end.

Definition run_task (t : Task) : M unit :=
  match t with
  | AutoCancelUpload user_id => auto_cancel_upload user_id
  | CleanupFile f => modify (fun w => with_downloads (downloads w ∖ {[f]}) w)
  end.

(** Stable insertion by wake-up time. *)
Fixpoint insert_task (x : Z * Task) (l : list (Z * Task)) : list (Z * Task) :=
  match l with
  | [] => [x]
  | y :: r => if (fst x <? fst y)%Z then x :: l else y :: insert_task x r
  end.

Definition by_wake_up (l : list (Z * Task)) : list (Z * Task) :=
  fold_left (fun acc x => insert_task x acc) l [].

Definition wake (x : Z * Task) (w : World) : World :=
  snd (run_task (snd x) (with_now (Z.max (now w) (fst x)) w)).

(** The clock moves to [t]; the tasks whose sleep ends by then run, in
    the order of their wake-up times. *)
Definition advance (t : Z) (w : World) : World :=
  let due := List.filter (fun x => (fst x <=? t)%Z) (tasks w) in
  let later := List.filter (fun x => negb (fst x <=? t)%Z) (tasks w) in
  let w := fold_left (fun w x => wake x w) (by_wake_up due) (with_tasks later w) in
  with_now (Z.max (now w) t) w.

(** One message of [user_id] arriving at time [t]. *)
Definition deliver (t : Z) (user_id : string) (c : Command) (w : World) : World :=
  snd (handle user_id c (advance t w)).

(* ===================================================================== *)
(** ** Vocabulary of the specification and sample data *)
(* ===================================================================== *)

(** The specification's test for a strict descendant: the new path,
    stripped of trailing slashes, starts with the stripped current path
    followed by a slash, or the current path is the root and the stripped
    new path starts with a slash. *)
Definition strict_descendant (current new : string) : Prop :=
  Py.startswith (Py.rstrip "/" new) (Py.rstrip "/" current ++ "/") = true
  \/ (current = "/" /\ Py.startswith (Py.rstrip "/" new) "/" = true).

(** The four connection settings a user may override, each with the key
    of its global default in the WebUI configuration. *)
Definition connection_keys : list (string * string) :=
  [("alist_url", "default_alist_url"); ("username", "default_username");
   ("password", "default_password"); ("token", "default_token")].

(** The error kinds of the specification's taxonomy that reach the user,
    and the reply that reports each of them. *)
Inductive ErrorKind :=
| ConfigurationMissing
| ConnectionFailure
| SizeExceeded
| InvalidIndex
| TransferError.

Definition error_kind (m : Msg) : option ErrorKind :=
  match m with
  | MConfigMissing | MConfigMissingUpload => Some ConfigurationMissing
  | MInvalidIndex _ => Some InvalidIndex
  | MTooLarge _ _ | MUploadTooLarge _ _ _ => Some SizeExceeded
  | MNoDownloadUrl | MCannotAccess _ | MCannotAccessParent _ | MNoSuchFile _
  | MNoLink _ | MTestFailed => Some ConnectionFailure
  | MDownloadHttp _ | MDownloadFailed _ | MUploadRejected | MUploadFailed _ =>
      Some TransferError
  | _ => None
  end.

(** A computation respects a relation between worlds when it relates
    every world to the one it leaves, whether it returns or raises. *)
Definition respects (R : World -> World -> Prop) {A} (m : M A) : Prop :=
  forall w, R w (snd (m w)).

(** Backstage steps: requests, cache files, tasks and temporary files may
    change; the users' dictionaries, the replies, the configuration and
    the clock do not. *)
Definition backstage (w w' : World) : Prop :=
  user_navigation_state w' = user_navigation_state w
  /\ user_upload_state w' = user_upload_state w
  /\ sent w' = sent w /\ config w' = config w
  /\ user_files w' = user_files w /\ now w' = now w /\ remote w' = remote w.

(** Both per-user dictionaries are the very same. *)
Definition untouched (w w' : World) : Prop :=
  user_navigation_state w' = user_navigation_state w
  /\ user_upload_state w' = user_upload_state w.

(** What the users see of their state is the same. *)
Definition same_views (w w' : World) : Prop :=
  (forall u, nav_of w' u = nav_of w u) /\ (forall u, upload_of w' u = upload_of w u).

(** A reply that reports no error kind other than a transfer error. *)
Definition harmless (m : Msg) : Prop :=
  error_kind m = None \/ error_kind m = Some TransferError.

(** The replies sent between two worlds. *)
Definition sent_between (w w' : World) (l : list Msg) : Prop :=
  sent w' = (sent w ++ l)%list.

(** Every reply but the two that go with a change of state: the report
    of a missing configuration to an attachment, and the report of a
    failed listing when going back. *)
Definition ordinary (m : Msg) : Prop :=
  match m with
  | MConfigMissingUpload | MCannotAccessParent _ => False
  | _ => True
  end.

(** Views kept, whatever ordinary reply is sent. *)
Definition keeping (w w' : World) : Prop :=
  same_views w w' /\ exists l, sent_between w w' l /\ Forall ordinary l.

(** Only harmless replies, whatever happens to the state. *)
Definition clean (w w' : World) : Prop :=
  exists l, sent_between w w' l /\ Forall harmless l.

(** Views kept and only harmless replies. *)
Definition neutral (w w' : World) : Prop :=
  same_views w w' /\ exists l, sent_between w w' l /\ Forall harmless l.

(** Steps that leave a user standing where they are: while the user's
    current path is [p] it stays [p] and the ancestor stack is kept; other
    users, the upload dictionary and the replies are not touched. *)
Definition staying (u p : string) (w w' : World) : Prop :=
  user_upload_state w' = user_upload_state w
  /\ sent w' = sent w
  /\ (forall v, v <> u -> nav_of w' v = nav_of w v)
  /\ (is_Some (user_navigation_state w !! u) -> is_Some (user_navigation_state w' !! u))
  /\ (current_path (nav_of w u) = p ->
      current_path (nav_of w' u) = p
      /\ parent_paths (nav_of w' u) = parent_paths (nav_of w u)).

(** A handler settles when, returning, it has either kept the views or
    sent only harmless replies, and, raising, has sent only harmless
    replies. *)
Definition settles {A} (m : M A) : Prop :=
  forall w, match m w with
            | (Val _, w') => keeping w w' \/ clean w w'
            | (Exc _, w') => clean w w'
            end.

(** Going back met a failed listing: one report; paths, entries and
    upload intents as before. *)
Definition went_back_failed (w w' : World) : Prop :=
  exists p, sent w' = (sent w ++ [MCannotAccessParent p])%list
  /\ (forall v, upload_of w' v = upload_of w v)
  /\ (forall v, current_path (nav_of w' v) = current_path (nav_of w v)
               /\ items (nav_of w' v) = items (nav_of w v)).

(** An attachment met a missing configuration: one report; the sender's
    upload intent is reset, nothing else changes. *)
Definition wait_dropped (u : string) (w w' : World) : Prop :=
  sent w' = (sent w ++ [MConfigMissingUpload])%list
  /\ (forall v, nav_of w' v = nav_of w v)
  /\ upload_of w' u = initial_upload
  /\ (forall v, v <> u -> upload_of w' v = upload_of w v).

Definition outcome (u : string) (w w' : World) : Prop :=
  keeping w w' \/ clean w w' \/ went_back_failed w w' \/ wait_dropped u w w'.

(** The claim on error reports as it is worded: whenever a command sends
    a report of an error kind other than a transfer error, what every
    user sees of the navigation and upload state is as before. *)
Definition sent_by (u : string) (c : Command) (w : World) : list Msg :=
  drop (length (sent w)) (sent (snd (handle u c w))).

Definition errors_keep_all_state : Prop :=
  forall w u c m k,
    In m (sent_by u c w) -> error_kind m = Some k -> k <> TransferError ->
    same_views w (snd (handle u c w)).

(** What [_update_user_navigation_state] makes of a user's state. *)
Definition entered (path : string) (l : list Entry) (s : NavState) : NavState :=
  if String.eqb path (current_path s) then set_items l s
  else {| current_path := path; items := l;
          parent_paths :=
            if _is_forward_navigation (current_path s) path
            then parent_paths s ++ [current_path s]
            else parent_paths s |}.

(** The world as [_get_user_navigation_state] leaves it: the user's
    dictionary exists. *)
Definition touch_nav (user_id : string) (w : World) : World :=
  match user_navigation_state w !! user_id with
  | Some _ => w
  | None => with_nav (<[user_id := initial_nav]> (user_navigation_state w)) w
  end.

Definition touch_upload (user_id : string) (w : World) : World :=
  match user_upload_state w !! user_id with
  | Some _ => w
  | None => with_upload (<[user_id := initial_upload]> (user_upload_state w)) w
  end.

(** A server that lists two directories and a file everywhere, and a
    server that is down. *)
Definition sample_entries : list Entry :=
  [ {| name := "b"; is_dir := true; size := 0; modified := "" |};
    {| name := "notes.txt"; is_dir := false; size := 120; modified := "" |};
    {| name := "c"; is_dir := true; size := 0; modified := "" |} ].

Definition sample_remote (history : list Call) (c : Call) : Reply :=
  match c with
  | CallList _ _ _ => RListing {| content := Some sample_entries; total := 3 |}
  | CallGet _ _ _ =>
      REntry {| name := "notes.txt"; is_dir := false; size := 120; modified := "" |}
  | CallPut _ _ _ _ => RPutOk
  | _ => RNone
  end.

Definition down_remote (history : list Call) (c : Call) : Reply := RNone.

Definition sample_settings : gmap string (gmap string pyval) :=
  {[ "global_settings" := {[ "default_alist_url" := PStr "http://x" ]} ]}.

(** A fresh plugin with a default server configured in the WebUI. *)
Definition sample_world (r : list Call -> Call -> Reply) : World :=
  {| remote := r; config := Some sample_settings; user_files := ∅;
     cache_dir := ∅; downloads := ∅; user_navigation_state := ∅;
     user_upload_state := ∅; now := 1000; tasks := []; sent := []; calls := [] |}.

(** The same plugin with user-auth isolation switched off, one user
    having stored a server of their own all the same. *)
Definition shared_world (r : list Call -> Call -> Reply) : World :=
  {| remote := r;
     config := Some {[ "global_settings" :=
                         {[ "default_alist_url" := PStr "http://x";
                            "require_user_auth" := PBool false ]} ]};
     user_files := {[ "u1" := {[ "alist_url" := PStr "http://mine" ]} ]};
     cache_dir := ∅; downloads := ∅; user_navigation_state := ∅;
     user_upload_state := ∅; now := 1000; tasks := []; sent := []; calls := [] |}.

(** A cache directory holding the root listing of [http://x] for two
    users. *)
Definition two_user_cache : World :=
  let data := {| content := Some sample_entries; total := 3 |} in
  snd (set_cache (PStr "http://x") "/" "20002" data
         (snd (set_cache (PStr "http://x") "/" "10001" data (sample_world down_remote)))).

(** No request for the bytes of a file among the calls made between two
    worlds. *)
Definition is_fetch (c : Call) : Prop :=
  match c with CallFetch _ => True | _ => False end.

Definition no_fetch (w w' : World) : Prop :=
  exists l, calls w' = (calls w ++ l)%list /\ Forall (fun c => ~ is_fetch c) l.

(** The same plugin with user ["u1"] standing in [/a] after coming from
    the root, three entries listed. *)
Definition sample_nav : NavState :=
  {| current_path := "/a";
     items := [ {| name := "b"; is_dir := true; size := 0; modified := "" |};
                {| name := "c"; is_dir := true; size := 0; modified := "" |};
                {| name := "notes.txt"; is_dir := false; size := 120; modified := "" |} ];
     parent_paths := ["/"] |}.

Definition browsing_world (r : list Call -> Call -> Reply) : World :=
  with_nav {[ "u1" := sample_nav ]} (sample_world r).

(** A user in upload-wait at [/docs] whose configuration has since lost
    its server. *)
Definition unconfigured_waiting : World :=
  {| remote := down_remote; config := None; user_files := ∅;
     cache_dir := ∅; downloads := ∅; user_navigation_state := ∅;
     user_upload_state := {[ "u1" := {| waiting := true; target_path := "/docs" |} ]};
     now := 1000; tasks := []; sent := []; calls := [] |}.

(* ===================================================================== *)
(** ** Frames: what a handler leaves as it is *)
(* ===================================================================== *)

(** No other user's navigation or upload state is seen to change. *)
Definition others_kept (u : string) (w w' : World) : Prop :=
  forall v, v <> u -> nav_of w' v = nav_of w v /\ upload_of w' v = upload_of w v.

Definition nav_kept (w w' : World) : Prop := forall v, nav_of w' v = nav_of w v.

Definition upload_kept (w w' : World) : Prop := forall v, upload_of w' v = upload_of w v.

(** Neither the users' stored configurations nor the WebUI configuration
    are written. *)
Definition settings_kept (w w' : World) : Prop :=
  user_files w' = user_files w /\ config w' = config w.

Definition cache_kept (w w' : World) : Prop := cache_dir w' = cache_dir w.

Definition calls_kept (w w' : World) : Prop := calls w' = calls w.

(** Replies are only ever added. *)
Definition appends (w w' : World) : Prop := exists l, sent w' = (sent w ++ l)%list.

(** At least one reply has been added. *)
Definition replied (w w' : World) : Prop :=
  exists m l, sent w' = (sent w ++ m :: l)%list.

(** A handler answers when it has replied whenever it returns, and
    always answers when it has replied however it ends. *)
Definition answers {A} (m : M A) : Prop :=
  forall w, appends w (snd (m w))
            /\ match fst (m w) with Val _ => replied w (snd (m w)) | Exc _ => True end.

Definition always_answers {A} (m : M A) : Prop :=
  forall w, replied w (snd (m w)).

(** Of the stored configurations only the sender's own file may have
    been written; the WebUI configuration is as it was. *)
Definition settings_confined (u : string) (w w' : World) : Prop :=
  config w' = config w /\ forall v, v <> u -> user_files w' !! v = user_files w !! v.

(** The cache files that differ are named by a key made for [u]. *)
Definition cache_confined (u : string) (w w' : World) : Prop :=
  forall k, (forall url path, k <> _get_cache_key url path u) ->
            cache_dir w' !! k = cache_dir w !! k.

(** A step that cannot raise. *)
Definition returns {A} (m : M A) : Prop := forall w, exists a, fst (m w) = Val a.

(** The order in which [_format_file_list] numbers a listing:
    directories, then files. *)
Definition display_order (files : list Entry) : list Entry :=
  (List.filter is_dir files ++ List.filter (fun f => negb (is_dir f)) files)%list.

(** Where a listing shown came from.  From the cache: a file made for
    this user, path and address, no older than [cache_duration]; the world
    is left as it was, no request is sent.  From the server: the reply to a
    list request for the path, which, caching being enabled, is now the
    cache file for this user, path and address, dated now. *)
Definition listing_source (cfg : gmap string pyval) (w w' : World) (u target : string)
    (from_cache : bool) (fs : list Entry) : Prop :=
  if from_cache
  then exists url file age,
         cfg !! "alist_url" = Some url
         /\ cache_dir w !! _get_cache_key url target u = Some file
         /\ content (cf_data file) = Some fs
         /\ as_int (get_webui_config w "cache_duration" (PInt 300)) = Some age
         /\ (now w - cf_mtime file <= age)%Z
         /\ calls w' = calls w /\ cache_dir w' = cache_dir w
  else exists history base auth l,
         remote w history (CallList base auth target) = RListing l
         /\ content l = Some fs
         /\ (truthy (get_webui_config w "enable_cache" (PBool true)) = true ->
             exists url,
               cfg !! "alist_url" = Some url
               /\ cache_dir w' !! _get_cache_key url target u
                  = Some {| cf_mtime := now w; cf_timestamp := now w; cf_data := l |}).

(** What the one reply of a listing says about the state the listing
    leaves. *)
Definition listing_outcome (cfg : gmap string pyval) (u target : string)
    (w w' : World) (m : Msg) : Prop :=
  match m with
  | MListing (TFiles p shown d f back) from_cache =>
      p = target
      /\ nav_of w' u = entered target shown (nav_of w u)
      /\ back = length (parent_paths (nav_of w' u))
      /\ exists fs n,
           fs <> [] /\ listing_source cfg w w' u target from_cache fs
           /\ as_int (dict_get cfg "max_display_files" (PInt 20)) = Some n
           /\ shown = Py.slice_to (display_order fs) n
           /\ d = length (List.filter is_dir fs)
           /\ f = length (List.filter (fun e => negb (is_dir e)) fs)
  | MListing (TEmptyDir p) _ | MCannotAccess p =>
      p = target /\ nav_of w' u = nav_of w u
  | MOperationFailed _ => True
  | _ => False
  end.

(** The path an [ls] argument stands for: the child named by the entry a
    number resolves to, or the argument itself. *)
Definition ls_target (w : World) (u path : string) : string :=
  if Py.isdigit path then
    match Py.int path with
    | Some number =>
        match fst (_get_item_by_number u number w) with
        | Val (Some item) => join_path (current_path (nav_of w u)) (name item)
        | _ => path
        end
    | None => path
    end
  else path.


(** A command that reads its argument as a number and cannot: [ls] or
    [download] with a server configured and an argument that [isdigit]
    accepts and [int] refuses. *)
Definition number_refused (w : World) (user_id : string) (c : Command) : bool :=
  match c with
  | CmdLs path | CmdDownload path =>
      _validate_config (get_user_config w user_id)
      && Py.isdigit path
      && match Py.int path with Some _ => false | None => true end
  | _ => false
  end.

(** The server a configuration names. *)
Definition server_of (cfg : gmap string pyval) : string :=
  match cfg !! "alist_url" with
  | Some (PStr url) => Py.rstrip "/" url
  | _ => ""
  end.

(** A request made on behalf of a configuration.  It goes to the
    configured server.  A login carries the configured user name and
    password, and is made only when no token is configured.  Any other
    request of the API carries the configured token when there is one.
    The bytes of a file are fetched from the server's download path. *)
Definition server_call (cfg : gmap string pyval) (c : Call) : Prop :=
  let tok := dict_get cfg "token" (PStr "") in
  let authorised (a : option pyval) := truthy tok = true -> a = Some tok in
  match c with
  | CallLogin b user pass =>
      b = server_of cfg
      /\ user = dict_get cfg "username" (PStr "")
      /\ pass = dict_get cfg "password" (PStr "")
      /\ truthy tok = false /\ truthy user = true /\ truthy pass = true
  | CallList b a _ | CallGet b a _ | CallSearch b a _ _ | CallPut b a _ _ =>
      b = server_of cfg /\ authorised a
  | CallFetch url => exists p, url = (server_of cfg ++ "/d" ++ p)%string
  end.

(** The requests made between two worlds all satisfy [P]. *)
Definition only_calls (P : Call -> Prop) (w w' : World) : Prop :=
  exists l, calls w' = (calls w ++ l)%list /\ Forall P l.

(** A step that respects [R] and whose result, when it returns,
    satisfies [Q]. *)
Definition ensures {A} (R : World -> World -> Prop) (Q : A -> Prop) (m : M A) : Prop :=
  forall w, R w (snd (m w)) /\ match fst (m w) with Val a => Q a | Exc _ => True end.

(** A client made from a configuration. *)
Definition client_of (cfg : gmap string pyval) (c : AlistClient.t) : Prop :=
  AlistClient.base_url c = server_of cfg
  /\ (truthy (dict_get cfg "token" (PStr "")) = true ->
      AlistClient.token c = dict_get cfg "token" (PStr "")).

(** The name under which an attachment is stored on the server: a file
    keeps its own name, an image is named after the time, with the
    extension of its local path when that is an image extension. *)
Definition upload_name (timestamp : Z) (a : Attachment) (local_path : string) : string :=
  if att_is_image a then
    ("image_" ++ pretty timestamp
       ++ (if existsb (Py.endswith (Py.lower local_path)) image_suffixes
           then Py.splitext_ext local_path
           else ".jpg"))%string
  else att_name a.

(** A request that is no upload. *)
Definition not_put (c : Call) : Prop :=
  match c with CallPut _ _ _ _ => False | _ => True end.

(** The uploads among the requests made between two worlds are all of
    one local file to one destination. *)
Definition puts_only (file_path dest : string) (w w' : World) : Prop :=
  exists l, calls w' = (calls w ++ l)%list
            /\ forall b a fp d, In (CallPut b a fp d) l -> fp = file_path /\ d = dest.

(** How the handling of an attachment ends, seen from the replies and the
    sender's upload intent: a success announced names this upload, and
    either the intent is as it was and no success was announced, or the
    wait is over. *)
Definition upload_outcome (image : bool) (u target filename : string)
    (w w' : World) : Prop :=
  exists l, sent w' = (sent w ++ l)%list
  /\ (forall img f t, In (MUploadOk img f t) l -> img = image /\ f = filename /\ t = target)
  /\ ((upload_of w' u = upload_of w u /\ forall img f t, ~ In (MUploadOk img f t) l)
      \/ upload_of w' u = initial_upload).

(** The handling of an attachment ended without announcing a success:
    the sender's upload intent is as it was, or the wait is over. *)
Definition no_success (u : string) (w w' : World) : Prop :=
  exists l, sent w' = (sent w ++ l)%list
  /\ (forall img f t, ~ In (MUploadOk img f t) l)
  /\ (upload_of w' u = upload_of w u \/ upload_of w' u = initial_upload).
Example md5_empty : MD5.hexdigest "" = "d41d8cd98f00b204e9800998ecf8427e".
Proof. vm_compute. reflexivity. Qed.

Example md5_abc : MD5.hexdigest "abc" = "900150983cd24fb0d6963f7d28e17f72".
Proof. vm_compute. reflexivity. Qed.

Example md5_two_blocks :
  MD5.hexdigest "ABCDEFGHIJKLMNOPQRSTUVWXYZabcdefghijklmnopqrstuvwxyz0123456789"
  = "d174ab98d277d9f5a5611c2c9f419d9f".
Proof. vm_compute. reflexivity. Qed.

Example md5_cache_key :
  _get_cache_key (PStr "http://x") "/" "10001" = "cc4e58a997d0fbaa37a358ae4ece19b5".
Proof. vm_compute. reflexivity. Qed.

Example rstrip_ex :
  Py.rstrip "/" "/a/b//" = "/a/b" /\ Py.rstrip "/" "/" = "" /\ Py.rstrip "/" "a/b" = "a/b".
Proof. repeat split. Qed.

Example split_ex :
  Py.split "," ".txt,.pdf" = [".txt"; ".pdf"] /\ Py.split "," "" = [""]
  /\ Py.split "," "a,," = ["a"; ""; ""].
Proof. repeat split. Qed.

Example splitext_ex :
  Py.splitext_ext "/tmp/pic.PNG" = ".PNG" /\ Py.splitext_ext "/tmp/.png" = ""
  /\ Py.splitext_ext "/a.b/c" = "".
Proof. repeat split. Qed.

Example sample_resolves :
  get_user_config (sample_world down_remote) "u1" !! "alist_url" = Some (PStr "http://x").
Proof. vm_compute. reflexivity. Qed.

Example sample_ls_root :
  nav_of (deliver 1001 "u1" (CmdLs "/") (sample_world sample_remote)) "u1"
  = {| current_path := "/";
       items := [ {| name := "b"; is_dir := true; size := 0; modified := "" |};
                  {| name := "c"; is_dir := true; size := 0; modified := "" |};
                  {| name := "notes.txt"; is_dir := false; size := 120; modified := "" |} ];
       parent_paths := [] |}.
Proof. vm_compute. reflexivity. Qed.

Example sample_ls_then_index :
  let w1 := deliver 1001 "u1" (CmdLs "/") (sample_world sample_remote) in
  let w2 := deliver 1002 "u1" (CmdLs "2") w1 in
  current_path (nav_of w2 "u1") = "/c" /\ parent_paths (nav_of w2 "u1") = ["/"].
Proof. vm_compute. split; reflexivity. Qed.

Local Open Scope list_scope.

(* ===================================================================== *)
(** ** Basic facts on strings *)
(* ===================================================================== *)

Lemma rstrip_not_single (c : ascii) (s : string) : Py.rstrip c s <> String c EmptyString.
Proof.
  induction s as [|a t IH]; simpl; [discriminate|].
  destruct (Py.rstrip c t) as [|b r] eqn:E.
  - destruct (Ascii.eqb a c) eqn:Eac; [discriminate|].
    intros H. injection H as ->. rewrite Ascii.eqb_refl in Eac. discriminate.
  - discriminate.
Qed.

Lemma rstrip_root : Py.rstrip "/" "/" = "".
Proof. reflexivity. Qed.

(** The code's forward test is the specification's descendant test: the
    [else] branch of the source is never taken, a stripped path never
    being ["/"], and the root case is covered by the first disjunct. *)
Lemma forward_iff_descendant (current new : string) :
  _is_forward_navigation current new = true <-> strict_descendant current new.
Proof.
  unfold _is_forward_navigation, strict_descendant.
  destruct (String.eqb (Py.rstrip "/" current) "/") eqn:E.
  - apply String.eqb_eq in E. exfalso. exact (rstrip_not_single "/" current E).
  - simpl. split; [intros H; left; exact H|].
    intros [H | [-> H]]; [exact H|]. rewrite rstrip_root. exact H.
Qed.

Lemma forward_false_iff (current new : string) :
  _is_forward_navigation current new = false <-> ~ strict_descendant current new.
Proof.
  rewrite <- forward_iff_descendant.
  destruct (_is_forward_navigation current new); split; intros H; congruence.
Qed.

(* ===================================================================== *)
(** ** The per-user dictionaries *)
(* ===================================================================== *)

Lemma get_nav_run (u : string) (w : World) :
  _get_user_navigation_state u w = (Val (nav_of w u), touch_nav u w).
Proof.
  unfold _get_user_navigation_state, nav_of, touch_nav.
  destruct (user_navigation_state w !! u); reflexivity.
Qed.

Lemma touch_nav_lookup (u : string) (w : World) :
  user_navigation_state (touch_nav u w) !! u = Some (nav_of w u).
Proof.
  unfold touch_nav, nav_of.
  destruct (user_navigation_state w !! u) eqn:E; simpl; [exact E|].
  apply lookup_insert_eq.
Qed.

Lemma touch_nav_view (u v : string) (w : World) :
  nav_of (touch_nav u w) v = nav_of w v.
Proof.
  unfold touch_nav, nav_of.
  destruct (user_navigation_state w !! u) eqn:E; simpl; [reflexivity|].
  destruct (decide (u = v)) as [->|Hne].
  - rewrite lookup_insert_eq, E. reflexivity.
  - rewrite lookup_insert_ne by exact Hne. reflexivity.
Qed.

Lemma touch_nav_rest (u : string) (w : World) :
  remote (touch_nav u w) = remote w /\ config (touch_nav u w) = config w
  /\ user_files (touch_nav u w) = user_files w
  /\ cache_dir (touch_nav u w) = cache_dir w
  /\ downloads (touch_nav u w) = downloads w
  /\ user_upload_state (touch_nav u w) = user_upload_state w
  /\ now (touch_nav u w) = now w /\ tasks (touch_nav u w) = tasks w
  /\ sent (touch_nav u w) = sent w /\ calls (touch_nav u w) = calls w.
Proof.
  unfold touch_nav. destruct (user_navigation_state w !! u); simpl; repeat split.
Qed.

Lemma get_upload_run (u : string) (w : World) :
  _get_user_upload_state u w = (Val (upload_of w u), touch_upload u w).
Proof.
  unfold _get_user_upload_state, upload_of, touch_upload.
  destruct (user_upload_state w !! u); reflexivity.
Qed.

Lemma touch_upload_lookup (u : string) (w : World) :
  user_upload_state (touch_upload u w) !! u = Some (upload_of w u).
Proof.
  unfold touch_upload, upload_of.
  destruct (user_upload_state w !! u) eqn:E; simpl; [exact E|].
  apply lookup_insert_eq.
Qed.

Lemma touch_upload_view (u v : string) (w : World) :
  upload_of (touch_upload u w) v = upload_of w v.
Proof.
  unfold touch_upload, upload_of.
  destruct (user_upload_state w !! u) eqn:E; simpl; [reflexivity|].
  destruct (decide (u = v)) as [->|Hne].
  - rewrite lookup_insert_eq, E. reflexivity.
  - rewrite lookup_insert_ne by exact Hne. reflexivity.
Qed.

Lemma touch_upload_rest (u : string) (w : World) :
  remote (touch_upload u w) = remote w /\ config (touch_upload u w) = config w
  /\ user_files (touch_upload u w) = user_files w
  /\ cache_dir (touch_upload u w) = cache_dir w
  /\ downloads (touch_upload u w) = downloads w
  /\ user_navigation_state (touch_upload u w) = user_navigation_state w
  /\ now (touch_upload u w) = now w /\ tasks (touch_upload u w) = tasks w
  /\ sent (touch_upload u w) = sent w /\ calls (touch_upload u w) = calls w.
Proof.
  unfold touch_upload. destruct (user_upload_state w !! u); simpl; repeat split.
Qed.

(** Views after a mutation of one user's dictionary. *)
Lemma nav_of_alter (f : NavState -> NavState) (u v : string) (w w0 : World) (s : NavState) :
  user_navigation_state w !! u = Some s ->
  nav_of (with_nav (alter f u (user_navigation_state w)) w0) v
  = if decide (v = u) then f s else nav_of w v.
Proof.
  intros Hs. unfold nav_of. simpl.
  destruct (decide (v = u)) as [->|Hne].
  - rewrite lookup_alter_eq, Hs. reflexivity.
  - rewrite lookup_alter_ne by congruence. reflexivity.
Qed.

Lemma upload_of_alter (f : UploadState -> UploadState) (u v : string) (w w0 : World)
    (s : UploadState) :
  user_upload_state w !! u = Some s ->
  upload_of (with_upload (alter f u (user_upload_state w)) w0) v
  = if decide (v = u) then f s else upload_of w v.
Proof.
  intros Hs. unfold upload_of. simpl.
  destruct (decide (v = u)) as [->|Hne].
  - rewrite lookup_alter_eq, Hs. reflexivity.
  - rewrite lookup_alter_ne by congruence. reflexivity.
Qed.

Lemma world_ext (w w' : World) :
  remote w = remote w' -> config w = config w' -> user_files w = user_files w' ->
  cache_dir w = cache_dir w' -> downloads w = downloads w' ->
  user_navigation_state w = user_navigation_state w' ->
  user_upload_state w = user_upload_state w' -> now w = now w' ->
  tasks w = tasks w' -> sent w = sent w' -> calls w = calls w' -> w = w'.
Proof. destruct w, w'; simpl; intros; subst; reflexivity. Qed.

Lemma touch_nav_other (u v : string) (w : World) :
  v <> u -> user_navigation_state (touch_nav u w) !! v = user_navigation_state w !! v.
Proof.
  intros Hne. unfold touch_nav.
  destruct (user_navigation_state w !! u); simpl; [reflexivity|].
  apply lookup_insert_ne. congruence.
Qed.

(** [_update_user_navigation_state] never raises; it rewrites the one
    user's dictionary and nothing else. *)
Lemma update_nav_run (u path : string) (l : list Entry) (w : World) :
  _update_user_navigation_state u path l w
  = (Val tt, with_nav (<[u := entered path l (nav_of w u)]> (user_navigation_state w)) w).
Proof.
  unfold _update_user_navigation_state, bind at 1. rewrite get_nav_run.
  pose proof (touch_nav_rest u w) as (?&?&?&?&?&?&?&?&?&?).
  unfold entered.
  destruct (String.eqb path (current_path (nav_of w u))) eqn:Eq;
    [|destruct (_is_forward_navigation (current_path (nav_of w u)) path) eqn:Ef];
    unfold bind, ret, mutate_nav, modify; simpl; f_equal;
    (apply world_ext; simpl; try assumption);
    apply map_eq; intros v; (destruct (decide (v = u)) as [->|Hne];
      [ rewrite ?lookup_alter_eq, touch_nav_lookup, lookup_insert_eq; reflexivity
      | rewrite ?lookup_alter_ne, lookup_insert_ne by congruence;
        apply touch_nav_other; exact Hne ]).
Qed.

Lemma nav_of_insert (u v : string) (s : NavState) (w0 w : World) :
  nav_of (with_nav (<[u := s]> (user_navigation_state w0)) w) v
  = if decide (v = u) then s else nav_of w0 v.
Proof.
  unfold nav_of. simpl. destruct (decide (v = u)) as [->|Hne].
  - rewrite lookup_insert_eq. reflexivity.
  - rewrite lookup_insert_ne by congruence. reflexivity.
Qed.

(* ===================================================================== *)
(** ** Relations respected by the handlers *)
(* ===================================================================== *)

#[local] Instance backstage_preorder : PreOrder backstage.
Proof.
  split.
  - intros w. repeat split.
  - intros a b c (?&?&?&?&?&?&?) (?&?&?&?&?&?&?). repeat split; congruence.
Qed.

#[local] Instance untouched_preorder : PreOrder untouched.
Proof.
  split.
  - intros w. split; reflexivity.
  - intros a b c [? ?] [? ?]. split; congruence.
Qed.

Lemma same_views_refl (w : World) : same_views w w.
Proof. split; reflexivity. Qed.

Lemma same_views_trans (a b c : World) : same_views a b -> same_views b c -> same_views a c.
Proof.
  intros [H1 H2] [H3 H4]. split; intros u; [rewrite H3; apply H1 | rewrite H4; apply H2].
Qed.

Lemma sent_between_refl (w : World) : sent_between w w [].
Proof. unfold sent_between. rewrite app_nil_r. reflexivity. Qed.

Lemma sent_between_trans (a b c : World) (l1 l2 : list Msg) :
  sent_between a b l1 -> sent_between b c l2 -> sent_between a c (l1 ++ l2).
Proof. unfold sent_between. intros H1 H2. rewrite H2, H1, app_assoc. reflexivity. Qed.

#[local] Instance keeping_preorder : PreOrder keeping.
Proof.
  split.
  - intros w. split; [apply same_views_refl|].
    exists []. split; [apply sent_between_refl | constructor].
  - intros a b c [V1 [l1 [S1 F1]]] [V2 [l2 [S2 F2]]]. split.
    + eapply same_views_trans; eassumption.
    + exists (l1 ++ l2). split.
      * eapply sent_between_trans; eassumption.
      * apply Forall_app. split; assumption.
Qed.

#[local] Instance clean_preorder : PreOrder clean.
Proof.
  split.
  - intros w. exists []. split; [apply sent_between_refl | constructor].
  - intros a b c [l1 [S1 F1]] [l2 [S2 F2]]. exists (l1 ++ l2). split.
    + eapply sent_between_trans; eassumption.
    + apply Forall_app. split; assumption.
Qed.

#[local] Instance neutral_preorder : PreOrder neutral.
Proof.
  split.
  - intros w. split; [apply same_views_refl|].
    exists []. split; [apply sent_between_refl | constructor].
  - intros a b c [V1 [l1 [S1 F1]]] [V2 [l2 [S2 F2]]]. split.
    + eapply same_views_trans; eassumption.
    + exists (l1 ++ l2). split.
      * eapply sent_between_trans; eassumption.
      * apply Forall_app. split; assumption.
Qed.

Lemma backstage_untouched (w w' : World) : backstage w w' -> untouched w w'.
Proof. intros (?&?&_). split; assumption. Qed.

Lemma untouched_same_views (w w' : World) : untouched w w' -> same_views w w'.
Proof. intros [H1 H2]. unfold same_views, nav_of, upload_of. rewrite H1, H2. split; reflexivity. Qed.

Lemma backstage_neutral (w w' : World) : backstage w w' -> neutral w w'.
Proof.
  intros H. split.
  - apply untouched_same_views, backstage_untouched, H.
  - exists []. destruct H as (_&_&Hs&_). split; [|constructor].
    unfold sent_between. rewrite Hs, app_nil_r. reflexivity.
Qed.

Lemma neutral_clean (w w' : World) : neutral w w' -> clean w w'.
Proof. intros [_ H]. exact H. Qed.

Lemma harmless_ordinary (m : Msg) : harmless m -> ordinary m.
Proof. destruct m; simpl; intros [H|H]; try exact I; discriminate. Qed.

Lemma neutral_keeping (w w' : World) : neutral w w' -> keeping w w'.
Proof.
  intros [V [l [S F]]]. split; [exact V|]. exists l. split; [exact S|].
  eapply Forall_impl; [exact F|]. exact harmless_ordinary.
Qed.

Section Respects.
Context (R : World -> World -> Prop) `{!PreOrder R}.

Lemma respects_ret {A} (a : A) : respects R (ret a).
Proof. intros w. simpl. reflexivity. Qed.

Lemma respects_raise {A} (e : string) : respects R (@raise A e).
Proof. intros w. simpl. reflexivity. Qed.

Lemma respects_get_world : respects R get_world.
Proof. intros w. simpl. reflexivity. Qed.

Lemma respects_bind {A B} (m : M A) (k : A -> M B) :
  respects R m -> (forall a, respects R (k a)) -> respects R (bind m k).
Proof.
  intros Hm Hk w. unfold bind. specialize (Hm w).
  destruct (m w) as [[a|e] w1]; simpl in *; [|exact Hm].
  etransitivity; [exact Hm | apply Hk].
Qed.

Lemma respects_try_except {A} (body : M A) (handler : string -> M A) :
  respects R body -> (forall e, respects R (handler e)) ->
  respects R (try_except body handler).
Proof.
  intros Hb Hh w. unfold try_except. specialize (Hb w).
  destruct (body w) as [[a|e] w1]; simpl in *; [exact Hb|].
  etransitivity; [exact Hb | apply Hh].
Qed.

Lemma respects_number (v : pyval) : respects R (number v).
Proof. unfold number. destruct (as_int v); [apply respects_ret | apply respects_raise]. Qed.

Lemma respects_int_of_text (s : string) : respects R (int_of_text s).
Proof. unfold int_of_text. destruct (Py.int s); [apply respects_ret | apply respects_raise]. Qed.

Lemma respects_slice_bound (v : pyval) : respects R (slice_bound v).
Proof.
  unfold slice_bound. destruct v; try apply respects_ret;
    (apply respects_bind; [apply respects_number | intros; apply respects_ret]).
Qed.

Lemma respects_subscript (d : gmap string pyval) (k : string) : respects R (subscript d k).
Proof. unfold subscript. destruct (d !! k); [apply respects_ret | apply respects_raise]. Qed.

Lemma respects_weaken (R' : World -> World -> Prop) {A} (m : M A) :
  (forall w w', R' w w' -> R w w') -> respects R' m -> respects R m.
Proof. intros Hsub Hm w. apply Hsub, Hm. Qed.
End Respects.

(** One structural step of a proof that a handler respects a relation. *)
Ltac respects_step :=
  lazymatch goal with
  | |- respects _ (bind _ _) => apply respects_bind; [exact _| |intros ?]
  | |- respects _ (try_except _ _) => apply respects_try_except; [exact _| |intros ?]
  | |- respects _ (ret _) => apply respects_ret; exact _
  | |- respects _ (raise _) => apply respects_raise; exact _
  | |- respects _ get_world => apply respects_get_world; exact _
  | |- respects _ (number _) => apply respects_number; exact _
  | |- respects _ (int_of_text _) => apply respects_int_of_text; exact _
  | |- respects _ (slice_bound _) => apply respects_slice_bound; exact _
  | |- respects _ (subscript _ _) => apply respects_subscript; exact _
  | |- respects _ (match ?x with _ => _ end) => destruct x
  end.

(** *** Backstage primitives *)

Lemma backstage_request (c : Call) : respects backstage (request c).
Proof. intros w. simpl. repeat split. Qed.

Lemma backstage_create_task (d : Z) (t : Task) : respects backstage (create_task d t).
Proof. intros w. simpl. repeat split. Qed.

Lemma backstage_get_cache (url : pyval) (path u : string) (age : pyval) :
  respects backstage (get_cache url path u age).
Proof.
  intros w. unfold get_cache.
  destruct (cache_dir w !! _); [|simpl; repeat split].
  destruct (as_int age); [|simpl; repeat split].
  destruct (_ >? _)%Z; simpl; repeat split.
Qed.

Lemma backstage_set_cache (url : pyval) (path u : string) (d : Listing) :
  respects backstage (set_cache url path u d).
Proof. intros w. simpl. repeat split. Qed.

Lemma backstage_clear_cache (u : string) : respects backstage (clear_cache u).
Proof. intros w. unfold clear_cache, modify. simpl. destruct (negb _); simpl; repeat split. Qed.

Lemma backstage_login (c : AlistClient.t) : respects backstage (AlistClient.login c).
Proof.
  unfold AlistClient.login. respects_step; [apply backstage_request|].
  repeat respects_step.
Qed.

Lemma backstage_connect (cfg : gmap string pyval) : respects backstage (AlistClient.connect cfg).
Proof.
  unfold AlistClient.connect. repeat respects_step. apply backstage_login.
Qed.

Lemma backstage_client_list (c : AlistClient.t) (p : string) :
  respects backstage (AlistClient.list_files c p).
Proof.
  unfold AlistClient.list_files. respects_step; [apply backstage_request|]. respects_step.
Qed.

Lemma backstage_client_info (c : AlistClient.t) (p : string) :
  respects backstage (AlistClient.get_file_info c p).
Proof.
  unfold AlistClient.get_file_info. respects_step; [apply backstage_request|]. respects_step.
Qed.

Lemma backstage_client_search (c : AlistClient.t) (k p : string) :
  respects backstage (AlistClient.search_files c k p).
Proof.
  unfold AlistClient.search_files. respects_step; [apply backstage_request|]. respects_step.
Qed.

Lemma backstage_client_url (c : AlistClient.t) (p : string) :
  respects backstage (AlistClient.get_download_url c p).
Proof.
  unfold AlistClient.get_download_url. respects_step; [apply backstage_client_info|].
  repeat respects_step.
Qed.

Lemma backstage_client_upload (c : AlistClient.t) (fp : string) (ex : bool) (t f : string) :
  respects backstage (AlistClient.upload_file c fp ex t f).
Proof.
  unfold AlistClient.upload_file. respects_step; [respects_step|].
  respects_step; [apply backstage_request|]. respects_step.
Qed.

(* ===================================================================== *)
(** ** Standing where one is *)
(* ===================================================================== *)

#[local] Instance staying_preorder (u p : string) : PreOrder (staying u p).
Proof.
  split.
  - intros w. unfold staying. repeat split; auto.
  - intros a b c (U1&S1&O1&E1&C1) (U2&S2&O2&E2&C2). unfold staying. repeat split.
    + congruence.
    + congruence.
    + intros v Hv. rewrite O2, O1 by exact Hv. reflexivity.
    + auto.
    + apply C2, C1, H.
    + destruct (C1 H) as [Hc Hp]. destruct (C2 Hc) as [_ Hp2]. congruence.
Qed.

Lemma backstage_staying (u p : string) (w w' : World) : backstage w w' -> staying u p w w'.
Proof.
  intros (Hn&Hu&Hs&_). unfold staying, nav_of. rewrite Hn. repeat split; auto.
Qed.

Lemma staying_set_items (u p : string) (l : list Entry) :
  respects (staying u p) (mutate_nav u (set_items l)).
Proof.
  intros w. unfold mutate_nav, modify, staying, nav_of. simpl. repeat split.
  - intros v Hv. rewrite lookup_alter_ne by congruence. reflexivity.
  - intros [s Hs]. rewrite lookup_alter_eq, Hs. eexists. reflexivity.
  - rewrite lookup_alter_eq. destruct (user_navigation_state w !! u); simpl in *; assumption.
  - rewrite lookup_alter_eq. destruct (user_navigation_state w !! u); reflexivity.
Qed.

Lemma staying_update (u p : string) (l : list Entry) :
  respects (staying u p) (_update_user_navigation_state u p l).
Proof.
  intros w. rewrite update_nav_run. simpl. unfold staying. simpl. repeat split.
  - intros v Hv. rewrite nav_of_insert. destruct (decide (v = u)); [contradiction|reflexivity].
  - intros _. rewrite lookup_insert_eq. eexists. reflexivity.
  - rewrite nav_of_insert. destruct (decide (u = u)); [|contradiction].
    unfold entered. rewrite <- H, String.eqb_refl. reflexivity.
  - rewrite nav_of_insert. destruct (decide (u = u)); [|contradiction].
    unfold entered. rewrite <- H, String.eqb_refl. reflexivity.
Qed.

Lemma staying_get_nav (u p v : string) :
  respects (staying u p) (_get_user_navigation_state v).
Proof.
  intros w. rewrite get_nav_run. simpl.
  pose proof (touch_nav_rest v w) as (?&?&?&?&?&?&?&?&?&?).
  unfold staying. repeat split; try assumption.
  - intros x _. apply touch_nav_view.
  - intros [s Hs]. unfold touch_nav.
    destruct (user_navigation_state w !! v) eqn:E; simpl; [rewrite Hs; eauto|].
    destruct (decide (v = u)) as [->|Hne]; [congruence|].
    rewrite lookup_insert_ne by exact Hne. rewrite Hs. eauto.
  - rewrite touch_nav_view. assumption.
  - rewrite touch_nav_view. reflexivity.
Qed.

(** Listing the path a user already stands in keeps them there. *)
Lemma staying_format (u p : string) (files : option (list Entry)) (cfg : gmap string pyval) :
  respects (staying u p) (_format_file_list files p cfg u).
Proof.
  unfold _format_file_list.
  destruct files as [[|e l]|]; try (respects_step; fail).
  repeat first [ apply staying_update | apply staying_get_nav | respects_step ].
Qed.

(* ===================================================================== *)
(** ** Going back *)
(* ===================================================================== *)

(** Running one step of a handler whose effect is known by a [respects]
    lemma: the step's result and world get names, the lemma relates the
    worlds. *)
Ltac run_step lem r w1 H :=
  lazymatch goal with
  | |- context [bind ?m _ ?w] =>
      unfold bind at 1;
      pose proof (lem w) as H;
      destruct (m w) as [r w1]; simpl in H
  end.

#[local] Arguments _format_file_list : simpl never.
#[local] Arguments _update_user_navigation_state : simpl never.
#[local] Arguments get_user_config : simpl never.
#[local] Arguments get_webui_config : simpl never.

Ltac done_running := eexists _, _; split; [reflexivity|]; simpl.

Lemma relist_spec (u p : string) (cfg : gmap string pyval) (w : World) (s : NavState) :
  user_navigation_state w !! u = Some s ->
  exists r w', relist_previous u p cfg w = (r, w')
  /\ user_upload_state w' = user_upload_state w
  /\ (forall v, v <> u -> nav_of w' v = nav_of w v)
  /\ parent_paths (nav_of w' u) = parent_paths s
  /\ exists msg, sent w' = sent w ++ [msg]
     /\ ((msg = MCannotAccessParent p /\ nav_of w' u = s)
         \/ (exists e, msg = MBackFailed e)
         \/ (exists t, msg = MWentBack t /\ current_path (nav_of w' u) = p)).
Proof.
  intros Hs. unfold relist_previous, try_except.
  assert (Hv : nav_of w u = s) by (unfold nav_of; rewrite Hs; reflexivity).
  run_step (backstage_connect cfg) r1 w1 B1.
  destruct B1 as (N1&U1&S1&_).
  destruct r1 as [client|e]; simpl.
  2:{ done_running. rewrite U1, S1. unfold nav_of. simpl. rewrite N1. repeat split.
      - rewrite Hs. reflexivity.
      - eexists. split; [reflexivity|]. right. left. eauto. }
  run_step (backstage_client_list client p) r2 w2 B2.
  destruct B2 as (N2&U2&S2&_).
  destruct r2 as [[result|]|e]; simpl.
  3:{ done_running. rewrite U2, S2, U1, S1. unfold nav_of. simpl. rewrite N2, N1. repeat split.
      - rewrite Hs. reflexivity.
      - eexists. split; [reflexivity|]. right. left. eauto. }
  2:{ done_running. rewrite U2, S2, U1, S1. unfold nav_of. simpl. rewrite N2, N1. repeat split.
      - rewrite Hs. reflexivity.
      - eexists. split; [reflexivity|]. left. rewrite Hs. split; reflexivity. }
  (* the listing came: the state is written *)
  unfold bind at 1. simpl.
  set (w3 := with_nav (alter (set_current_path p) u (user_navigation_state w2)) w2).
  assert (Hs2 : user_navigation_state w2 !! u = Some s) by (rewrite N2, N1; exact Hs).
  assert (H3 : nav_of w3 u = set_current_path p s).
  { unfold w3. rewrite (nav_of_alter _ u u w2 w2 s Hs2).
    destruct (decide (u = u)); [reflexivity|contradiction]. }
  assert (O3 : forall v, v <> u -> nav_of w3 v = nav_of w v).
  { intros v Hne. unfold w3. rewrite (nav_of_alter _ u v w2 w2 s Hs2).
    destruct (decide (v = u)); [contradiction|]. unfold nav_of. rewrite N2, N1. reflexivity. }
  assert (U3 : user_upload_state w3 = user_upload_state w) by (simpl; congruence).
  assert (S3 : sent w3 = sent w) by (simpl; congruence).
  assert (Hrest :
    respects (staying u p)
      (bind (bind get_world (fun w0 =>
               bind (slice_bound (get_webui_config w0 "max_display_files" (PInt 20)))
                 (fun b => match content result with
                           | Some fs => mutate_nav u (set_items (Py.slice_upto fs b))
                           | None => raise "TypeError"
                           end)))
            (fun _ => _format_file_list (content result) p cfg u))).
  { repeat first [ apply staying_set_items | apply staying_format | respects_step ]. }
  specialize (Hrest w3). clearbody w3.
  unfold bind in Hrest at 1 2 3. unfold bind at 1 2 3. simpl in *.
  assert (Hfin : forall wf, staying u p w3 wf ->
            user_upload_state wf = user_upload_state w /\ sent wf = sent w
            /\ (forall v, v <> u -> nav_of wf v = nav_of w v)
            /\ parent_paths (nav_of wf u) = parent_paths s
            /\ current_path (nav_of wf u) = p).
  { intros wf (U4&S4&O4&_&C4). rewrite H3 in C4. destruct (C4 eq_refl) as [C6 P4].
    repeat split; try congruence.
    - intros v Hne. rewrite O4, O3 by exact Hne. reflexivity.
    - rewrite P4. reflexivity. }
  destruct (slice_bound _ w3) as [[b|e] w4]; simpl in *.
  2:{ done_running. destruct (Hfin _ Hrest) as (U&S&O&P&C). rewrite U, S. repeat split; auto.
      eexists. split; [reflexivity|]. right. left. eauto. }
  destruct (content result) as [fs|]; simpl in *.
  2:{ done_running. destruct (Hfin _ Hrest) as (U&S&O&P&C). rewrite U, S. repeat split; auto.
      eexists. split; [reflexivity|]. right. left. eauto. }
  unfold bind at 1.
  lazymatch goal with
  | |- context [_format_file_list ?a ?b ?c ?d ?x] =>
      destruct (_format_file_list a b c d x) as [[t|e] w6]
  end; simpl in *.
  - done_running. destruct (Hfin _ Hrest) as (U&S&O&P&C). rewrite U, S. repeat split; auto.
    eexists. split; [reflexivity|]. right. right. exists t. split; [reflexivity|]. exact C.
  - done_running. destruct (Hfin _ Hrest) as (U&S&O&P&C). rewrite U, S. repeat split; auto.
    eexists. split; [reflexivity|]. right. left. eauto.
Qed.

Lemma quit_pop_spec (u : string) (w : World) (ps : list string) (p : string) :
  _validate_config (get_user_config w u) = true ->
  parent_paths (nav_of w u) = ps ++ [p] ->
  exists r w', quit_navigation u w = (r, w')
  /\ user_upload_state w' = user_upload_state w
  /\ (forall v, v <> u -> nav_of w' v = nav_of w v)
  /\ parent_paths (nav_of w' u) = ps
  /\ exists msg, sent w' = sent w ++ [msg]
     /\ ((msg = MCannotAccessParent p
          /\ current_path (nav_of w' u) = current_path (nav_of w u)
          /\ items (nav_of w' u) = items (nav_of w u))
         \/ (exists e, msg = MBackFailed e)
         \/ (exists t, msg = MWentBack t /\ current_path (nav_of w' u) = p)).
Proof.
  intros Hvalid Hstack. unfold quit_navigation.
  unfold bind at 1. simpl. rewrite Hvalid. simpl.
  unfold bind at 1. rewrite get_nav_run. rewrite Hstack, rev_unit.
  unfold bind at 1. simpl.
  pose proof (touch_nav_rest u w) as (_&_&_&_&_&U0&_&_&S0&_).
  set (pop := fun s : NavState => set_parent_paths (removelast (parent_paths s)) s).
  set (w2 := with_nav (alter pop u (user_navigation_state (touch_nav u w))) (touch_nav u w)).
  assert (Hs : user_navigation_state w2 !! u = Some (pop (nav_of w u))).
  { unfold w2. simpl. rewrite lookup_alter_eq, touch_nav_lookup. reflexivity. }
  assert (O2 : forall v, v <> u -> nav_of w2 v = nav_of w v).
  { intros v Hne. unfold w2.
    rewrite (nav_of_alter pop u v _ _ _ (touch_nav_lookup u w)).
    destruct (decide (v = u)); [contradiction|]. apply touch_nav_view. }
  destruct (relist_spec u p (get_user_config w u) w2 _ Hs)
    as (r & w' & Erun & U & O & P & msg & S & Hmsg).
  exists r, w'. split; [exact Erun|].
  assert (Hpop : parent_paths (pop (nav_of w u)) = ps).
  { unfold pop. simpl. rewrite Hstack. apply removelast_last. }
  repeat split.
  - rewrite U. unfold w2. simpl. exact U0.
  - intros v Hne. rewrite O, O2 by exact Hne. reflexivity.
  - rewrite P. exact Hpop.
  - exists msg. split; [rewrite S; unfold w2; simpl; rewrite S0; reflexivity|].
    destruct Hmsg as [[-> Hn]|[He|Ht]]; [left|right; left; exact He|right; right; exact Ht].
    rewrite Hn. repeat split.
Qed.

Lemma quit_at_root_run (u : string) (w : World) :
  _validate_config (get_user_config w u) = true ->
  parent_paths (nav_of w u) = [] ->
  quit_navigation u w = yield MAtRoot (touch_nav u w).
Proof.
  intros Hvalid Hstack. unfold quit_navigation.
  unfold bind at 1. simpl. rewrite Hvalid. simpl.
  unfold bind at 1. rewrite get_nav_run. rewrite Hstack. reflexivity.
Qed.

(* ===================================================================== *)
(** ** Navigation session *)
(* ===================================================================== *)

(** C5. For every user and every integer [n] with
    [1 <= n <= len(indexedEntries)], [_get_item_by_number] returns the
    entry at position [n] (counting from one) of the user's current
    listing; for every other [n] it returns nothing. *)
Theorem resolve_index_in_range_only (w : World) (user_id : string) (n : Z) :
  let l := items (nav_of w user_id) in
  ((1 <= n <= Z.of_nat (length l))%Z ->
     exists e, l !! Z.to_nat (n - 1) = Some e
               /\ fst (_get_item_by_number user_id n w) = Val (Some e))
  /\ (~ (1 <= n <= Z.of_nat (length l))%Z ->
      fst (_get_item_by_number user_id n w) = Val None).
Proof.
  intros l. unfold _get_item_by_number, bind. rewrite get_nav_run. fold l. split.
  - intros [H1 H2].
    assert (Hlt : (Z.to_nat (n - 1) < length l)%nat) by lia.
    destruct (lookup_lt_is_Some_2 l _ Hlt) as [e He].
    exists e. split; [exact He|].
    replace (1 <=? n)%Z with true by (symmetry; apply Z.leb_le; lia).
    replace (n <=? Z.of_nat (length l))%Z with true by (symmetry; apply Z.leb_le; lia).
    simpl. rewrite He. reflexivity.
  - intros Hout.
    destruct (1 <=? n)%Z eqn:E1; [|reflexivity].
    destruct (n <=? Z.of_nat (length l))%Z eqn:E2; [|reflexivity].
    apply Z.leb_le in E1, E2. exfalso. apply Hout. lia.
Qed.

Lemma resolve_index_witness :
  (exists e, items sample_nav !! 1%nat = Some e
             /\ fst (_get_item_by_number "u1" 2 (browsing_world down_remote)) = Val (Some e))
  /\ fst (_get_item_by_number "u1" 4 (browsing_world down_remote)) = Val None
  /\ fst (_get_item_by_number "u1" 0 (browsing_world down_remote)) = Val None.
Proof.
  pose proof (resolve_index_in_range_only (browsing_world down_remote) "u1" 2) as [H2 _].
  pose proof (resolve_index_in_range_only (browsing_world down_remote) "u1" 4) as [_ H4].
  pose proof (resolve_index_in_range_only (browsing_world down_remote) "u1" 0) as [_ H0].
  split; [|split].
  - apply H2. vm_compute. split; discriminate.
  - apply H4. vm_compute. intros [_ H]. apply H. reflexivity.
  - apply H0. vm_compute. intros [H _]. apply H. reflexivity.
Defined.

(** C1. A path change into a strict descendant of the current path (the
    new path stripped of trailing slashes starts with the stripped current
    path followed by a slash, or the current path is the root and the
    stripped new path starts with a slash) pushes the old current path on
    the ancestor stack before switching; any other path change switches
    without pushing; going back pops the most recently pushed path, which
    is the path listed again (it is named in the failure report, and is
    the current path after a successful listing); going back on an empty
    stack replies "already at root", raises nothing and changes nothing
    the user sees. *)
Theorem navigation_enter_and_go_back (w : World) (user_id : string) :
  let s := nav_of w user_id in
  (forall path new_items,
      path <> current_path s -> strict_descendant (current_path s) path ->
      nav_of (snd (_update_user_navigation_state user_id path new_items w)) user_id
      = {| current_path := path; items := new_items;
           parent_paths := parent_paths s ++ [current_path s] |})
  /\ (forall path new_items,
      path <> current_path s -> ~ strict_descendant (current_path s) path ->
      nav_of (snd (_update_user_navigation_state user_id path new_items w)) user_id
      = {| current_path := path; items := new_items; parent_paths := parent_paths s |})
  /\ (forall ps p,
      _validate_config (get_user_config w user_id) = true ->
      parent_paths s = ps ++ [p] ->
      exists r w', quit_navigation user_id w = (r, w')
      /\ parent_paths (nav_of w' user_id) = ps
      /\ exists msg, sent w' = sent w ++ [msg]
         /\ ((msg = MCannotAccessParent p
              /\ current_path (nav_of w' user_id) = current_path s)
             \/ (exists e, msg = MBackFailed e)
             \/ (exists t, msg = MWentBack t /\ current_path (nav_of w' user_id) = p)))
  /\ (_validate_config (get_user_config w user_id) = true ->
      parent_paths s = [] ->
      exists w', quit_navigation user_id w = (Val tt, w')
      /\ sent w' = sent w ++ [MAtRoot] /\ calls w' = calls w
      /\ (forall v, nav_of w' v = nav_of w v)
      /\ user_upload_state w' = user_upload_state w).
Proof.
  intros s. repeat split.
  - intros path new_items Hne Hdesc. rewrite update_nav_run. simpl.
    rewrite nav_of_insert. destruct (decide (user_id = user_id)); [|contradiction].
    unfold entered. fold s.
    apply String.eqb_neq in Hne. rewrite Hne.
    apply forward_iff_descendant in Hdesc. rewrite Hdesc. reflexivity.
  - intros path new_items Hne Hdesc. rewrite update_nav_run. simpl.
    rewrite nav_of_insert. destruct (decide (user_id = user_id)); [|contradiction].
    unfold entered. fold s.
    apply String.eqb_neq in Hne. rewrite Hne.
    apply forward_false_iff in Hdesc. rewrite Hdesc. reflexivity.
  - intros ps p Hvalid Hstack.
    destruct (quit_pop_spec user_id w ps p Hvalid Hstack)
      as (r & w' & Erun & _ & _ & P & msg & S & Hmsg).
    exists r, w'. repeat split; [exact Erun|exact P|].
    exists msg. split; [exact S|].
    destruct Hmsg as [(-> & Hc & _)|[He|Ht]]; [left; split; [reflexivity|exact Hc]| |];
      [right; left; exact He | right; right; exact Ht].
  - intros Hvalid Hstack. rewrite (quit_at_root_run _ _ Hvalid Hstack).
    eexists. split; [reflexivity|].
    pose proof (touch_nav_rest user_id w) as (_&_&_&_&_&U0&_&_&S0&C0).
    simpl. rewrite S0. repeat split; try assumption.
    intros v. apply touch_nav_view.
Qed.

Lemma navigation_witness :
  let W := browsing_world sample_remote in
  nav_of (snd (_update_user_navigation_state "u1" "/a/b" [] W)) "u1"
  = {| current_path := "/a/b"; items := []; parent_paths := ["/"; "/a"] |}
  /\ nav_of (snd (_update_user_navigation_state "u1" "/c" [] W)) "u1"
     = {| current_path := "/c"; items := []; parent_paths := ["/"] |}
  /\ (exists r w', quit_navigation "u1" W = (r, w')
      /\ parent_paths (nav_of w' "u1") = []
      /\ exists msg, sent w' = sent W ++ [msg]
         /\ ((msg = MCannotAccessParent "/" /\ current_path (nav_of w' "u1") = "/a")
             \/ (exists e, msg = MBackFailed e)
             \/ (exists t, msg = MWentBack t /\ current_path (nav_of w' "u1") = "/")))
  /\ (exists w', quit_navigation "u1" (sample_world sample_remote) = (Val tt, w')
      /\ sent w' = [MAtRoot] /\ calls w' = []
      /\ (forall v, nav_of w' v = nav_of (sample_world sample_remote) v)
      /\ user_upload_state w' = ∅).
Proof.
  intros W.
  pose proof (navigation_enter_and_go_back W "u1") as (Hpush & Hswitch & Hpop & _).
  pose proof (navigation_enter_and_go_back (sample_world sample_remote) "u1")
    as (_ & _ & _ & Hroot).
  split; [|split; [|split]].
  - apply (Hpush "/a/b" []).
    + intros H. vm_compute in H. discriminate.
    + left. vm_compute. reflexivity.
  - apply (Hswitch "/c" []).
    + intros H. vm_compute in H. discriminate.
    + intros [H|[H _]]; vm_compute in H; discriminate.
  - apply (Hpop [] "/"); vm_compute; reflexivity.
  - apply Hroot; vm_compute; reflexivity.
Defined.

Example go_back_after_descent :
  let w1 := deliver 1001 "u1" (CmdLs "/") (sample_world sample_remote) in
  let w2 := deliver 1002 "u1" (CmdLs "1") w1 in
  let w3 := deliver 1003 "u1" CmdQuit w2 in
  let w4 := deliver 1004 "u1" CmdQuit w3 in
  parent_paths (nav_of w2 "u1") = ["/"] /\ current_path (nav_of w2 "u1") = "/b"
  /\ parent_paths (nav_of w3 "u1") = [] /\ current_path (nav_of w3 "u1") = "/"
  /\ List.last (sent w4) MSetupGuide = MAtRoot /\ nav_of w4 "u1" = nav_of w3 "u1".
Proof. vm_compute. repeat split. Qed.

(** From the root, a path of slashes only is no descent: stripped, it is
    empty. *)
Example root_to_slashes_does_not_push :
  let w := snd (_update_user_navigation_state "u1" "//" [] (sample_world down_remote)) in
  nav_of w "u1" = {| current_path := "//"; items := []; parent_paths := [] |}.
Proof. vm_compute. reflexivity. Qed.

(* ===================================================================== *)
(** ** Response cache *)
(* ===================================================================== *)

Lemma get_cache_other (url : pyval) (path u : string) (age : pyval) (w : World) (k : string) :
  k <> _get_cache_key url path u ->
  cache_dir (snd (get_cache url path u age w)) !! k = cache_dir w !! k.
Proof.
  intros Hne. unfold get_cache.
  destruct (cache_dir w !! _get_cache_key url path u); [|reflexivity].
  destruct (as_int age); [|reflexivity].
  destruct (_ >? _)%Z; simpl; [|reflexivity].
  apply lookup_delete_ne. congruence.
Qed.

Lemma run_task_cache (t : Task) (w : World) : cache_dir (snd (run_task t w)) = cache_dir w.
Proof.
  destruct t as [u|f]; simpl; [|reflexivity].
  unfold auto_cancel_upload, bind. rewrite get_upload_run.
  pose proof (touch_upload_rest u w) as (_&_&_&Hc&_).
  destruct (waiting (upload_of w u)); simpl; [|exact Hc].
  unfold _set_user_upload_waiting, bind. rewrite get_upload_run. simpl.
  pose proof (touch_upload_rest u (touch_upload u w)) as (_&_&_&Hc2&_). congruence.
Qed.

Lemma wake_all_cache (l : list (Z * Task)) (w : World) :
  cache_dir (fold_left (fun w x => wake x w) l w) = cache_dir w.
Proof.
  revert w. induction l as [|x l IH]; intros w; simpl; [reflexivity|].
  rewrite IH. unfold wake. rewrite run_task_cache. reflexivity.
Qed.

(** The event loop has no sweep: time passing and tasks waking leave the
    cache directory as it is. *)
Lemma advance_cache (t : Z) (w : World) : cache_dir (advance t w) = cache_dir w.
Proof. unfold advance. simpl. rewrite wake_all_cache. reflexivity. Qed.

(** C2. For every key triple (server URL, path, user): a get right after
    a set with the same triple returns the listing that was set; a get
    more than [max_age] seconds later returns nothing and deletes the
    record, after which any get of the triple finds nothing and changes
    nothing, the directory being what it was before the set when the
    triple had no record then.  Reading is the only eviction: a get
    removes no record but a stale one under its own key, a set removes
    none, and the passing of time removes none. *)
Theorem cache_get_after_set (w : World) (url : pyval) (path user_id : string)
    (data : Listing) (max_age : Z) :
  (0 <= max_age)%Z ->
  let key := _get_cache_key url path user_id in
  let w1 := snd (set_cache url path user_id data w) in
  get_cache url path user_id (PInt max_age) w1 = (Val (Some data), w1)
  /\ (forall t, (t - now w > max_age)%Z ->
      exists w3, get_cache url path user_id (PInt max_age) (with_now t w1) = (Val None, w3)
      /\ cache_dir w3 = delete key (cache_dir w)
      /\ (cache_dir w !! key = None -> cache_dir w3 = cache_dir w)
      /\ forall age' t',
           get_cache url path user_id age' (with_now t' w3) = (Val None, with_now t' w3))
  /\ (forall w0 url0 path0 user0 age0 k f,
      cache_dir w0 !! k = Some f ->
      cache_dir (snd (get_cache url0 path0 user0 age0 w0)) !! k = None ->
      k = _get_cache_key url0 path0 user0
      /\ exists a, as_int age0 = Some a /\ (now w0 - cf_mtime f > a)%Z)
  /\ (forall w0 url0 path0 user0 data0 k,
      is_Some (cache_dir w0 !! k) ->
      is_Some (cache_dir (snd (set_cache url0 path0 user0 data0 w0)) !! k))
  /\ (forall w0 t, cache_dir (advance t w0) = cache_dir w0).
Proof.
  intros Hage key w1. split; [|split; [|split; [|split]]].
  - unfold get_cache, w1. simpl. fold key. rewrite lookup_insert_eq. simpl.
    replace (now w - now w >? max_age)%Z with false; [reflexivity|].
    symmetry. rewrite Z.gtb_ltb. apply Z.ltb_ge. lia.
  - intros t Hlate. unfold get_cache, w1. simpl. fold key. rewrite lookup_insert_eq. simpl.
    replace (t - now w >? max_age)%Z with true by (symmetry; rewrite Z.gtb_ltb; apply Z.ltb_lt; lia).
    eexists. split; [reflexivity|]. simpl. rewrite delete_insert_eq. repeat split.
    + intros Hnone. apply delete_id. exact Hnone.
    + intros age' t'. unfold get_cache. simpl. fold key. rewrite lookup_delete_eq.
      reflexivity.
  - intros w0 url0 path0 user0 age0 k f H H0.
    destruct (decide (k = _get_cache_key url0 path0 user0)) as [->|Hne].
    + split; [reflexivity|].
      revert H0. unfold get_cache. rewrite H.
      destruct (as_int age0) as [a|]; simpl; [|congruence].
      destruct (now w0 - cf_mtime f >? a)%Z eqn:E; simpl; [|congruence].
      intros _. exists a. split; [reflexivity|]. rewrite Z.gtb_ltb in E. apply Z.ltb_lt in E. lia.
    + rewrite get_cache_other in H0 by exact Hne. congruence.
  - intros w0 url0 path0 user0 data0 k [f Hf]. simpl.
    destruct (decide (k = _get_cache_key url0 path0 user0)) as [->|Hne].
    + rewrite lookup_insert_eq. eauto.
    + rewrite lookup_insert_ne by congruence. rewrite Hf. eauto.
  - intros w0 t. apply advance_cache.
Qed.

Lemma cache_witness :
  let w := sample_world down_remote in
  let data := {| content := Some sample_entries; total := 3 |} in
  let w1 := snd (set_cache (PStr "http://x") "/" "u1" data w) in
  get_cache (PStr "http://x") "/" "u1" (PInt 300) w1 = (Val (Some data), w1)
  /\ exists w3, get_cache (PStr "http://x") "/" "u1" (PInt 300) (with_now 1301 w1)
                = (Val None, w3)
     /\ cache_dir w3 = cache_dir w.
Proof.
  intros w data w1.
  pose proof (cache_get_after_set w (PStr "http://x") "/" "u1" data 300) as H.
  destruct H as (Hhit & Hstale & _); [lia|].
  split; [exact Hhit|].
  destruct (Hstale 1301%Z) as (w3 & Hrun & _ & Hsame & _); [vm_compute; reflexivity|].
  exists w3. split; [exact Hrun|]. apply Hsame. reflexivity.
Defined.

(* ===================================================================== *)
(** ** Configuration resolution *)
(* ===================================================================== *)

Lemma fall_back_other (key k : string) (d : pyval) (c : gmap string pyval) :
  k <> key -> fall_back key d c !! k = c !! k.
Proof.
  intros Hne. unfold fall_back.
  destruct (negb _ && _); [|reflexivity]. apply lookup_insert_ne. congruence.
Qed.

Lemma fall_back_same (key : string) (u g : string) (c : gmap string pyval) :
  c !! key = Some (PStr u) ->
  fall_back key (PStr g) c !! key = Some (PStr (if String.eqb u "" then g else u)).
Proof.
  intros Hc. unfold fall_back, dict_get. rewrite Hc. simpl.
  destruct (String.eqb u "") eqn:Eu; simpl.
  - apply String.eqb_eq in Eu. subst u.
    destruct (String.eqb g "") eqn:Eg; simpl.
    + apply String.eqb_eq in Eg. subst g. exact Hc.
    + apply lookup_insert_eq.
  - exact Hc.
Qed.

Lemma dict_get_str (c : gmap string pyval) (key u : string) :
  dict_get c key PNone = PStr u -> c !! key = Some (PStr u).
Proof. unfold dict_get. destruct (c !! key); simpl; congruence. Qed.

Lemma load_config_unset (w : World) (user_id key gkey : string) :
  In (key, gkey) connection_keys ->
  (user_files w !! user_id = None
   \/ exists stored, user_files w !! user_id = Some stored /\ stored !! key = None) ->
  dict_get (load_config w user_id) key PNone = PStr "".
Proof.
  intros Hin Hunset. unfold load_config, dict_get.
  assert (Hd : default_config !! key = Some (PStr "")).
  { simpl in Hin. destruct Hin as [H|[H|[H|[H|[]]]]]; inversion H; subst; reflexivity. }
  destruct Hunset as [->|(stored & -> & Hnone)].
  - rewrite Hd. reflexivity.
  - rewrite lookup_union_r by exact Hnone. rewrite Hd. reflexivity.
Qed.

(** C3. [get_user_config] merges built-in defaults, then the global
    (WebUI) values, then the user's stored values.  With user-auth
    isolation on, each of server URL, user name, password and token is
    the user's own value when that is set, and falls through to the
    global value when it is empty or unset (unset reads as empty), while
    [max_display_files], [allowed_extensions] and [enable_preview] are
    always the global values.  With isolation off the user's layer is not
    read at all: the result is built from the global values alone.  A
    global value that is not set is the built-in default. *)
Theorem resolve_merges_layers (w : World) (user_id : string) :
  let cfg := get_user_config w user_id in
  let isolated := truthy (get_webui_config w "require_user_auth" (PBool true)) in
  (isolated = true ->
   forall key gkey u g,
     In (key, gkey) connection_keys ->
     dict_get (load_config w user_id) key PNone = PStr u ->
     get_webui_config w gkey (PStr "") = PStr g ->
     cfg !! key = Some (PStr (if String.eqb u "" then g else u)))
  /\ (forall key gkey,
      In (key, gkey) connection_keys ->
      (user_files w !! user_id = None
       \/ exists stored, user_files w !! user_id = Some stored /\ stored !! key = None) ->
      dict_get (load_config w user_id) key PNone = PStr "")
  /\ (isolated = true ->
      cfg !! "max_display_files" = Some (get_webui_config w "max_display_files" (PInt 20))
      /\ cfg !! "allowed_extensions"
         = Some (split_extensions
                   (get_webui_config w "allowed_extensions"
                      (PStr ".txt,.pdf,.doc,.docx,.zip,.rar,.jpg,.png,.gif,.mp4,.mp3")))
      /\ cfg !! "enable_preview" = Some (get_webui_config w "enable_preview" (PBool true)))
  /\ (isolated = false ->
      (forall files, get_user_config (with_user_files files w) user_id = cfg)
      /\ forall key gkey,
           In (key, gkey) connection_keys ->
           cfg !! key = Some (get_webui_config w gkey (PStr "")))
  /\ (forall key dflt,
      (forall c gs, config w = Some c -> c !! "global_settings" = Some gs -> gs !! key = None) ->
      get_webui_config w key dflt = dflt).
Proof.
  intros cfg isolated. split; [|split; [|split; [|split]]].
  - intros Hiso key gkey u g Hin Hu Hg. unfold cfg, get_user_config.
    fold isolated. rewrite Hiso. apply dict_get_str in Hu.
    simpl in Hin. destruct Hin as [H|[H|[H|[H|[]]]]]; inversion H; subst key gkey; clear H;
      rewrite !lookup_insert_ne by discriminate.
    + rewrite !fall_back_other by discriminate. rewrite Hg. apply fall_back_same. exact Hu.
    + rewrite !fall_back_other by discriminate. rewrite Hg. apply fall_back_same.
      rewrite !fall_back_other by discriminate. exact Hu.
    + rewrite !fall_back_other by discriminate. rewrite Hg. apply fall_back_same.
      rewrite !fall_back_other by discriminate. exact Hu.
    + rewrite Hg. apply fall_back_same.
      rewrite !fall_back_other by discriminate. exact Hu.
  - intros key gkey. apply load_config_unset.
  - intros Hiso. unfold cfg, get_user_config. fold isolated. rewrite Hiso.
    split; [|split].
    + rewrite !lookup_insert_ne by discriminate. apply lookup_insert_eq.
    + rewrite lookup_insert_ne by discriminate. apply lookup_insert_eq.
    + apply lookup_insert_eq.
  - intros Hiso. split.
    + intros files. unfold cfg, get_user_config.
      change (get_webui_config (with_user_files files w)) with (get_webui_config w).
      fold isolated. rewrite Hiso. reflexivity.
    + intros key gkey Hin. unfold cfg, get_user_config. fold isolated. rewrite Hiso.
      simpl in Hin. destruct Hin as [H|[H|[H|[H|[]]]]]; inversion H; subst key gkey;
        reflexivity.
  - intros key dflt Hunset. unfold get_webui_config.
    destruct (config w) as [c|] eqn:Ec; [|reflexivity].
    destruct (decide (c = ∅)); [reflexivity|].
    unfold dict_get. destruct (c !! "global_settings") as [gs|] eqn:Egs; simpl.
    + rewrite (Hunset c gs eq_refl Egs). reflexivity.
    + rewrite lookup_empty. reflexivity.
Qed.

Lemma resolve_witness :
  let w0 := sample_world down_remote in
  let w1 := deliver 1001 "u1" (CmdConfig "set" "alist_url" "http://mine") w0 in
  get_user_config w0 "u1" !! "alist_url" = Some (PStr "http://x")
  /\ get_user_config w1 "u1" !! "alist_url" = Some (PStr "http://mine")
  /\ get_user_config w1 "u1" !! "max_display_files" = Some (PInt 20)
  /\ get_user_config (shared_world down_remote) "u1" !! "alist_url" = Some (PStr "http://x").
Proof.
  intros w0 w1.
  pose proof (resolve_merges_layers w0 "u1") as (H0 & _).
  pose proof (resolve_merges_layers w1 "u1") as (H1 & _ & H1' & _).
  pose proof (resolve_merges_layers (shared_world down_remote) "u1") as (_ & _ & _ & H2 & _).
  split; [|split; [|split]].
  - apply (H0 eq_refl "alist_url" "default_alist_url" "" "http://x");
      [left; reflexivity | vm_compute; reflexivity | vm_compute; reflexivity].
  - apply (H1 eq_refl "alist_url" "default_alist_url" "http://mine" "http://x");
      [left; reflexivity | vm_compute; reflexivity | vm_compute; reflexivity].
  - destruct (H1' eq_refl) as (Hmax & _). rewrite Hmax. vm_compute. reflexivity.
  - destruct (H2 eq_refl) as (_ & Hkeys).
    rewrite (Hkeys "alist_url" "default_alist_url"); [vm_compute; reflexivity|].
    left. reflexivity.
Defined.

(* ===================================================================== *)
(** ** Clearing one user's cache *)
(* ===================================================================== *)

(** C7, evaluated.  The claim is that [clear_cache(user_id)] removes
    exactly that user's records.  With the listings of two users cached,
    clearing for user ["10001"] removes nothing, their own record
    included, and clearing for user ["7"], who owns no record, removes
    both: the test looks at the digest of ["test:test:<user>"] and the
    first eight digits of the file name, never at the user of a record. *)
Theorem clear_cache_ignores_owner :
  let own := _get_cache_key (PStr "http://x") "/" "10001" in
  let other := _get_cache_key (PStr "http://x") "/" "20002" in
  is_Some (cache_dir two_user_cache !! own)
  /\ is_Some (cache_dir two_user_cache !! other)
  /\ cache_dir (snd (clear_cache "10001" two_user_cache)) = cache_dir two_user_cache
  /\ cache_dir (snd (clear_cache "7" two_user_cache)) = ∅.
Proof.
  vm_compute. repeat split; eexists; reflexivity.
Qed.

(** Whenever the user's identity happens to occur in the digest of
    ["test:test:<user>"], every record of every user goes. *)
Lemma clear_cache_sweeps_all (user_id : string) (w : World) :
  user_id <> "" ->
  Py.contains user_id (_get_cache_key (PStr "test") "test" user_id) = true ->
  cache_dir (snd (clear_cache user_id w)) = ∅.
Proof.
  intros Hne Hin. unfold clear_cache, modify. simpl.
  apply String.eqb_neq in Hne. rewrite Hne. simpl.
  apply map_empty. intros k. apply map_lookup_filter_None. right.
  intros f _. simpl. unfold clear_matches. rewrite Hin. simpl. discriminate.
Qed.

(* ===================================================================== *)
(** ** Size limits of transfers *)
(* ===================================================================== *)

Lemma webui_default (w : World) (key : string) (dflt : pyval) :
  (forall c gs, config w = Some c -> c !! "global_settings" = Some gs -> gs !! key = None) ->
  get_webui_config w key dflt = dflt.
Proof.
  intros Hunset. unfold get_webui_config.
  destruct (config w) as [c|] eqn:Ec; [|reflexivity].
  destruct (decide (c = ∅)); [reflexivity|].
  unfold dict_get. destruct (c !! "global_settings") as [gs|] eqn:Egs; simpl.
  - rewrite (Hunset c gs eq_refl Egs). reflexivity.
  - rewrite lookup_empty. reflexivity.
Qed.

Lemma download_check_run (u : string) (item : Entry) (cfg : gmap string pyval)
    (w : World) (mb : Z) :
  as_int (get_webui_config w "max_download_size" (PInt 50)) = Some mb ->
  _download_file u item cfg w
  = if (size item >? mb * 1024 * 1024)%Z
    then yield (MTooLarge (size item) mb) w
    else fetch_and_send u item cfg w.
Proof.
  intros Hmb. unfold _download_file, bind at 1. simpl.
  unfold bind at 1, number. rewrite Hmb. simpl.
  destruct (size item >? mb * 1024 * 1024)%Z; reflexivity.
Qed.

Lemma upload_check_run (image : bool) (u target filename : string)
    (cfg : gmap string pyval) (fp : string) (ex : bool) (sz : Z) (w : World) (mb : Z) :
  as_int (get_webui_config w "max_upload_size" (PInt 100)) = Some mb ->
  upload_fetched image u target filename cfg fp ex sz w
  = if (sz >? mb * 1024 * 1024)%Z
    then yield (MUploadTooLarge image sz mb) w
    else put_and_refresh image u target filename cfg fp ex sz w.
Proof.
  intros Hmb. unfold upload_fetched, bind at 1. simpl.
  unfold bind at 1, number. rewrite Hmb. simpl.
  destruct (sz >? mb * 1024 * 1024)%Z; reflexivity.
Qed.

(** C4. For every transfer whose declared size exceeds the configured
    limit (download limit, 50 MiB unless configured; upload limit, 100 MiB
    unless configured), the operation consists of one report that states
    the actual size and the limit: nothing is requested from the remote
    side and nothing else changes; a size at or below the limit passes the
    check, the operation then being the transfer itself.  The same holds
    for an attachment received in upload-wait, whose size is taken once
    the local file has been found. *)
Theorem size_limit_enforced (w : World) (user_id : string) (user_config : gmap string pyval) :
  (forall item mb,
      as_int (get_webui_config w "max_download_size" (PInt 50)) = Some mb ->
      ((size item > mb * 1024 * 1024)%Z ->
       exists w', _download_file user_id item user_config w = (Val tt, w')
                  /\ w' = with_sent (sent w ++ [MTooLarge (size item) mb]) w
                  /\ calls w' = calls w)
      /\ ((size item <= mb * 1024 * 1024)%Z ->
          _download_file user_id item user_config w
          = fetch_and_send user_id item user_config w))
  /\ (forall image target filename file_path file_exists file_size mb,
      as_int (get_webui_config w "max_upload_size" (PInt 100)) = Some mb ->
      ((file_size > mb * 1024 * 1024)%Z ->
       exists w',
         upload_fetched image user_id target filename user_config
           file_path file_exists file_size w = (Val tt, w')
         /\ w' = with_sent (sent w ++ [MUploadTooLarge image file_size mb]) w
         /\ calls w' = calls w)
      /\ ((file_size <= mb * 1024 * 1024)%Z ->
          upload_fetched image user_id target filename user_config
            file_path file_exists file_size w
          = put_and_refresh image user_id target filename user_config
              file_path file_exists file_size w))
  /\ (forall att file_path file_size mb,
      as_int (get_webui_config w "max_upload_size" (PInt 100)) = Some mb ->
      att_fetch att = FetchPath file_path true file_size ->
      file_path <> "" ->
      (file_size > mb * 1024 * 1024)%Z ->
      exists w',
        (if att_is_image att then _upload_image user_id att user_config
         else _upload_file user_id att user_config) w = (Val tt, w')
        /\ sent w' = sent w ++ [MUploadTooLarge (att_is_image att) file_size mb]
        /\ calls w' = calls w
        /\ (forall v, upload_of w' v = upload_of w v)
        /\ user_navigation_state w' = user_navigation_state w)
  /\ ((forall c gs, config w = Some c -> c !! "global_settings" = Some gs ->
                    gs !! "max_download_size" = None) ->
      as_int (get_webui_config w "max_download_size" (PInt 50)) = Some 50%Z)
  /\ ((forall c gs, config w = Some c -> c !! "global_settings" = Some gs ->
                    gs !! "max_upload_size" = None) ->
      as_int (get_webui_config w "max_upload_size" (PInt 100)) = Some 100%Z).
Proof.
  split; [|split; [|split; [|split]]].
  - intros item mb Hmb. rewrite (download_check_run _ _ _ _ _ Hmb). split.
    + intros Hbig.
      replace (size item >? mb * 1024 * 1024)%Z with true
        by (symmetry; rewrite Z.gtb_ltb; apply Z.ltb_lt; lia).
      eexists. split; [reflexivity|]. split; reflexivity.
    + intros Hok.
      replace (size item >? mb * 1024 * 1024)%Z with false
        by (symmetry; rewrite Z.gtb_ltb; apply Z.ltb_ge; lia).
      reflexivity.
  - intros image target filename file_path file_exists file_size mb Hmb.
    rewrite (upload_check_run _ _ _ _ _ _ _ _ _ _ Hmb). split.
    + intros Hbig.
      replace (file_size >? mb * 1024 * 1024)%Z with true
        by (symmetry; rewrite Z.gtb_ltb; apply Z.ltb_lt; lia).
      eexists. split; [reflexivity|]. split; reflexivity.
    + intros Hok.
      replace (file_size >? mb * 1024 * 1024)%Z with false
        by (symmetry; rewrite Z.gtb_ltb; apply Z.ltb_ge; lia).
      reflexivity.
  - intros att file_path file_size mb Hmb Hfetch Hpath Hbig.
    pose proof (touch_upload_rest user_id w) as (Hr&Hc&_&_&_&Hn&_&_&Hs&Hcalls).
    assert (Hmb' : as_int (get_webui_config (touch_upload user_id w)
                             "max_upload_size" (PInt 100)) = Some mb).
    { unfold get_webui_config in *. rewrite Hc. exact Hmb. }
    apply String.eqb_neq in Hpath.
    destruct (att_is_image att).
    + unfold _upload_image, bind at 1. rewrite get_upload_run.
      unfold try_except. rewrite Hfetch, Hpath. simpl.
      unfold bind at 1. simpl.
      rewrite (upload_check_run _ _ _ _ _ _ _ _ _ _ Hmb').
      replace (file_size >? mb * 1024 * 1024)%Z with true
        by (symmetry; rewrite Z.gtb_ltb; apply Z.ltb_lt; lia).
      eexists. split; [reflexivity|]. simpl. rewrite Hs, Hcalls, Hn. repeat split.
      intros v. apply touch_upload_view.
    + unfold _upload_file, bind at 1. rewrite get_upload_run.
      unfold try_except. rewrite Hfetch, Hpath. simpl.
      rewrite (upload_check_run _ _ _ _ _ _ _ _ _ _ Hmb').
      replace (file_size >? mb * 1024 * 1024)%Z with true
        by (symmetry; rewrite Z.gtb_ltb; apply Z.ltb_lt; lia).
      eexists. split; [reflexivity|]. simpl. rewrite Hs, Hcalls, Hn. repeat split.
      intros v. apply touch_upload_view.
  - intros Hunset. rewrite webui_default by exact Hunset. reflexivity.
  - intros Hunset. rewrite webui_default by exact Hunset. reflexivity.
Qed.

Lemma size_limit_witness :
  let w := browsing_world sample_remote in
  let cfg := get_user_config w "u1" in
  let big := {| name := "film.mkv"; is_dir := false; size := 52428801; modified := "" |} in
  let fits := {| name := "film.mkv"; is_dir := false; size := 52428800; modified := "" |} in
  let att := {| att_is_image := false; att_name := "dump.bin";
                att_fetch := FetchPath "/tmp/dump.bin" true 104857601 |} in
  (exists w', _download_file "u1" big cfg w = (Val tt, w')
              /\ w' = with_sent [MTooLarge 52428801 50] w /\ calls w' = [])
  /\ _download_file "u1" fits cfg w = fetch_and_send "u1" fits cfg w
  /\ (exists w', _upload_file "u1" att cfg w = (Val tt, w')
                 /\ sent w' = [MUploadTooLarge false 104857601 100] /\ calls w' = []
                 /\ (forall v, upload_of w' v = upload_of w v)
                 /\ user_navigation_state w' = user_navigation_state w).
Proof.
  intros w cfg big fits att.
  pose proof (size_limit_enforced w "u1" cfg) as (Hdown & _ & Hatt & _).
  destruct (Hdown big 50%Z eq_refl) as [Hbig _].
  destruct (Hdown fits 50%Z eq_refl) as [_ Hfits].
  split; [|split].
  - apply Hbig. vm_compute. reflexivity.
  - apply Hfits. vm_compute. discriminate.
  - apply (Hatt att "/tmp/dump.bin" 104857601%Z 100%Z);
      [reflexivity | reflexivity | discriminate | vm_compute; reflexivity].
Defined.

(* ===================================================================== *)
(** ** Search and download by index leave the session alone *)
(* ===================================================================== *)

Create HintDb backstage.
#[local] Hint Resolve backstage_request backstage_create_task backstage_get_cache
  backstage_set_cache backstage_clear_cache backstage_login backstage_connect
  backstage_client_list backstage_client_info backstage_client_search
  backstage_client_url backstage_client_upload : backstage.

Lemma untouched_yield (m : Msg) : respects untouched (yield m).
Proof. intros w. split; reflexivity. Qed.

Ltac untouched_prim :=
  first [ apply untouched_yield
        | apply (respects_weaken untouched backstage);
          [exact backstage_untouched | solve [auto with backstage]] ].

Lemma search_untouched (u keyword path : string) :
  respects untouched (search_files u keyword path).
Proof.
  unfold search_files. repeat first [ untouched_prim | respects_step ].
Qed.

(** C9. The search command never modifies the navigation state: the
    dictionary holding every user's current path, indexed entries and
    ancestor stack is the very same after any search (and so is the
    upload dictionary), so that an index given to a later command is
    still resolved against the last directory listing and not against
    the numbered search results. *)
Theorem search_keeps_navigation (w : World) (user_id keyword path : string) :
  let w' := snd (search_files user_id keyword path w) in
  user_navigation_state w' = user_navigation_state w
  /\ user_upload_state w' = user_upload_state w
  /\ (forall v, nav_of w' v = nav_of w v)
  /\ (forall v n, fst (_get_item_by_number v n w') = fst (_get_item_by_number v n w)).
Proof.
  intros w'. destruct (search_untouched user_id keyword path w) as [Hn Hu].
  fold w' in Hn, Hu. repeat split; try assumption.
  - intros v. unfold nav_of. rewrite Hn. reflexivity.
  - intros v n. unfold _get_item_by_number, bind. rewrite !get_nav_run.
    unfold nav_of. rewrite Hn. destruct (_ && _); reflexivity.
Qed.

Example search_then_index :
  let w1 := deliver 1001 "u1" (CmdSearch "notes" "/") (browsing_world sample_remote) in
  nav_of w1 "u1" = sample_nav
  /\ fst (_get_item_by_number "u1" 3 w1) = Val (Some {| name := "notes.txt"; is_dir := false;
                                                      size := 120; modified := "" |}).
Proof. vm_compute. split; reflexivity. Qed.

(** *** No request for file bytes *)

#[local] Instance no_fetch_preorder : PreOrder no_fetch.
Proof.
  split.
  - intros w. exists []. split; [rewrite app_nil_r; reflexivity | constructor].
  - intros a b c [l1 [E1 F1]] [l2 [E2 F2]]. exists (l1 ++ l2). split.
    + rewrite E2, E1, app_assoc. reflexivity.
    + apply Forall_app. split; assumption.
Qed.

Lemma no_fetch_same_calls (w w' : World) : calls w' = calls w -> no_fetch w w'.
Proof. intros H. exists []. split; [rewrite app_nil_r; exact H | constructor]. Qed.

Lemma no_fetch_request (c : Call) : ~ is_fetch c -> respects no_fetch (request c).
Proof.
  intros Hc w. simpl. exists [c]. split; [reflexivity|]. constructor; [exact Hc|constructor].
Qed.

Lemma no_fetch_yield (m : Msg) : respects no_fetch (yield m).
Proof. intros w. apply no_fetch_same_calls. reflexivity. Qed.

Lemma no_fetch_connect (cfg : gmap string pyval) : respects no_fetch (AlistClient.connect cfg).
Proof.
  unfold AlistClient.connect, AlistClient.login.
  repeat first [ apply no_fetch_request; simpl; tauto | respects_step ].
Qed.

Lemma no_fetch_info (c : AlistClient.t) (p : string) :
  respects no_fetch (AlistClient.get_file_info c p).
Proof.
  unfold AlistClient.get_file_info.
  repeat first [ apply no_fetch_request; simpl; tauto | respects_step ].
Qed.

Lemma no_fetch_url (c : AlistClient.t) (p : string) :
  respects no_fetch (AlistClient.get_download_url c p).
Proof.
  unfold AlistClient.get_download_url.
  repeat first [ apply no_fetch_info | respects_step ].
Qed.

Lemma item_resolved_exists (u : string) (n : Z) (w : World) (item : Entry) :
  fst (_get_item_by_number u n w) = Val (Some item) ->
  _get_item_by_number u n w = (Val (Some item), w).
Proof.
  unfold _get_item_by_number, bind. rewrite get_nav_run.
  unfold touch_nav, nav_of.
  destruct (user_navigation_state w !! u) as [s|] eqn:E; simpl.
  - destruct (_ && _); unfold ret; simpl; intros H; [|discriminate].
    injection H as H. rewrite H. reflexivity.
  - destruct (_ && _); unfold ret; simpl; [|discriminate].
    rewrite lookup_nil. discriminate.
Qed.

Lemma item_by_number_run (u : string) (n : Z) (w : World) :
  _get_item_by_number u n w = (fst (_get_item_by_number u n w), touch_nav u w).
Proof.
  unfold _get_item_by_number, bind. rewrite get_nav_run.
  destruct (_ && _); reflexivity.
Qed.

Lemma isdigit_nonempty (s : string) : Py.isdigit s = true -> String.eqb s "" = false.
Proof. destruct s; [discriminate|reflexivity]. Qed.

Lemma int_of_text_run (s : string) (w : World) :
  int_of_text s w
  = (match Py.int s with Some n => Val n | None => Exc "ValueError" end, w).
Proof. unfold int_of_text. destruct (Py.int s); reflexivity. Qed.

(** C10. When [download <n>] resolves to an entry that is a directory,
    the command is one error reply and nothing else: no request leaves,
    neither the navigation nor the upload state changes (the world is the
    same but for the reply), the reply being that the index is a
    directory once a server is configured.  And the bytes of a file are
    requested by this command only for an argument that [isdigit]
    accepts and [int] reads as a number that resolves to an entry that is
    not a directory. *)
Theorem download_directory_refused (w : World) (user_id path : string) :
  (forall number item,
      Py.isdigit path = true ->
      Py.int path = Some number ->
      fst (_get_item_by_number user_id number w) = Val (Some item) ->
      is_dir item = true ->
      exists msg,
        get_download_link user_id path w = (Val tt, with_sent (sent w ++ [msg]) w)
        /\ (msg = if _validate_config (get_user_config w user_id)
                  then MIsDirectory number else MConfigMissing))
  /\ (forall l url,
      calls (snd (get_download_link user_id path w)) = calls w ++ l ->
      In (CallFetch url) l ->
      Py.isdigit path = true
      /\ exists number item,
           Py.int path = Some number
           /\ fst (_get_item_by_number user_id number w) = Val (Some item)
           /\ is_dir item = false).
Proof.
  split.
  - intros number item Hdigit Hint Hitem Hdir. unfold get_download_link.
    rewrite (isdigit_nonempty _ Hdigit). unfold bind at 1. simpl.
    destruct (_validate_config (get_user_config w user_id)); simpl.
    + rewrite Hdigit. unfold bind at 1. rewrite int_of_text_run, Hint.
      unfold bind at 1.
      rewrite (item_resolved_exists _ _ _ _ Hitem). rewrite Hdir.
      eexists. split; reflexivity.
    + eexists. split; reflexivity.
  - intros l url Hcalls Hin.
    assert (Hno : no_fetch w (snd (get_download_link user_id path w)) ->
                  Py.isdigit path = true
                  /\ exists number item,
                       Py.int path = Some number
                       /\ fst (_get_item_by_number user_id number w) = Val (Some item)
                       /\ is_dir item = false).
    { intros [l' [E F]]. rewrite Hcalls in E. apply app_inv_head in E. subst l'.
      exfalso. rewrite Forall_forall in F.
      apply (F _ (proj2 (list_elem_of_In _ _) Hin)). exact I. }
    revert Hno. clear Hcalls Hin. unfold get_download_link.
    destruct (String.eqb path ""); [intros Hno; apply Hno, no_fetch_yield|].
    unfold bind at 1. simpl.
    destruct (_validate_config (get_user_config w user_id)); simpl;
      [|intros Hno; apply Hno, no_fetch_yield].
    destruct (Py.isdigit path) eqn:Hdigit.
    + unfold bind at 1. rewrite int_of_text_run.
      destruct (Py.int path) as [number|] eqn:Hint;
        [|intros Hno; apply Hno, no_fetch_same_calls; reflexivity].
      unfold bind at 1. rewrite item_by_number_run.
      destruct (fst (_get_item_by_number user_id number w)) as [[item|]|e] eqn:Hitem.
      * destruct (is_dir item) eqn:Hdir.
        -- intros Hno. apply Hno. apply no_fetch_same_calls. simpl.
           apply (touch_nav_rest user_id w).
        -- intros _. split; [reflexivity|]. exists number, item.
           split; [reflexivity|]. split; [first [exact Hitem|reflexivity]|exact Hdir].
      * intros Hno. apply Hno. apply no_fetch_same_calls. simpl.
        apply (touch_nav_rest user_id w).
      * simpl. intros Hno. apply Hno. apply no_fetch_same_calls.
        apply (touch_nav_rest user_id w).
    + intros Hno. apply Hno.
      match goal with
      | |- no_fetch ?w0 (snd (?m ?w0)) => apply (fun H : respects no_fetch m => H w0)
      end.
      repeat first [ apply no_fetch_connect | apply no_fetch_url | apply no_fetch_info
                   | apply no_fetch_yield | respects_step ].
Qed.

Lemma download_directory_witness :
  let w := browsing_world sample_remote in
  (exists msg, get_download_link "u1" "1" w = (Val tt, with_sent [msg] w)
               /\ msg = MIsDirectory 1)
  /\ (Py.isdigit "3" = true
      /\ exists number item,
           Py.int "3" = Some number
           /\ fst (_get_item_by_number "u1" number w) = Val (Some item)
           /\ is_dir item = false).
Proof.
  intros w.
  pose proof (download_directory_refused w "u1" "1") as [Hdir _].
  pose proof (download_directory_refused w "u1" "3") as [_ Hfile].
  split.
  - apply (Hdir 1%Z {| name := "b"; is_dir := true; size := 0; modified := "" |});
      vm_compute; reflexivity.
  - apply (Hfile [CallGet "http://x" None "/a/notes.txt"; CallFetch "http://x/d/a/notes.txt"]
                 "http://x/d/a/notes.txt").
    + vm_compute. reflexivity.
    + right. left. reflexivity.
Defined.

(** A number in full-width digits is the index it writes: the file under
    it is fetched as for the plain digits.  A superscript, which [int]
    refuses, ends the handler with [ValueError] before any reply. *)
Example download_by_full_width_number :
  let w := browsing_world sample_remote in
  Py.isdigit "３" = true /\ Py.int "３" = Some 3%Z
  /\ calls (snd (get_download_link "u1" "３" w))
     = calls (snd (get_download_link "u1" "3" w))
  /\ sent (snd (get_download_link "u1" "３" w))
     = sent (snd (get_download_link "u1" "3" w))
  /\ In (CallFetch "http://x/d/a/notes.txt") (calls (snd (get_download_link "u1" "３" w)))
  /\ Py.isdigit "²" = true
  /\ get_download_link "u1" "²" w = (Exc "ValueError", w).
Proof.
  vm_compute. repeat split. right. left. reflexivity.
Qed.

(* ===================================================================== *)
(** ** Upload-wait and its timeout *)
(* ===================================================================== *)

Lemma touch_upload_other (u v : string) (w : World) :
  v <> u -> user_upload_state (touch_upload u w) !! v = user_upload_state w !! v.
Proof.
  intros Hne. unfold touch_upload.
  destruct (user_upload_state w !! u); simpl; [reflexivity|].
  apply lookup_insert_ne. congruence.
Qed.

Lemma set_waiting_run (u : string) (flag : bool) (target : string) (w : World) :
  _set_user_upload_waiting u flag target w
  = (Val tt,
     with_upload (<[u := {| waiting := flag; target_path := target |}]>
                    (user_upload_state w)) w).
Proof.
  unfold _set_user_upload_waiting, bind. rewrite get_upload_run.
  pose proof (touch_upload_rest u w) as (?&?&?&?&?&?&?&?&?&?).
  unfold modify. f_equal. apply world_ext; simpl; try assumption.
  apply map_eq. intros v. destruct (decide (v = u)) as [->|Hne].
  - rewrite lookup_alter_eq, touch_upload_lookup, lookup_insert_eq. reflexivity.
  - rewrite lookup_alter_ne, lookup_insert_ne by congruence.
    apply touch_upload_other. exact Hne.
Qed.

Lemma upload_of_insert (u v : string) (s : UploadState) (w0 w : World) :
  upload_of (with_upload (<[u := s]> (user_upload_state w0)) w) v
  = if decide (v = u) then s else upload_of w0 v.
Proof.
  unfold upload_of. simpl. destruct (decide (v = u)) as [->|Hne].
  - rewrite lookup_insert_eq. reflexivity.
  - rewrite lookup_insert_ne by congruence. reflexivity.
Qed.

Lemma auto_cancel_run (u : string) (w : World) :
  auto_cancel_upload u w
  = if waiting (upload_of w u)
    then (Val tt, with_upload (<[u := initial_upload]> (user_upload_state w)) w)
    else (Val tt, touch_upload u w).
Proof.
  unfold auto_cancel_upload, bind. rewrite get_upload_run.
  destruct (waiting (upload_of w u)); [|reflexivity].
  rewrite set_waiting_run. f_equal.
  pose proof (touch_upload_rest u w) as (?&?&?&?&?&?&?&?&?&?).
  apply world_ext; simpl; try assumption.
  apply map_eq. intros v. destruct (decide (v = u)) as [->|Hne].
  - rewrite !lookup_insert_eq. reflexivity.
  - rewrite !lookup_insert_ne by congruence. apply touch_upload_other. exact Hne.
Qed.

(** A task that wakes sends nothing, requests nothing, and leaves the
    navigation alone; it never puts a user into upload-wait. *)
Lemma wake_quiet (x : Z * Task) (w : World) :
  sent (wake x w) = sent w /\ calls (wake x w) = calls w
  /\ user_navigation_state (wake x w) = user_navigation_state w
  /\ (forall v, waiting (upload_of w v) = false -> waiting (upload_of (wake x w) v) = false).
Proof.
  unfold wake. destruct x as [d [u|f]]; simpl.
  - rewrite auto_cancel_run.
    change (upload_of (with_now (Z.max (now w) d) w) u) with (upload_of w u).
    destruct (waiting (upload_of w u)) eqn:Ew; simpl.
    + repeat split. intros v Hv.
      change (waiting (upload_of (with_upload (<[u:=initial_upload]> (user_upload_state w))
                                    (with_now (Z.max (now w) d) w)) v) = false).
      rewrite upload_of_insert. destruct (decide (v = u)); [reflexivity|exact Hv].
    + pose proof (touch_upload_rest u (with_now (Z.max (now w) d) w))
        as (_&_&_&_&_&Hn&_&_&Hs&Hc).
      repeat split; try assumption.
      intros v Hv. rewrite touch_upload_view. exact Hv.
  - repeat split. intros v Hv. exact Hv.
Qed.

Lemma wake_cancels (d : Z) (u : string) (w : World) :
  waiting (upload_of (wake (d, AutoCancelUpload u) w) u) = false.
Proof.
  unfold wake. simpl. rewrite auto_cancel_run.
  change (upload_of (with_now (Z.max (now w) d) w) u) with (upload_of w u).
  destruct (waiting (upload_of w u)) eqn:Ew; simpl.
  - change (waiting (upload_of (with_upload (<[u:=initial_upload]> (user_upload_state w))
                                  (with_now (Z.max (now w) d) w)) u) = false).
    rewrite upload_of_insert. destruct (decide (u = u)); [reflexivity|contradiction].
  - rewrite touch_upload_view. exact Ew.
Qed.

Lemma wake_all_quiet (l : list (Z * Task)) (w : World) :
  let w' := fold_left (fun w x => wake x w) l w in
  sent w' = sent w /\ calls w' = calls w
  /\ user_navigation_state w' = user_navigation_state w
  /\ (forall v, waiting (upload_of w v) = false -> waiting (upload_of w' v) = false).
Proof.
  revert w. induction l as [|x l IH]; intros w; simpl; [repeat split; auto|].
  destruct (IH (wake x w)) as (S1&C1&N1&W1).
  destruct (wake_quiet x w) as (S2&C2&N2&W2).
  repeat split; try congruence. intros v Hv. apply W1, W2, Hv.
Qed.

Lemma wake_all_cancels (l : list (Z * Task)) (d : Z) (u : string) (w : World) :
  In (d, AutoCancelUpload u) l ->
  waiting (upload_of (fold_left (fun w x => wake x w) l w) u) = false.
Proof.
  revert w. induction l as [|x l IH]; intros w Hin; [destruct Hin|].
  simpl. destruct Hin as [->|Hin].
  - apply wake_all_quiet. apply wake_cancels.
  - apply IH. exact Hin.
Qed.

Lemma insert_task_In (x y : Z * Task) (l : list (Z * Task)) :
  In y (insert_task x l) <-> y = x \/ In y l.
Proof.
  induction l as [|z l IH]; simpl.
  - split; intros [H|H]; auto.
  - destruct (fst x <? fst z)%Z; simpl; [split; intros [H|H]; auto|].
    rewrite IH. split; intros H; tauto.
Qed.

Lemma insert_all_In (y : Z * Task) (l acc : list (Z * Task)) :
  In y acc \/ In y l -> In y (fold_left (fun acc x => insert_task x acc) l acc).
Proof.
  revert acc. induction l as [|z l IH]; intros acc H; simpl.
  - destruct H as [H|[]]. exact H.
  - apply IH. destruct H as [Ha|[->|Hl]].
    + left. apply insert_task_In. right. exact Ha.
    + left. apply insert_task_In. left. reflexivity.
    + right. exact Hl.
Qed.

Lemma by_wake_up_In (y : Z * Task) (l : list (Z * Task)) :
  In y l -> In y (by_wake_up l).
Proof. intros Hin. apply insert_all_In. right. exact Hin. Qed.

(** Every pending cancellation whose time has come has fired once the
    clock is advanced. *)
Lemma advance_cancels (t d : Z) (u : string) (w : World) :
  In (d, AutoCancelUpload u) (tasks w) -> (d <= t)%Z ->
  waiting (upload_of (advance t w) u) = false.
Proof.
  intros Hin Hdue. unfold advance.
  match goal with
  | |- waiting (upload_of (with_now _ ?x) u) = false =>
      change (waiting (upload_of x u) = false)
  end.
  apply (wake_all_cancels _ d). apply by_wake_up_In.
  apply filter_In. split; [exact Hin|]. simpl. apply Z.leb_le. exact Hdue.
Qed.

Lemma advance_quiet (t : Z) (w : World) :
  sent (advance t w) = sent w /\ calls (advance t w) = calls w
  /\ user_navigation_state (advance t w) = user_navigation_state w.
Proof.
  unfold advance. simpl.
  match goal with
  | |- context [fold_left ?f ?l ?x] => destruct (wake_all_quiet l x) as (S&C&N&_)
  end.
  repeat split; assumption.
Qed.

Lemma ignored_when_not_waiting (u : string) (comps : list Attachment) (w : World) :
  waiting (upload_of w u) = false ->
  handle_file_message u comps w = (Val tt, touch_upload u w).
Proof.
  intros Hw. unfold handle_file_message, bind. rewrite get_upload_run, Hw. reflexivity.
Qed.

Lemma upload_start_run (u : string) (w : World) :
  _validate_config (get_user_config w u) = true ->
  exists w1, upload_command u "" w = (Val tt, w1)
  /\ upload_of w1 u = {| waiting := true; target_path := current_path (nav_of w u) |}
  /\ tasks w1 = tasks w ++ [((now w + 600)%Z, AutoCancelUpload u)]
  /\ sent w1 = sent w ++ [MUploadStarted (current_path (nav_of w u))].
Proof.
  intros Hvalid. unfold upload_command. simpl.
  unfold bind at 1. simpl. rewrite Hvalid. simpl.
  unfold bind at 1. rewrite get_nav_run.
  unfold bind at 1. rewrite set_waiting_run.
  pose proof (touch_nav_rest u w) as (_&_&_&_&_&Hu&Hnow&Ht&Hs&_).
  eexists. split; [reflexivity|]. simpl. rewrite Hnow, Ht, Hs. repeat split.
  match goal with
  | |- upload_of ?x u = _ =>
      change (upload_of
                (with_upload
                   (<[u := {| waiting := true; target_path := current_path (nav_of w u) |}]>
                      (user_upload_state (touch_nav u w))) (touch_nav u w)) u = 
              {| waiting := true; target_path := current_path (nav_of w u) |})
  end.
  rewrite upload_of_insert. destruct (decide (u = u)); [reflexivity|contradiction].
Qed.

(** C8. When upload-wait is started and nothing else happens, the
    waiting flag is false once 600 seconds have passed, by the deferred
    cancellation alone; the cancellation reads the state at the time it
    fires: it clears a flag that is set and is a no-op (no reply, no
    request, nothing changed that a user sees) when the flag has already
    been cleared; and an attachment arriving while the flag is false is
    ignored: no reply, no request, no upload. *)
Theorem upload_wait_times_out (w : World) (user_id : string) :
  (_validate_config (get_user_config w user_id) = true ->
   exists w1, upload_command user_id "" w = (Val tt, w1)
   /\ waiting (upload_of w1 user_id) = true
   /\ target_path (upload_of w1 user_id) = current_path (nav_of w user_id)
   /\ In ((now w + 600)%Z, AutoCancelUpload user_id) (tasks w1)
   /\ forall t, (now w + 600 <= t)%Z ->
        waiting (upload_of (advance t w1) user_id) = false
        /\ forall comps,
             let w2 := deliver t user_id (Attachments comps) w1 in
             sent w2 = sent w1 /\ calls w2 = calls w1
             /\ waiting (upload_of w2 user_id) = false)
  /\ (waiting (upload_of w user_id) = false ->
      exists w', run_task (AutoCancelUpload user_id) w = (Val tt, w')
      /\ sent w' = sent w /\ calls w' = calls w
      /\ (forall v, upload_of w' v = upload_of w v)
      /\ user_navigation_state w' = user_navigation_state w)
  /\ (waiting (upload_of w user_id) = true ->
      waiting (upload_of (snd (run_task (AutoCancelUpload user_id) w)) user_id) = false)
  /\ (waiting (upload_of w user_id) = false ->
      forall comps,
      exists w', handle_file_message user_id comps w = (Val tt, w')
      /\ sent w' = sent w /\ calls w' = calls w
      /\ (forall v, upload_of w' v = upload_of w v)
      /\ user_navigation_state w' = user_navigation_state w).
Proof.
  split; [|split; [|split]].
  - intros Hvalid.
    destruct (upload_start_run user_id w Hvalid) as (w1 & Erun & Hup & Htasks & Hsent).
    exists w1. split; [exact Erun|]. rewrite Hup. simpl. repeat split.
    + rewrite Htasks. apply in_or_app. right. left. reflexivity.
    + apply (advance_cancels t (now w + 600)); [|assumption].
      rewrite Htasks. apply in_or_app. right. left. reflexivity.
    + assert (Hoff : waiting (upload_of (advance t w1) user_id) = false).
      { apply (advance_cancels t (now w + 600)); [|assumption].
        rewrite Htasks. apply in_or_app. right. left. reflexivity. }
      unfold deliver. simpl. rewrite (ignored_when_not_waiting _ _ _ Hoff). simpl.
      destruct (advance_quiet t w1) as (S&C&_).
      pose proof (touch_upload_rest user_id (advance t w1)) as (_&_&_&_&_&_&_&_&S'&_).
      congruence.
    + assert (Hoff : waiting (upload_of (advance t w1) user_id) = false).
      { apply (advance_cancels t (now w + 600)); [|assumption].
        rewrite Htasks. apply in_or_app. right. left. reflexivity. }
      unfold deliver. simpl. rewrite (ignored_when_not_waiting _ _ _ Hoff). simpl.
      destruct (advance_quiet t w1) as (S&C&_).
      pose proof (touch_upload_rest user_id (advance t w1)) as (_&_&_&_&_&_&_&_&_&C').
      congruence.
    + assert (Hoff : waiting (upload_of (advance t w1) user_id) = false).
      { apply (advance_cancels t (now w + 600)); [|assumption].
        rewrite Htasks. apply in_or_app. right. left. reflexivity. }
      unfold deliver. simpl. rewrite (ignored_when_not_waiting _ _ _ Hoff). simpl.
      rewrite touch_upload_view. exact Hoff.
  - intros Hoff. simpl. rewrite auto_cancel_run, Hoff.
    pose proof (touch_upload_rest user_id w) as (_&_&_&_&_&Hn&_&_&Hs&Hc).
    eexists. split; [reflexivity|]. repeat split; try assumption.
    intros v. apply touch_upload_view.
  - intros Hon. simpl. rewrite auto_cancel_run, Hon. simpl.
    rewrite upload_of_insert. destruct (decide (user_id = user_id)); [reflexivity|contradiction].
  - intros Hoff comps. rewrite (ignored_when_not_waiting _ _ _ Hoff).
    pose proof (touch_upload_rest user_id w) as (_&_&_&_&_&Hn&_&_&Hs&Hc).
    eexists. split; [reflexivity|]. repeat split; try assumption.
    intros v. apply touch_upload_view.
Qed.

Lemma upload_wait_witness :
  let w := sample_world down_remote in
  (exists w1, upload_command "u1" "" w = (Val tt, w1)
     /\ waiting (upload_of w1 "u1") = true
     /\ waiting (upload_of (advance 1600 w1) "u1") = false
     /\ waiting (upload_of (snd (run_task (AutoCancelUpload "u1") w1)) "u1") = false)
  /\ (exists w', run_task (AutoCancelUpload "u1") w = (Val tt, w')
      /\ sent w' = [] /\ calls w' = [])
  /\ (exists w', handle_file_message "u1" [] w = (Val tt, w')
      /\ sent w' = [] /\ calls w' = []).
Proof.
  intros w.
  pose proof (upload_wait_times_out w "u1") as (Hstart & Hnoop & _ & Hignored).
  destruct (Hstart eq_refl) as (w1 & Erun & Hon & _ & _ & Hlater).
  split; [|split].
  - exists w1. split; [exact Erun|]. split; [exact Hon|]. split.
    + apply (Hlater 1600%Z). vm_compute. discriminate.
    + pose proof (upload_wait_times_out w1 "u1") as (_ & _ & Hfire & _).
      apply Hfire. exact Hon.
  - destruct (Hnoop eq_refl) as (w' & E & S & C & _). exists w'. auto.
  - destruct (Hignored eq_refl []) as (w' & E & S & C & _). exists w'. auto.
Defined.

(** A cancellation left over from an earlier wait fires on the current
    state too: it ends a wait that was started again meanwhile. *)
Example stale_timer_ends_newer_wait :
  let w1 := deliver 1000 "u1" (CmdUpload "") (sample_world down_remote) in
  let w2 := deliver 1100 "u1" (CmdUpload "cancel") w1 in
  let w3 := deliver 1500 "u1" (CmdUpload "") w2 in
  waiting (upload_of w3 "u1") = true
  /\ waiting (upload_of (advance 1600 w3) "u1") = false.
Proof. vm_compute. split; reflexivity. Qed.

(* ===================================================================== *)
(** ** Error reports and the state *)
(* ===================================================================== *)

Ltac harmless_solve := unfold harmless; simpl; solve [left; reflexivity | right; reflexivity].

Lemma neutral_same_sent (w w' : World) :
  same_views w w' -> sent w' = sent w -> neutral w w'.
Proof.
  intros V S. split; [exact V|]. exists []. split; [|constructor].
  unfold sent_between. rewrite S, app_nil_r. reflexivity.
Qed.

Lemma neutral_get_nav (u : string) : respects neutral (_get_user_navigation_state u).
Proof.
  intros w. rewrite get_nav_run. simpl.
  pose proof (touch_nav_rest u w) as (_&_&_&_&_&Hu&_&_&Hs&_).
  apply neutral_same_sent; [|exact Hs]. split.
  - intros v. apply touch_nav_view.
  - intros v. unfold upload_of. rewrite Hu. reflexivity.
Qed.

Lemma neutral_get_upload (u : string) : respects neutral (_get_user_upload_state u).
Proof.
  intros w. rewrite get_upload_run. simpl.
  pose proof (touch_upload_rest u w) as (_&_&_&_&_&Hn&_&_&Hs&_).
  apply neutral_same_sent; [|exact Hs]. split.
  - intros v. unfold nav_of. rewrite Hn. reflexivity.
  - intros v. apply touch_upload_view.
Qed.

Lemma neutral_item_by_number (u : string) (n : Z) : respects neutral (_get_item_by_number u n).
Proof.
  unfold _get_item_by_number.
  repeat first [ apply neutral_get_nav | respects_step ].
Qed.

Lemma neutral_yield (m : Msg) : harmless m -> respects neutral (yield m).
Proof.
  intros Hm w. split; [split; intros v; reflexivity|].
  exists [m]. split; [reflexivity|]. constructor; [exact Hm|constructor].
Qed.

Lemma neutral_backstage {A} (m : M A) : respects backstage m -> respects neutral m.
Proof. apply respects_weaken. exact backstage_neutral. Qed.

Lemma neutral_save_config (u : string) (cfg : gmap string pyval) :
  respects neutral (save_config u cfg).
Proof. intros w. apply neutral_same_sent; [split; intros v; reflexivity|reflexivity]. Qed.

Lemma neutral_new_download (f : string * Z * string) :
  respects neutral (modify (fun w => with_downloads ({[f]} ∪ downloads w) w)).
Proof. intros w. apply neutral_same_sent; [split; intros v; reflexivity|reflexivity]. Qed.

Lemma neutral_receive_chunks (file_size : Z) (chunks : list Z) (downloaded : Z) :
  respects neutral (receive_chunks file_size downloaded chunks).
Proof.
  revert downloaded. induction chunks as [|len rest IH]; intros downloaded; simpl.
  - respects_step.
  - respects_step; [|apply IH].
    respects_step; [apply neutral_yield; harmless_solve | respects_step].
Qed.

Ltac neutral_prim :=
  first [ apply neutral_get_nav | apply neutral_get_upload | apply neutral_item_by_number
        | apply neutral_save_config | apply neutral_new_download
        | apply neutral_receive_chunks
        | apply neutral_yield; harmless_solve
        | apply neutral_backstage; solve [auto with backstage] ].

Lemma keeping_yield (m : Msg) : ordinary m -> respects keeping (yield m).
Proof.
  intros Hm w. split; [split; intros v; reflexivity|].
  exists [m]. split; [reflexivity|]. constructor; [exact Hm|constructor].
Qed.

Lemma keeping_neutral {A} (m : M A) : respects neutral m -> respects keeping m.
Proof. apply respects_weaken. exact neutral_keeping. Qed.

Ltac keeping_prim :=
  first [ apply keeping_yield; exact I | apply keeping_neutral; neutral_prim ].

Ltac keeping_tac := cbv zeta; repeat first [ keeping_prim | respects_step; cbv zeta ].

Lemma keeping_fetch_and_send (u : string) (item : Entry) (cfg : gmap string pyval) :
  respects keeping (fetch_and_send u item cfg).
Proof. unfold fetch_and_send. keeping_tac. Qed.

Lemma keeping_download (u : string) (item : Entry) (cfg : gmap string pyval) :
  respects keeping (_download_file u item cfg).
Proof.
  unfold _download_file.
  cbv zeta; repeat first [ apply keeping_fetch_and_send | keeping_prim | respects_step; cbv zeta ].
Qed.

Lemma keeping_config (u action key value : string) :
  respects keeping (config_command u action key value).
Proof. unfold config_command. keeping_tac. Qed.

Lemma keeping_search (u keyword path : string) :
  respects keeping (search_files u keyword path).
Proof. unfold search_files. keeping_tac. Qed.

Lemma keeping_info (u path : string) : respects keeping (file_info u path).
Proof. unfold file_info. keeping_tac. Qed.

Lemma keeping_help (u : string) : respects keeping (help_command u).
Proof. unfold help_command. keeping_tac. Qed.

Lemma keeping_download_link (u path : string) : respects keeping (get_download_link u path).
Proof.
  unfold get_download_link.
  cbv zeta; repeat first [ apply keeping_download | keeping_prim | respects_step; cbv zeta ].
Qed.

Lemma clean_same_sent (w w' : World) : sent w' = sent w -> clean w w'.
Proof.
  intros S. exists []. split; [|constructor].
  unfold sent_between. rewrite S, app_nil_r. reflexivity.
Qed.

Lemma clean_neutral {A} (m : M A) : respects neutral m -> respects clean m.
Proof. apply respects_weaken. exact neutral_clean. Qed.

Lemma clean_mutate_nav (u : string) (f : NavState -> NavState) :
  respects clean (mutate_nav u f).
Proof. intros w. apply clean_same_sent. reflexivity. Qed.

Lemma clean_set_waiting (u : string) (flag : bool) (target : string) :
  respects clean (_set_user_upload_waiting u flag target).
Proof. intros w. rewrite set_waiting_run. apply clean_same_sent. reflexivity. Qed.

Lemma clean_update_nav (u path : string) (l : list Entry) :
  respects clean (_update_user_navigation_state u path l).
Proof. intros w. rewrite update_nav_run. apply clean_same_sent. reflexivity. Qed.

Ltac clean_prim :=
  first [ apply clean_mutate_nav | apply clean_set_waiting | apply clean_update_nav
        | apply clean_neutral; neutral_prim ].

Lemma clean_format (files : option (list Entry)) (path : string)
    (cfg : gmap string pyval) (u : string) :
  respects clean (_format_file_list files path cfg u).
Proof.
  unfold _format_file_list.
  cbv zeta; repeat first [ clean_prim | respects_step; cbv zeta ].
Qed.

Ltac clean_tac :=
  cbv zeta; repeat first [ apply clean_format | clean_prim | respects_step; cbv zeta ].

Ltac neutral_tac := cbv zeta; repeat first [ neutral_prim | respects_step; cbv zeta ].

(** *** Handlers that settle *)

Lemma settles_bind_neutral {A B} (m : M A) (k : A -> M B) :
  respects neutral m -> (forall a, settles (k a)) -> settles (bind m k).
Proof.
  intros Hm Hk w. unfold bind. specialize (Hm w).
  destruct (m w) as [[a|e] w1]; simpl in Hm.
  - specialize (Hk a w1). destruct (k a w1) as [[b|e] w2].
    + destruct Hk as [Hk|Hk]; [left|right].
      * etransitivity; [apply neutral_keeping; exact Hm | exact Hk].
      * etransitivity; [apply neutral_clean; exact Hm | exact Hk].
    + etransitivity; [apply neutral_clean; exact Hm | exact Hk].
  - apply neutral_clean. exact Hm.
Qed.

Lemma settles_clean {A} (m : M A) : respects clean m -> settles m.
Proof.
  intros Hm w. specialize (Hm w). destruct (m w) as [[a|e] w1]; simpl in Hm; auto.
Qed.

Lemma settles_yield (m : Msg) : ordinary m -> settles (yield m).
Proof. intros Hm w. left. apply (keeping_yield m Hm w). Qed.

Lemma settles_try {A} (body : M A) (handler : string -> M A) :
  settles body -> (forall e, respects clean (handler e)) ->
  settles (try_except body handler).
Proof.
  intros Hb Hh w. unfold try_except. specialize (Hb w).
  destruct (body w) as [[a|e] w1]; [exact Hb|].
  specialize (Hh e w1). destruct (handler e w1) as [[a|e'] w2]; simpl in Hh.
  - right. etransitivity; eassumption.
  - etransitivity; eassumption.
Qed.

Lemma settles_outcome {A} (m : M A) (u : string) (w : World) :
  settles m -> outcome u w (snd (m w)).
Proof.
  intros Hm. specialize (Hm w). destruct (m w) as [[a|e] w1]; simpl.
  - destruct Hm; [left|right; left]; assumption.
  - right. left. assumption.
Qed.

Ltac settles_step :=
  lazymatch goal with
  | |- settles (try_except _ _) => apply settles_try; [|intros ?; solve [clean_tac]]
  | |- settles (yield _) => first [ apply settles_yield; exact I
                                  | apply settles_clean; solve [clean_tac] ]
  | |- settles (bind _ _) =>
      first [ apply settles_bind_neutral; [solve [neutral_tac]|intros ?]
            | apply settles_clean; solve [clean_tac] ]
  | |- settles (match ?x with _ => _ end) => destruct x
  | |- settles _ => apply settles_clean; solve [clean_tac]
  end; cbv zeta.

Lemma settles_fetch_and_send (u : string) (item : Entry) (cfg : gmap string pyval) :
  settles (fetch_and_send u item cfg).
Proof. unfold fetch_and_send. cbv zeta. repeat settles_step. Qed.

Lemma settles_download (u : string) (item : Entry) (cfg : gmap string pyval) :
  settles (_download_file u item cfg).
Proof.
  unfold _download_file. cbv zeta.
  repeat first [ apply settles_fetch_and_send | settles_step ].
Qed.

Lemma settles_browse (u path : string) (cfg : gmap string pyval) :
  settles (browse u path cfg).
Proof. unfold browse. cbv zeta. repeat settles_step. Qed.

Lemma settles_list_files (u path : string) : settles (list_files u path).
Proof.
  unfold list_files. cbv zeta.
  repeat first [ apply settles_browse | apply settles_download | settles_step ].
Qed.

Lemma settles_upload_fetched (image : bool) (u target filename : string)
    (cfg : gmap string pyval) (fp : string) (ex : bool) (sz : Z) :
  settles (upload_fetched image u target filename cfg fp ex sz).
Proof.
  unfold upload_fetched, put_and_refresh. cbv zeta. repeat settles_step.
Qed.

Lemma settles_upload_file (u : string) (att : Attachment) (cfg : gmap string pyval) :
  settles (_upload_file u att cfg).
Proof.
  unfold _upload_file. cbv zeta.
  repeat first [ apply settles_upload_fetched | settles_step ].
Qed.

Lemma settles_upload_image (u : string) (att : Attachment) (cfg : gmap string pyval) :
  settles (_upload_image u att cfg).
Proof.
  unfold _upload_image. cbv zeta.
  repeat first [ apply settles_upload_fetched | settles_step ].
Qed.

Lemma settles_upload_command (u action : string) : settles (upload_command u action).
Proof. unfold upload_command. cbv zeta. repeat settles_step. Qed.

(** *** The two handlers that report and change *)

Lemma neutral_outcome (u : string) (w w1 w' : World) :
  neutral w w1 -> keeping w1 w' \/ clean w1 w' -> outcome u w w'.
Proof.
  intros Hn [Hk|Hc]; [left|right; left].
  - etransitivity; [apply neutral_keeping; exact Hn | exact Hk].
  - etransitivity; [apply neutral_clean; exact Hn | exact Hc].
Qed.

Lemma outcome_attachment (u : string) (comps : list Attachment) (w : World) :
  outcome u w (snd (handle_file_message u comps w)).
Proof.
  unfold handle_file_message, bind at 1. rewrite get_upload_run.
  pose proof (neutral_get_upload u w) as Hn. rewrite get_upload_run in Hn. simpl in Hn.
  destruct (waiting (upload_of w u)) eqn:Ew; simpl.
  - unfold bind at 1. simpl.
    assert (Hcfg : get_user_config (touch_upload u w) u = get_user_config w u).
    { pose proof (touch_upload_rest u w) as (_&Hc&Hf&_).
      unfold get_user_config, get_webui_config, load_config. rewrite Hc, Hf. reflexivity. }
    rewrite Hcfg.
    destruct (_validate_config (get_user_config w u)); simpl.
    + destruct comps as [|c comps].
      * apply (neutral_outcome u w (touch_upload u w)); [exact Hn|].
        left. apply (keeping_yield MNoAttachment I).
      * apply (neutral_outcome u w (touch_upload u w)); [exact Hn|].
        destruct (att_is_image c).
        -- pose proof (settles_upload_image u c (get_user_config w u) (touch_upload u w)) as H.
           destruct (_upload_image u c (get_user_config w u) (touch_upload u w)) as [[a|e] w2];
             simpl; tauto.
        -- pose proof (settles_upload_file u c (get_user_config w u) (touch_upload u w)) as H.
           destruct (_upload_file u c (get_user_config w u) (touch_upload u w)) as [[a|e] w2];
             simpl; tauto.
    + right. right. right. unfold bind. simpl. rewrite set_waiting_run. simpl.
      pose proof (touch_upload_rest u w) as (_&_&_&_&_&Hnav&_&_&Hs&_).
      unfold wait_dropped. simpl. rewrite Hs. repeat split.
      * intros v. unfold nav_of. simpl. rewrite Hnav. reflexivity.
      * change (upload_of (with_upload (<[u := initial_upload]>
                                          (user_upload_state (touch_upload u w))) w) u
                = initial_upload).
        rewrite upload_of_insert. destruct (decide (u = u)); [reflexivity|contradiction].
      * intros v Hne.
        change (upload_of (with_upload (<[u := initial_upload]>
                                          (user_upload_state (touch_upload u w))) w) v
                = upload_of w v).
        rewrite upload_of_insert. destruct (decide (v = u)); [contradiction|].
        apply touch_upload_view.
  - left. apply neutral_keeping. exact Hn.
Qed.

Lemma nonempty_last {A} (l : list A) : l <> [] -> exists ps p, l = ps ++ [p].
Proof.
  intros Hne. destruct (exists_last Hne) as (ps & p & E). eauto.
Qed.

Lemma outcome_quit (u : string) (w : World) :
  outcome u w (snd (quit_navigation u w)).
Proof.
  destruct (_validate_config (get_user_config w u)) eqn:Hvalid.
  2:{ unfold quit_navigation, bind at 1. simpl. rewrite Hvalid. simpl.
      left. apply (keeping_yield MConfigMissing I). }
  destruct (parent_paths (nav_of w u)) as [|q qs] eqn:Hstack.
  - rewrite (quit_at_root_run _ _ Hvalid Hstack).
    apply (neutral_outcome u w (touch_nav u w)).
    + pose proof (neutral_get_nav u w) as Hn. rewrite get_nav_run in Hn. exact Hn.
    + left. apply (keeping_yield MAtRoot I).
  - destruct (nonempty_last (q :: qs)) as (ps & p & E); [discriminate|].
    rewrite E in Hstack.
    destruct (quit_pop_spec u w ps p Hvalid Hstack)
      as (r & w' & Erun & U & O & P & msg & S & Hmsg).
    rewrite Erun. simpl.
    destruct Hmsg as [(-> & Hc & Hi)|[[e ->]|[t [-> _]]]].
    + right. right. left. exists p. split; [exact S|]. split.
      * intros v. unfold upload_of. rewrite U. reflexivity.
      * intros v. destruct (decide (v = u)) as [->|Hne]; [split; assumption|].
        rewrite O by exact Hne. split; reflexivity.
    + right. left. exists [MBackFailed e]. split; [exact S|].
      constructor; [harmless_solve|constructor].
    + right. left. exists [MWentBack t]. split; [exact S|].
      constructor; [harmless_solve|constructor].
Qed.

Lemma keeping_is_outcome {A} (m : M A) (u : string) (w : World) :
  respects keeping m -> outcome u w (snd (m w)).
Proof. intros H. left. apply H. Qed.

Lemma outcome_handle (u : string) (c : Command) (w : World) :
  outcome u w (snd (handle u c w)).
Proof.
  destruct c; cbn [handle].
  - apply keeping_is_outcome, keeping_config.
  - apply settles_outcome, settles_list_files.
  - apply keeping_is_outcome, keeping_search.
  - apply keeping_is_outcome, keeping_info.
  - apply keeping_is_outcome, keeping_download_link.
  - apply outcome_quit.
  - apply settles_outcome, settles_upload_command.
  - apply keeping_is_outcome, keeping_help.
  - apply outcome_attachment.
Qed.

(** *** A failed listing when going back is reported *)

Lemma connect_returns (cfg : gmap string pyval) (url : string) (w : World) :
  cfg !! "alist_url" = Some (PStr url) ->
  exists c w1, AlistClient.connect cfg w = (Val c, w1) /\ backstage w w1.
Proof.
  intros Hurl. pose proof (backstage_connect cfg w) as Hb. revert Hb.
  unfold AlistClient.connect, subscript. rewrite Hurl. unfold bind at 1. simpl.
  destruct (negb _ && _ && _).
  - unfold AlistClient.login, bind, request. simpl.
    destruct (remote w (calls w) _); simpl; intros Hb; eexists _, _; split; reflexivity || exact Hb.
  - simpl. intros Hb. eexists _, _. split; [reflexivity|exact Hb].
Qed.

Lemma quit_unreachable_run (u : string) (w : World) (ps : list string) (p url : string) :
  get_user_config w u !! "alist_url" = Some (PStr url) -> url <> "" ->
  parent_paths (nav_of w u) = ps ++ [p] ->
  (forall h c l, remote w h c <> RListing l) ->
  exists w', quit_navigation u w = (Val tt, w')
  /\ sent w' = sent w ++ [MCannotAccessParent p]
  /\ nav_of w' u = set_parent_paths ps (nav_of w u)
  /\ (forall v, upload_of w' v = upload_of w v).
Proof.
  intros Hurl Hne Hstack Hdown.
  assert (Hvalid : _validate_config (get_user_config w u) = true).
  { unfold _validate_config, dict_get. rewrite Hurl. simpl.
    apply String.eqb_neq in Hne. rewrite Hne. reflexivity. }
  unfold quit_navigation.
  unfold bind at 1. simpl. rewrite Hvalid. simpl.
  unfold bind at 1. rewrite get_nav_run. rewrite Hstack, rev_unit.
  unfold bind at 1. simpl.
  pose proof (touch_nav_rest u w) as (Hr&_&_&_&_&U0&_&_&S0&_).
  set (pop := fun s : NavState => set_parent_paths (removelast (parent_paths s)) s).
  set (w2 := with_nav (alter pop u (user_navigation_state (touch_nav u w))) (touch_nav u w)).
  unfold relist_previous, try_except.
  destruct (connect_returns (get_user_config w u) url w2 Hurl) as (c & w3 & Ec & B3).
  unfold bind at 1. rewrite Ec.
  destruct B3 as (N3&U3&S3&_&_&_&R3).
  unfold bind at 1, AlistClient.list_files, bind at 1, request. simpl.
  assert (Hrem : remote w3 = remote w) by (rewrite R3; unfold w2; simpl; exact Hr).
  rewrite Hrem.
  destruct (remote w (calls w3) (CallList (AlistClient.base_url c) (AlistClient.auth c) p))
    as [| | l | | | | |] eqn:Er; try (exfalso; exact (Hdown _ _ _ Er)); simpl;
    (eexists; split; [reflexivity|]; simpl; split; [|split]).
  all: try (rewrite S3; unfold w2; simpl; rewrite S0; reflexivity).
  all: try (intros v; unfold upload_of; simpl; rewrite U3; unfold w2; simpl;
            rewrite U0; reflexivity).
  all: transitivity (nav_of w2 u); [unfold nav_of; simpl; rewrite N3; reflexivity|];
    unfold w2; rewrite (nav_of_alter pop u u _ _ _ (touch_nav_lookup u w));
    (destruct (decide (u = u)); [|contradiction]);
    unfold pop; rewrite Hstack, removelast_last; reflexivity.
Qed.

(** C6, as the code has it.  Whenever a command sends a report of an
    error kind other than a transfer error, every user's current path
    and indexed entries are as before; so is every ancestor stack, the
    report of a failed listing on going back apart, about whose stack
    nothing is said here; and so is every upload intent, the report of a
    missing configuration to an attachment apart, which resets the
    sender's intent and no other.  In particular, when going back meets a
    server that lists nothing, the failure is reported with the path that
    could not be listed, and the current path, the indexed entries and
    the upload intents are as before. *)
Theorem error_reports_and_state (w : World) (user_id : string) (c : Command) :
  let w' := snd (handle user_id c w) in
  (exists l, sent w' = sent w ++ l
     /\ forall m k,
          In m l -> error_kind m = Some k -> k <> TransferError ->
          (forall v, current_path (nav_of w' v) = current_path (nav_of w v)
                     /\ items (nav_of w' v) = items (nav_of w v))
          /\ ((forall p, m <> MCannotAccessParent p) ->
              forall v, parent_paths (nav_of w' v) = parent_paths (nav_of w v))
          /\ (m <> MConfigMissingUpload -> forall v, upload_of w' v = upload_of w v)
          /\ (m = MConfigMissingUpload ->
              upload_of w' user_id = initial_upload
              /\ forall v, v <> user_id -> upload_of w' v = upload_of w v))
  /\ (forall ps p url,
      c = CmdQuit ->
      get_user_config w user_id !! "alist_url" = Some (PStr url) -> url <> "" ->
      parent_paths (nav_of w user_id) = ps ++ [p] ->
      (forall h q l, remote w h q <> RListing l) ->
      sent w' = sent w ++ [MCannotAccessParent p]
      /\ current_path (nav_of w' user_id) = current_path (nav_of w user_id)
      /\ items (nav_of w' user_id) = items (nav_of w user_id)
      /\ forall v, upload_of w' v = upload_of w v).
Proof.
  intros w'. split.
  - pose proof (outcome_handle user_id c w) as Ho. fold w' in Ho.
    destruct Ho as [K|[C|[B|D]]].
    + destruct K as [[Vn Vu] [l [S F]]]. exists l. split; [exact S|].
      intros m k Hin Hk Hnt. rewrite Forall_forall in F.
      pose proof (F m (proj2 (list_elem_of_In _ _) Hin)) as Hord.
      split; [|split; [|split]].
      * intros v. rewrite Vn. split; reflexivity.
      * intros _ v. rewrite Vn. reflexivity.
      * intros _ v. apply Vu.
      * intros ->. destruct Hord.
    + destruct C as [l [S F]]. exists l. split; [exact S|].
      intros m k Hin Hk Hnt. rewrite Forall_forall in F.
      destruct (F m (proj2 (list_elem_of_In _ _) Hin)) as [H|H]; congruence.
    + destruct B as (p & S & U & N). exists [MCannotAccessParent p]. split; [exact S|].
      intros m k [<-|[]] Hk Hnt. split; [exact N|]. split; [|split].
      * intros H. exfalso. exact (H p eq_refl).
      * intros _. exact U.
      * discriminate.
    + destruct D as (S & N & U & O). exists [MConfigMissingUpload]. split; [exact S|].
      intros m k [<-|[]] Hk Hnt. split; [|split; [|split]].
      * intros v. rewrite N. split; reflexivity.
      * intros _ v. rewrite N. reflexivity.
      * intros H. exfalso. exact (H eq_refl).
      * intros _. split; [exact U|exact O].
  - intros ps p url -> Hurl Hne Hstack Hdown. unfold w'. cbn [handle].
    destruct (quit_unreachable_run user_id w ps p url Hurl Hne Hstack Hdown)
      as (w1 & Erun & S & N & U).
    rewrite Erun. simpl. rewrite N. repeat split; assumption.
Qed.

Lemma error_reports_witness :
  let w := browsing_world down_remote in
  let w1 := snd (handle "u1" (CmdLs "/zzz") w) in
  let w2 := snd (handle "u1" CmdQuit w) in
  (current_path (nav_of w1 "u1") = "/a" /\ parent_paths (nav_of w1 "u1") = ["/"]
   /\ upload_of w1 "u1" = upload_of w "u1")
  /\ (sent w2 = [MCannotAccessParent "/"] /\ current_path (nav_of w2 "u1") = "/a").
Proof.
  intros w w1 w2.
  pose proof (error_reports_and_state w "u1" (CmdLs "/zzz")) as [(l & S & H) _].
  pose proof (error_reports_and_state w "u1" CmdQuit) as [_ Hquit].
  split.
  - assert (Hl : l = [MCannotAccess "/zzz"]).
    { change (snd (handle "u1" (CmdLs "/zzz") w)) with w1 in S.
      assert (Hs : sent w1 = [MCannotAccess "/zzz"]) by (vm_compute; reflexivity).
      rewrite Hs in S. simpl in S. symmetry. exact S. }
    destruct (H (MCannotAccess "/zzz") ConnectionFailure) as (Hn & Hp & Hu & _);
      [rewrite Hl; left; reflexivity | reflexivity | discriminate |].
    destruct (Hn "u1") as [Hc _]. split; [|split].
    + exact Hc.
    + apply Hp. discriminate.
    + apply Hu. discriminate.
  - destruct (Hquit [] "/" "http://x") as (S2 & C2 & _);
      [reflexivity | vm_compute; reflexivity | discriminate | reflexivity
      | intros h q l0; discriminate |].
    split; [exact S2|exact C2].
Defined.

(** C6 as it is worded fails: an attachment arriving when the server has
    gone from the configuration is answered by a ConfigurationMissing
    report, and the sender's upload intent is reset with it. *)
Lemma error_report_resets_upload_intent : ~ errors_keep_all_state.
Proof.
  intros H.
  pose (att := {| att_is_image := false; att_name := "a.txt";
                  att_fetch := FetchPath "/tmp/a.txt" true 10 |}).
  specialize (H unconfigured_waiting "u1" (Attachments [att])
                MConfigMissingUpload ConfigurationMissing).
  destruct H as [_ Hup].
  - vm_compute. left. reflexivity.
  - reflexivity.
  - discriminate.
  - specialize (Hup "u1"). vm_compute in Hup. discriminate.
Qed.

(** Where going back meets a failed listing the ancestor is gone from the
    stack although the user has not moved: a second [quit] finds the
    stack empty. *)
Example failed_go_back_loses_ancestor :
  let w := browsing_world down_remote in
  let w1 := deliver 1001 "u1" CmdQuit w in
  let w2 := deliver 1002 "u1" CmdQuit w1 in
  parent_paths (nav_of w "u1") = ["/"]
  /\ sent w1 = [MCannotAccessParent "/"]
  /\ current_path (nav_of w1 "u1") = "/a"
  /\ parent_paths (nav_of w1 "u1") = []
  /\ sent w2 = [MCannotAccessParent "/"; MAtRoot].
Proof. vm_compute. repeat split. Qed.

(** The listing command, meeting the same failure, changes nothing. *)
Example failed_listing_keeps_state :
  let w := browsing_world down_remote in
  let w1 := deliver 1001 "u1" (CmdLs "1") w in
  sent w1 = [MCannotAccess "/a/b"] /\ nav_of w1 "u1" = nav_of w "u1".
Proof. vm_compute. split; reflexivity. Qed.

(* ===================================================================== *)
(** ** Reading the fields and views of a touched world *)
(* ===================================================================== *)

Lemma remote_touch_nav (u : string) (w : World) : remote (touch_nav u w) = remote w.
Proof. apply (touch_nav_rest u w). Qed.

Lemma config_touch_nav (u : string) (w : World) : config (touch_nav u w) = config w.
Proof. apply (touch_nav_rest u w). Qed.

Lemma user_files_touch_nav (u : string) (w : World) : user_files (touch_nav u w) = user_files w.
Proof. apply (touch_nav_rest u w). Qed.

Lemma cache_dir_touch_nav (u : string) (w : World) : cache_dir (touch_nav u w) = cache_dir w.
Proof. apply (touch_nav_rest u w). Qed.

Lemma downloads_touch_nav (u : string) (w : World) : downloads (touch_nav u w) = downloads w.
Proof. apply (touch_nav_rest u w). Qed.

Lemma user_upload_state_touch_nav (u : string) (w : World) : user_upload_state (touch_nav u w) = user_upload_state w.
Proof. apply (touch_nav_rest u w). Qed.

Lemma now_touch_nav (u : string) (w : World) : now (touch_nav u w) = now w.
Proof. apply (touch_nav_rest u w). Qed.

Lemma tasks_touch_nav (u : string) (w : World) : tasks (touch_nav u w) = tasks w.
Proof. apply (touch_nav_rest u w). Qed.

Lemma sent_touch_nav (u : string) (w : World) : sent (touch_nav u w) = sent w.
Proof. apply (touch_nav_rest u w). Qed.

Lemma calls_touch_nav (u : string) (w : World) : calls (touch_nav u w) = calls w.
Proof. apply (touch_nav_rest u w). Qed.

Lemma remote_touch_upload (u : string) (w : World) : remote (touch_upload u w) = remote w.
Proof. apply (touch_upload_rest u w). Qed.

Lemma config_touch_upload (u : string) (w : World) : config (touch_upload u w) = config w.
Proof. apply (touch_upload_rest u w). Qed.

Lemma user_files_touch_upload (u : string) (w : World) : user_files (touch_upload u w) = user_files w.
Proof. apply (touch_upload_rest u w). Qed.

Lemma cache_dir_touch_upload (u : string) (w : World) : cache_dir (touch_upload u w) = cache_dir w.
Proof. apply (touch_upload_rest u w). Qed.

Lemma downloads_touch_upload (u : string) (w : World) : downloads (touch_upload u w) = downloads w.
Proof. apply (touch_upload_rest u w). Qed.

Lemma user_navigation_state_touch_upload (u : string) (w : World) : user_navigation_state (touch_upload u w) = user_navigation_state w.
Proof. apply (touch_upload_rest u w). Qed.

Lemma now_touch_upload (u : string) (w : World) : now (touch_upload u w) = now w.
Proof. apply (touch_upload_rest u w). Qed.

Lemma tasks_touch_upload (u : string) (w : World) : tasks (touch_upload u w) = tasks w.
Proof. apply (touch_upload_rest u w). Qed.

Lemma sent_touch_upload (u : string) (w : World) : sent (touch_upload u w) = sent w.
Proof. apply (touch_upload_rest u w). Qed.

Lemma calls_touch_upload (u : string) (w : World) : calls (touch_upload u w) = calls w.
Proof. apply (touch_upload_rest u w). Qed.

Lemma upload_of_touch_nav (u v : string) (w : World) :
  upload_of (touch_nav u w) v = upload_of w v.
Proof. unfold upload_of. rewrite user_upload_state_touch_nav. reflexivity. Qed.

Lemma nav_of_touch_upload (u v : string) (w : World) :
  nav_of (touch_upload u w) v = nav_of w v.
Proof. unfold nav_of. rewrite user_navigation_state_touch_upload. reflexivity. Qed.

Lemma nav_of_alter_other (f : NavState -> NavState) (u v : string) (w0 w : World) :
  v <> u -> nav_of (with_nav (alter f u (user_navigation_state w0)) w) v = nav_of w0 v.
Proof. intros Hne. unfold nav_of. simpl. rewrite lookup_alter_ne by congruence. reflexivity. Qed.

Lemma upload_of_alter_other (f : UploadState -> UploadState) (u v : string) (w0 w : World) :
  v <> u -> upload_of (with_upload (alter f u (user_upload_state w0)) w) v = upload_of w0 v.
Proof. intros Hne. unfold upload_of. simpl. rewrite lookup_alter_ne by congruence. reflexivity. Qed.

Lemma nav_of_with_user_files x (w : World) (v : string) : nav_of (with_user_files x w) v = nav_of w v.
Proof. reflexivity. Qed.

Lemma upload_of_with_user_files x (w : World) (v : string) : upload_of (with_user_files x w) v = upload_of w v.
Proof. reflexivity. Qed.

Lemma nav_of_with_cache_dir x (w : World) (v : string) : nav_of (with_cache_dir x w) v = nav_of w v.
Proof. reflexivity. Qed.

Lemma upload_of_with_cache_dir x (w : World) (v : string) : upload_of (with_cache_dir x w) v = upload_of w v.
Proof. reflexivity. Qed.

Lemma nav_of_with_downloads x (w : World) (v : string) : nav_of (with_downloads x w) v = nav_of w v.
Proof. reflexivity. Qed.

Lemma upload_of_with_downloads x (w : World) (v : string) : upload_of (with_downloads x w) v = upload_of w v.
Proof. reflexivity. Qed.

Lemma upload_of_with_nav x (w : World) (v : string) : upload_of (with_nav x w) v = upload_of w v.
Proof. reflexivity. Qed.

Lemma nav_of_with_upload x (w : World) (v : string) : nav_of (with_upload x w) v = nav_of w v.
Proof. reflexivity. Qed.

Lemma nav_of_with_now x (w : World) (v : string) : nav_of (with_now x w) v = nav_of w v.
Proof. reflexivity. Qed.

Lemma upload_of_with_now x (w : World) (v : string) : upload_of (with_now x w) v = upload_of w v.
Proof. reflexivity. Qed.

Lemma nav_of_with_tasks x (w : World) (v : string) : nav_of (with_tasks x w) v = nav_of w v.
Proof. reflexivity. Qed.

Lemma upload_of_with_tasks x (w : World) (v : string) : upload_of (with_tasks x w) v = upload_of w v.
Proof. reflexivity. Qed.

Lemma nav_of_with_sent x (w : World) (v : string) : nav_of (with_sent x w) v = nav_of w v.
Proof. reflexivity. Qed.

Lemma upload_of_with_sent x (w : World) (v : string) : upload_of (with_sent x w) v = upload_of w v.
Proof. reflexivity. Qed.

Lemma nav_of_with_calls x (w : World) (v : string) : nav_of (with_calls x w) v = nav_of w v.
Proof. reflexivity. Qed.

Lemma upload_of_with_calls x (w : World) (v : string) : upload_of (with_calls x w) v = upload_of w v.
Proof. reflexivity. Qed.

Create Rewrite HintDb views.
#[local] Hint Rewrite remote_touch_nav config_touch_nav user_files_touch_nav cache_dir_touch_nav downloads_touch_nav user_upload_state_touch_nav now_touch_nav tasks_touch_nav sent_touch_nav calls_touch_nav remote_touch_upload config_touch_upload user_files_touch_upload cache_dir_touch_upload downloads_touch_upload user_navigation_state_touch_upload now_touch_upload tasks_touch_upload sent_touch_upload calls_touch_upload upload_of_touch_nav nav_of_touch_upload nav_of_with_user_files upload_of_with_user_files nav_of_with_cache_dir upload_of_with_cache_dir nav_of_with_downloads upload_of_with_downloads upload_of_with_nav nav_of_with_upload nav_of_with_now upload_of_with_now nav_of_with_tasks upload_of_with_tasks nav_of_with_sent upload_of_with_sent nav_of_with_calls upload_of_with_calls
  touch_nav_view touch_upload_view : views.

(* ===================================================================== *)
(** ** Frame relations are preorders; one tactic walks a handler *)
(* ===================================================================== *)

#[local] Instance others_kept_preorder (u : string) : PreOrder (others_kept u).
Proof.
  split.
  - intros w v _. split; reflexivity.
  - intros a b c H1 H2 v Hv. destruct (H1 v Hv) as [N1 U1]. destruct (H2 v Hv) as [N2 U2].
    split; congruence.
Qed.

#[local] Instance nav_kept_preorder : PreOrder nav_kept.
Proof.
  split; [intros w v; reflexivity|].
  intros a b c H1 H2 v. rewrite H2. apply H1.
Qed.

#[local] Instance upload_kept_preorder : PreOrder upload_kept.
Proof.
  split; [intros w v; reflexivity|].
  intros a b c H1 H2 v. rewrite H2. apply H1.
Qed.

#[local] Instance settings_kept_preorder : PreOrder settings_kept.
Proof.
  split; [intros w; split; reflexivity|].
  intros a b c [F1 C1] [F2 C2]. split; congruence.
Qed.

#[local] Instance cache_kept_preorder : PreOrder cache_kept.
Proof. split; [intros w; reflexivity|]. intros a b c H1 H2. unfold cache_kept in *. congruence. Qed.

#[local] Instance calls_kept_preorder : PreOrder calls_kept.
Proof. split; [intros w; reflexivity|]. intros a b c H1 H2. unfold calls_kept in *. congruence. Qed.

#[local] Instance appends_preorder : PreOrder appends.
Proof.
  split.
  - intros w. exists []. rewrite app_nil_r. reflexivity.
  - intros a b c [l1 E1] [l2 E2]. exists (l1 ++ l2). rewrite E2, E1, app_assoc. reflexivity.
Qed.

(** The chunk loop respects whatever every reply respects. *)
Lemma respects_receive_chunks (R : World -> World -> Prop) `{!PreOrder R}
    (file_size : Z) (chunks : list Z) (downloaded : Z) :
  (forall m, respects R (yield m)) ->
  respects R (receive_chunks file_size downloaded chunks).
Proof.
  intros Hy. revert downloaded. induction chunks as [|len rest IH]; intros downloaded; simpl.
  - respects_step.
  - respects_step; [|apply IH]. respects_step; [apply Hy|respects_step].
Qed.

Create HintDb handlers.
#[local] Hint Unfold config_command list_files browse search_files file_info
  get_download_link quit_navigation relist_previous upload_command
  handle_file_message help_command _download_file fetch_and_send _upload_file
  _upload_image upload_fetched put_and_refresh _format_file_list
  AlistClient.connect AlistClient.login AlistClient.list_files
  AlistClient.get_file_info AlistClient.search_files AlistClient.get_download_url
  AlistClient.upload_file _get_item_by_number auto_cancel_upload : handlers.

(** A primitive step, run on a world and written out. *)
Ltac open_leaf w :=
  intros w;
  rewrite ?get_nav_run, ?get_upload_run, ?set_waiting_run, ?update_nav_run;
  try (unfold get_cache;
       destruct (cache_dir w !! _);
       [destruct (as_int _); [destruct (_ >? _)%Z|]|]);
  try (unfold clear_cache, modify; destruct (negb _));
  unfold yield, create_task, save_config, mutate_nav, set_cache, request, modify;
  simpl.

(** Walking a handler: structure by [respects_step], the chunk loop by
    its lemma, every primitive by [leaf]. *)
Ltac frame_walk leaf :=
  repeat autounfold with handlers; cbv zeta;
  repeat first
    [ respects_step; cbv zeta
    | apply respects_receive_chunks; [exact _ | intros ?]
    | leaf ].

Ltac others_leaf :=
  let w := fresh "w" in let v := fresh "v" in let Hv := fresh "Hv" in
  open_leaf w; intros v Hv; split;
  autorewrite with views;
  rewrite ?nav_of_insert, ?upload_of_insert;
  rewrite ?nav_of_alter_other, ?upload_of_alter_other by exact Hv;
  autorewrite with views;
  repeat (destruct (decide (v = _)); try contradiction);
  reflexivity.

Lemma others_kept_handle (u : string) (c : Command) :
  respects (others_kept u) (handle u c).
Proof.
  destruct c; cbn [handle]; frame_walk others_leaf.
Qed.

#[local] Instance settings_confined_preorder (u : string) : PreOrder (settings_confined u).
Proof.
  split.
  - intros w. split; [reflexivity|]. intros v _. reflexivity.
  - intros a b c [C1 F1] [C2 F2]. split; [congruence|].
    intros v Hv. rewrite F2, F1 by exact Hv. reflexivity.
Qed.

Ltac nav_leaf :=
  let w := fresh "w" in let v := fresh "v" in
  open_leaf w; intros v; autorewrite with views; reflexivity.

Ltac upload_leaf :=
  let w := fresh "w" in let v := fresh "v" in
  open_leaf w; intros v; autorewrite with views; reflexivity.

Ltac settings_leaf :=
  let w := fresh "w" in
  open_leaf w; split; simpl; autorewrite with views; reflexivity.

Ltac confined_leaf :=
  let w := fresh "w" in let v := fresh "v" in let Hv := fresh "Hv" in
  open_leaf w; (split; [|intros v Hv]); simpl; autorewrite with views;
  try (rewrite lookup_insert_ne by congruence); reflexivity.

Ltac cache_leaf :=
  let w := fresh "w" in
  open_leaf w; unfold cache_kept; simpl; autorewrite with views; reflexivity.

Ltac calls_leaf :=
  let w := fresh "w" in
  open_leaf w; unfold calls_kept; simpl; autorewrite with views; reflexivity.

Ltac appends_leaf :=
  let w := fresh "w" in
  open_leaf w; unfold appends; simpl; autorewrite with views;
  first [ exists []; rewrite app_nil_r; reflexivity | eexists; reflexivity ].

(** Turning a goal about the world a handler leaves into a [respects]
    goal. *)
Ltac as_respects R :=
  lazymatch goal with
  | |- R ?w0 (snd (?m ?w0)) => apply (fun H : respects R m => H w0)
  end.

Lemma nav_kept_config (u a k v : string) : respects nav_kept (config_command u a k v).
Proof. frame_walk nav_leaf. Qed.

Lemma nav_kept_search (u k p : string) : respects nav_kept (search_files u k p).
Proof. frame_walk nav_leaf. Qed.

Lemma nav_kept_info (u p : string) : respects nav_kept (file_info u p).
Proof. frame_walk nav_leaf. Qed.

Lemma nav_kept_download (u p : string) : respects nav_kept (get_download_link u p).
Proof. frame_walk nav_leaf. Qed.

Lemma nav_kept_upload (u a : string) : respects nav_kept (upload_command u a).
Proof. frame_walk nav_leaf. Qed.

Lemma nav_kept_help (u : string) : respects nav_kept (help_command u).
Proof. frame_walk nav_leaf. Qed.

Lemma upload_kept_config (u a k v : string) : respects upload_kept (config_command u a k v).
Proof. frame_walk upload_leaf. Qed.

Lemma upload_kept_ls (u p : string) : respects upload_kept (list_files u p).
Proof. frame_walk upload_leaf. Qed.

Lemma upload_kept_search (u k p : string) : respects upload_kept (search_files u k p).
Proof. frame_walk upload_leaf. Qed.

Lemma upload_kept_info (u p : string) : respects upload_kept (file_info u p).
Proof. frame_walk upload_leaf. Qed.

Lemma upload_kept_download (u p : string) : respects upload_kept (get_download_link u p).
Proof. frame_walk upload_leaf. Qed.

Lemma upload_kept_quit (u : string) : respects upload_kept (quit_navigation u).
Proof. frame_walk upload_leaf. Qed.

Lemma upload_kept_help (u : string) : respects upload_kept (help_command u).
Proof. frame_walk upload_leaf. Qed.

(** X1. A command of one user never changes what any other user sees of
    their navigation state or upload intent. *)
Theorem command_touches_only_its_sender (w : World) (user_id other : string) (c : Command) :
  other <> user_id ->
  nav_of (snd (handle user_id c w)) other = nav_of w other
  /\ upload_of (snd (handle user_id c w)) other = upload_of w other.
Proof. intros Hne. exact (others_kept_handle user_id c w other Hne). Qed.

Lemma command_touches_only_its_sender_witness :
  let w := browsing_world sample_remote in
  nav_of (snd (handle "u2" (CmdLs "/") w)) "u1" = sample_nav
  /\ upload_of (snd (handle "u2" (CmdLs "/") w)) "u1" = initial_upload.
Proof.
  intros w.
  apply (command_touches_only_its_sender w "u2" "u1" (CmdLs "/")). discriminate.
Defined.

(** X2. The navigation state changes only through [ls], [quit] and
    attachments: no other command changes what any user sees of it.  The
    upload intent changes only through [upload] and attachments. *)
Theorem state_changes_only_by (w : World) (user_id : string) (c : Command) :
  let w' := snd (handle user_id c w) in
  match c with
  | CmdLs _ | CmdQuit | Attachments _ => True
  | _ => forall v, nav_of w' v = nav_of w v
  end
  /\ match c with
     | CmdUpload _ | Attachments _ => True
     | _ => forall v, upload_of w' v = upload_of w v
     end.
Proof.
  destruct c; cbn [handle]; split; try exact I.
  - apply nav_kept_config.
  - apply upload_kept_config.
  - apply upload_kept_ls.
  - apply nav_kept_search.
  - apply upload_kept_search.
  - apply nav_kept_info.
  - apply upload_kept_info.
  - apply nav_kept_download.
  - apply upload_kept_download.
  - apply upload_kept_quit.
  - apply nav_kept_upload.
  - apply nav_kept_help.
  - apply upload_kept_help.
Qed.

#[local] Instance cache_confined_preorder (u : string) : PreOrder (cache_confined u).
Proof.
  split.
  - intros w k _. reflexivity.
  - intros a b c H1 H2 k Hk. rewrite (H2 k Hk). apply H1. exact Hk.
Qed.


Lemma get_user_config_ext (w w' : World) (u : string) :
  config w' = config w -> user_files w' = user_files w ->
  get_user_config w' u = get_user_config w u.
Proof.
  intros C F. unfold get_user_config, get_webui_config, load_config.
  rewrite C, F. reflexivity.
Qed.

Lemma settings_confined_handle (u : string) (c : Command) :
  respects (settings_confined u) (handle u c).
Proof. destruct c; cbn [handle]; frame_walk confined_leaf. Qed.

Lemma settings_kept_config (u a k v : string) :
  String.eqb a "set" = false -> respects settings_kept (config_command u a k v).
Proof.
  intros E. unfold config_command. rewrite E. cbv beta iota.
  frame_walk settings_leaf.
Qed.

Lemma settings_kept_ls (u p : string) : respects settings_kept (list_files u p).
Proof. frame_walk settings_leaf. Qed.

Lemma settings_kept_search (u k p : string) : respects settings_kept (search_files u k p).
Proof. frame_walk settings_leaf. Qed.

Lemma settings_kept_info (u p : string) : respects settings_kept (file_info u p).
Proof. frame_walk settings_leaf. Qed.

Lemma settings_kept_download (u p : string) : respects settings_kept (get_download_link u p).
Proof. frame_walk settings_leaf. Qed.

Lemma settings_kept_quit (u : string) : respects settings_kept (quit_navigation u).
Proof. frame_walk settings_leaf. Qed.

Lemma settings_kept_upload (u a : string) : respects settings_kept (upload_command u a).
Proof. frame_walk settings_leaf. Qed.

Lemma settings_kept_help (u : string) : respects settings_kept (help_command u).
Proof. frame_walk settings_leaf. Qed.

Lemma settings_kept_attachments (u : string) (l : list Attachment) :
  respects settings_kept (handle_file_message u l).
Proof. frame_walk settings_leaf. Qed.

(** X3. Stored settings are written by [config set] alone, and only into
    the sender's own file: every other command leaves all user files as
    they are, no command writes another user's file, and the WebUI
    configuration is never written. *)
Theorem settings_written_only_by_config_set (w : World) (user_id : string) (c : Command) :
  let w' := snd (handle user_id c w) in
  config w' = config w
  /\ (forall v, v <> user_id -> user_files w' !! v = user_files w !! v)
  /\ match c with
     | CmdConfig action _ _ =>
         if String.eqb action "set" then True else user_files w' = user_files w
     | _ => user_files w' = user_files w
     end.
Proof.
  intros w'. destruct (settings_confined_handle user_id c w) as [C F].
  split; [exact C|]. split; [exact F|]. subst w'.
  destruct c; cbn [handle].
  - destruct (String.eqb action "set") eqn:E; [exact I|].
    apply (settings_kept_config user_id action key value E w).
  - apply settings_kept_ls.
  - apply settings_kept_search.
  - apply settings_kept_info.
  - apply settings_kept_download.
  - apply settings_kept_quit.
  - apply settings_kept_upload.
  - apply settings_kept_help.
  - apply settings_kept_attachments.
Qed.











Ltac walk_calls :=
  lazymatch goal with
  | |- calls (snd (?m ?w0)) = calls ?w0 =>
      apply (fun H : respects calls_kept m => H w0); frame_walk calls_leaf
  end.

Lemma calls_kept_config (u a k v : string) :
  String.eqb a "test" = false -> respects calls_kept (config_command u a k v).
Proof.
  intros E. unfold config_command. rewrite E. cbv beta iota.
  frame_walk calls_leaf.
Qed.

Lemma calls_kept_upload (u a : string) : respects calls_kept (upload_command u a).
Proof. frame_walk calls_leaf. Qed.

Lemma calls_kept_help (u : string) : respects calls_kept (help_command u).
Proof. frame_walk calls_leaf. Qed.

Lemma calls_kept_set_waiting (u : string) (b : bool) (p : string) :
  respects calls_kept (_set_user_upload_waiting u b p).
Proof. calls_leaf. Qed.

(** Running a handler that starts by reading the configuration and gives
    up when no server address is configured. *)
Ltac gives_up H :=
  unfold bind at 1; simpl; rewrite H; simpl; reflexivity.

(** X5. While no server address is configured for the sender, no command
    sends any request: neither a login nor a listing, search, stat,
    upload or download leaves the process. *)
Theorem no_request_without_server (w : World) (user_id : string) (c : Command) :
  _validate_config (get_user_config w user_id) = false ->
  calls (snd (handle user_id c w)) = calls w.
Proof.
  intros Hv. destruct c; cbn [handle].
  - destruct (String.eqb action "test") eqn:E.
    + unfold config_command.
      destruct (String.eqb action "show"); [walk_calls|].
      destruct (String.eqb action "setup"); [walk_calls|].
      destruct (String.eqb action "set"); [walk_calls|].
      rewrite E. gives_up Hv.
    + apply (calls_kept_config user_id action key value E w).
  - unfold list_files. gives_up Hv.
  - unfold search_files. destruct (String.eqb keyword ""); [reflexivity|]. gives_up Hv.
  - unfold file_info. destruct (String.eqb path ""); [reflexivity|]. gives_up Hv.
  - unfold get_download_link. destruct (String.eqb path ""); [reflexivity|]. gives_up Hv.
  - unfold quit_navigation. gives_up Hv.
  - apply calls_kept_upload.
  - apply calls_kept_help.
  - unfold handle_file_message. unfold bind at 1. rewrite get_upload_run.
    destruct (waiting (upload_of w user_id)); simpl; [|apply calls_touch_upload].
    unfold bind at 1. simpl.
    rewrite (get_user_config_ext w (touch_upload user_id w) user_id), Hv.
    + simpl. unfold bind at 1. simpl.
      etransitivity; [apply (calls_kept_set_waiting user_id false "/")|].
      simpl. apply calls_touch_upload.
    + apply touch_upload_rest.
    + apply touch_upload_rest.
Qed.

Lemma no_request_without_server_witness :
  calls (snd (handle "u1" (CmdLs "/") unconfigured_waiting)) = calls unconfigured_waiting.
Proof.
  apply (no_request_without_server unconfigured_waiting "u1" (CmdLs "/")).
  vm_compute. reflexivity.
Defined.

(** *** Replies *)

Lemma replied_appends (w w' : World) : replied w w' -> appends w w'.
Proof. intros (m&l&H). exists (m :: l). exact H. Qed.

Lemma replied_then (a b c : World) : replied a b -> appends b c -> replied a c.
Proof.
  intros (m&l&H) (l'&H'). exists m, (l ++ l'). rewrite H', H, <- app_assoc. reflexivity.
Qed.

Lemma then_replied (a b c : World) : appends a b -> replied b c -> replied a c.
Proof.
  intros (l&H) (m&l'&H'). unfold replied. rewrite H' , H.
  destruct l as [|x l]; simpl.
  - exists m, l'. rewrite app_nil_r. reflexivity.
  - exists x, (l ++ m :: l'). rewrite <- app_assoc. reflexivity.
Qed.

Ltac walk_appends := frame_walk appends_leaf.

Lemma always_yield (m : Msg) : always_answers (yield m).
Proof. intros w. exists m, []. reflexivity. Qed.

Lemma always_bind_left {A B} (m : M A) (k : A -> M B) :
  always_answers m -> (forall a, respects appends (k a)) -> always_answers (bind m k).
Proof.
  intros Hm Hk w. unfold bind. specialize (Hm w).
  destruct (m w) as [[a|e] w1]; simpl in *; [|exact Hm].
  apply (replied_then _ _ _ Hm). apply Hk.
Qed.

Lemma always_bind_right {A B} (m : M A) (k : A -> M B) :
  returns m -> respects appends m -> (forall a, always_answers (k a)) ->
  always_answers (bind m k).
Proof.
  intros Hr Hm Hk w. unfold bind. specialize (Hm w). destruct (Hr w) as [a Ha].
  destruct (m w) as [[a'|e] w1]; simpl in *; [|discriminate].
  apply (then_replied _ _ _ Hm). apply Hk.
Qed.

Lemma always_try {A} (body : M A) (handler : string -> M A) :
  answers body -> (forall e, always_answers (handler e)) ->
  always_answers (try_except body handler).
Proof.
  intros Hb Hh w. unfold try_except. destruct (Hb w) as [Ha Hv].
  destruct (body w) as [[a|e] w1]; simpl in *; [exact Hv|].
  apply (then_replied _ _ _ Ha). apply Hh.
Qed.

Lemma answers_always {A} (m : M A) : always_answers m -> answers m.
Proof.
  intros H w. split; [apply replied_appends, H|].
  destruct (fst (m w)); [apply H|exact I].
Qed.

Lemma answers_raise {A} (e : string) : answers (raise (A:=A) e).
Proof. intros w. split; [exists []; rewrite app_nil_r; reflexivity|exact I]. Qed.

Lemma answers_bind_left {A B} (m : M A) (k : A -> M B) :
  answers m -> (forall a, respects appends (k a)) -> answers (bind m k).
Proof.
  intros Hm Hk w. unfold bind. destruct (Hm w) as [Ha Hv].
  destruct (m w) as [[a|e] w1]; simpl in *; [|split; [exact Ha|exact I]].
  pose proof (Hk a w1) as Hk1. split.
  - etransitivity; [exact Ha|exact Hk1].
  - destruct (fst (k a w1)); [|exact I]. apply (replied_then _ _ _ Hv Hk1).
Qed.

Lemma answers_bind_right {A B} (m : M A) (k : A -> M B) :
  respects appends m -> (forall a, answers (k a)) -> answers (bind m k).
Proof.
  intros Hm Hk w. unfold bind. specialize (Hm w).
  destruct (m w) as [[a|e] w1]; simpl in *; [|split; [exact Hm|exact I]].
  destruct (Hk a w1) as [Ha Hv]. split.
  - etransitivity; [exact Hm|exact Ha].
  - destruct (fst (k a w1)); [|exact I]. apply (then_replied _ _ _ Hm Hv).
Qed.

Lemma answers_try {A} (body : M A) (handler : string -> M A) :
  answers body -> (forall e, always_answers (handler e)) ->
  answers (try_except body handler).
Proof. intros Hb Hh. apply answers_always, always_try; assumption. Qed.

(** Steps that cannot raise. *)
Lemma returns_get_world : returns get_world.
Proof. intros w. eexists. reflexivity. Qed.

Lemma returns_modify (f : World -> World) : returns (modify f).
Proof. intros w. eexists. reflexivity. Qed.

Lemma returns_get_nav (u : string) : returns (_get_user_navigation_state u).
Proof. intros w. rewrite get_nav_run. eexists. reflexivity. Qed.

Lemma returns_get_upload (u : string) : returns (_get_user_upload_state u).
Proof. intros w. rewrite get_upload_run. eexists. reflexivity. Qed.

Lemma returns_set_waiting (u : string) (b : bool) (p : string) :
  returns (_set_user_upload_waiting u b p).
Proof. intros w. rewrite set_waiting_run. eexists. reflexivity. Qed.

Lemma returns_item (u : string) (n : Z) : returns (_get_item_by_number u n).
Proof.
  intros w. unfold _get_item_by_number, bind. rewrite get_nav_run.
  destruct (_ && _); eexists; reflexivity.
Qed.

Ltac returns_prim :=
  first [ apply returns_get_world | apply returns_get_nav | apply returns_get_upload
        | apply returns_set_waiting | apply returns_item
        | unfold mutate_nav, clear_cache, save_config, yield, create_task;
          apply returns_modify ].

Ltac answers_walk :=
  cbv zeta;
  lazymatch goal with
  | |- answers (yield _) => apply answers_always, always_yield
  | |- answers (raise _) => apply answers_raise
  | |- answers (try_except _ _) =>
      apply answers_try; [answers_walk | intros ?; always_walk]
  | |- answers (bind _ _) =>
      first [ apply answers_bind_left; [solve [answers_walk] | intros ?; solve [walk_appends]]
            | apply answers_bind_right; [solve [walk_appends] | intros ?; answers_walk] ]
  | |- answers (match ?x with _ => _ end) => destruct x; answers_walk
  | |- answers _ => progress autounfold with handlers; answers_walk
  end
with always_walk :=
  cbv zeta;
  lazymatch goal with
  | |- always_answers (yield _) => apply always_yield
  | |- always_answers (try_except _ _) =>
      apply always_try; [answers_walk | intros ?; always_walk]
  | |- always_answers (bind _ _) =>
      first [ apply always_bind_right;
              [solve [returns_prim] | solve [walk_appends] | intros ?; always_walk]
            | apply always_bind_left; [solve [always_walk] | intros ?; solve [walk_appends]] ]
  | |- always_answers (match ?x with _ => _ end) => destruct x; always_walk
  | |- always_answers _ => progress autounfold with handlers; always_walk
  end.

Lemma always_config (u a k v : string) : always_answers (config_command u a k v).
Proof. always_walk. Qed.

Lemma always_browse (u p : string) (cfg : gmap string pyval) :
  always_answers (browse u p cfg).
Proof. always_walk. Qed.

(** A handler that goes on after [int]: it answers when the number is
    read, and raises in silence when it is not. *)
Lemma int_then_answers {B} (s : string) (k : Z -> M B) (w : World) :
  (forall n, always_answers (k n)) ->
  match Py.int s with
  | Some _ => replied w (snd (bind (int_of_text s) k w))
  | None => bind (int_of_text s) k w = (Exc "ValueError", w)
  end.
Proof.
  intros Hk. unfold bind. rewrite int_of_text_run.
  destruct (Py.int s); [apply Hk|reflexivity].
Qed.

Lemma bind_get_world {B} (k : World -> M B) (w : World) :
  bind get_world k w = k w w.
Proof. reflexivity. Qed.

Lemma ls_answered (u p : string) (w : World) :
  if number_refused w u (CmdLs p)
  then list_files u p w = (Exc "ValueError", w)
  else replied w (snd (list_files u p w)).
Proof.
  unfold number_refused, list_files. rewrite !bind_get_world. cbv beta zeta.
  destruct (_validate_config (get_user_config w u)); cbn [negb andb];
    [|apply always_yield].
  destruct (Py.isdigit p); cbn [andb]; [|apply always_browse].
  match goal with
  | |- context [bind (int_of_text p) ?k] =>
      pose proof (int_then_answers p k w) as H
  end.
  destruct (Py.int p); apply H; intros n; always_walk.
Qed.

Lemma always_search (u k p : string) : always_answers (search_files u k p).
Proof. always_walk. Qed.

Lemma always_info (u p : string) : always_answers (file_info u p).
Proof. always_walk. Qed.

Lemma download_answered (u p : string) (w : World) :
  if number_refused w u (CmdDownload p)
  then get_download_link u p w = (Exc "ValueError", w)
  else replied w (snd (get_download_link u p w)).
Proof.
  unfold number_refused, get_download_link.
  destruct (String.eqb p "") eqn:Hp.
  - apply String.eqb_eq in Hp. subst p.
    change (Py.isdigit "") with false. rewrite andb_false_r. cbn [andb].
    apply always_yield.
  - rewrite !bind_get_world. cbv beta zeta.
    destruct (_validate_config (get_user_config w u)); cbn [negb andb];
      [|apply always_yield].
    destruct (Py.isdigit p); cbn [andb].
    + match goal with
      | |- context [bind (int_of_text p) ?k] =>
          pose proof (int_then_answers p k w) as H
      end.
      destruct (Py.int p); apply H; intros n; always_walk.
    + match goal with
      | |- replied ?w0 (snd (?m ?w0)) => apply (fun H : always_answers m => H w0)
      end.
      always_walk.
Qed.

Lemma always_quit (u : string) : always_answers (quit_navigation u).
Proof. always_walk. Qed.

Lemma always_upload (u a : string) : always_answers (upload_command u a).
Proof. always_walk. Qed.

Lemma always_help (u : string) : always_answers (help_command u).
Proof. always_walk. Qed.

Lemma replied_bind_run {A B} (m : M A) (k : A -> M B) (w w1 : World) (a : A) :
  m w = (Val a, w1) -> appends w w1 -> always_answers (k a) ->
  replied w (snd (bind m k w)).
Proof.
  intros Hm Ha Hk. unfold bind. rewrite Hm.
  apply (then_replied _ _ _ Ha). apply Hk.
Qed.

(** X6. Every command is answered, but for a number that cannot be
    read: whatever the stored state, the configuration and the server's
    behaviour, each command of the group sends at least one reply, and
    nothing sent before is taken back; the one exception is [ls] or
    [download], with a server configured, of an argument that [isdigit]
    accepts and [int] refuses (a superscript two, or more than 4300
    digits): [int] is called outside the [try], so the handler raises
    [ValueError] having sent nothing and changed nothing.  A message with
    attachments is answered exactly when its sender is waiting to upload;
    otherwise it is passed over in silence. *)
Theorem command_is_answered_or_number_refused
    (w : World) (user_id : string) (c : Command) :
  let w' := snd (handle user_id c w) in
  match c with
  | Attachments _ =>
      if waiting (upload_of w user_id)
      then exists m l, sent w' = sent w ++ m :: l
      else sent w' = sent w
  | _ =>
      if number_refused w user_id c
      then handle user_id c w = (Exc "ValueError", w)
      else exists m l, sent w' = sent w ++ m :: l
  end.
Proof.
  destruct c; cbn [handle number_refused].
  - apply always_config.
  - apply ls_answered.
  - apply always_search.
  - apply always_info.
  - apply download_answered.
  - apply always_quit.
  - apply always_upload.
  - apply always_help.
  - destruct (waiting (upload_of w user_id)) eqn:Hw.
    + unfold handle_file_message.
      eapply replied_bind_run; [apply get_upload_run| |].
      * exists []. rewrite app_nil_r. apply sent_touch_upload.
      * rewrite Hw. cbv beta iota. simpl negb. cbv iota. always_walk.
    + unfold handle_file_message, bind. rewrite get_upload_run, Hw. simpl.
      apply sent_touch_upload.
Qed.

(** The three ways of a number given to [ls]: a full-width one is read as
    the index it writes, a superscript two is accepted by [isdigit] and
    refused by [int], and a letter makes the argument a path. *)
Example numbers_given_to_ls :
  let w := browsing_world sample_remote in
  (Py.isdigit "１" = true /\ Py.int "１" = Some 1%Z
   /\ sent (snd (handle "u1" (CmdLs "１") w)) = sent (snd (handle "u1" (CmdLs "1") w)))
  /\ (Py.isdigit "²" = true /\ Py.int "²" = None
      /\ handle "u1" (CmdLs "²") w = (Exc "ValueError", w))
  /\ (Py.isdigit "1a" = false
      /\ exists t, sent (snd (handle "u1" (CmdLs "1a") w)) = [MListing t false]).
Proof.
  vm_compute. repeat split; try reflexivity. eexists. reflexivity.
Qed.

(** *** [config set] and [config show] *)

Lemma union_absorbs (m d : gmap string pyval) :
  (forall i, m !! i = None -> d !! i = None) -> m ∪ d = m.
Proof.
  intros H. apply map_eq. intros i. rewrite lookup_union.
  destruct (m !! i) eqn:E.
  - destruct (d !! i); reflexivity.
  - rewrite (H i E). reflexivity.
Qed.

Lemma load_config_full (w : World) (u i : string) :
  load_config w u !! i = None -> default_config !! i = None.
Proof.
  unfold load_config. destruct (user_files w !! u); [|auto].
  intros H. apply lookup_union_None in H. apply H.
Qed.

(** What [load_config] reads back once a dictionary made from the loaded
    one has been saved. *)
Lemma load_after_save (w : World) (u : string) (cfg : gmap string pyval) :
  (forall i, cfg !! i = None -> load_config w u !! i = None) ->
  load_config (snd (save_config u cfg w)) u = cfg.
Proof.
  intros H. unfold load_config, save_config, modify. simpl.
  rewrite lookup_insert_eq. apply union_absorbs.
  intros i Hi. apply (load_config_full w u). apply H. exact Hi.
Qed.

Lemma fall_back_set (key : string) (d v : pyval) (c : gmap string pyval) :
  c !! key = Some v -> truthy v = true -> fall_back key d c = c.
Proof.
  intros Hc Hv. unfold fall_back, dict_get. rewrite Hc. simpl. rewrite Hv. reflexivity.
Qed.

Lemma fall_back_insert (key j : string) (d x : pyval) (c : gmap string pyval) :
  key <> j -> fall_back key d (<[j := x]> c) = <[j := x]> (fall_back key d c).
Proof.
  intros Hne. unfold fall_back, dict_get.
  rewrite lookup_insert_ne by congruence.
  destruct (negb _ && _); [|reflexivity].
  apply insert_insert_ne. exact Hne.
Qed.

Lemma webui_with_sent (l : list Msg) (w : World) (k : string) (d : pyval) :
  get_webui_config (with_sent l w) k d = get_webui_config w k d.
Proof. reflexivity. Qed.

Lemma webui_with_files (f : gmap string (gmap string pyval)) (w : World) (k : string)
    (d : pyval) :
  get_webui_config (with_user_files f w) k d = get_webui_config w k d.
Proof. reflexivity. Qed.

(** The state a stored value leaves. *)
Lemma store_run (u : string) (cfg : gmap string pyval) (m : Msg) (w : World) :
  snd ((save_config u cfg ;;; yield m) w)
  = with_sent (sent w ++ [m]) (with_user_files (<[u := cfg]> (user_files w)) w).
Proof. reflexivity. Qed.

Lemma load_with_sent (l : list Msg) (w : World) (u : string) :
  load_config (with_sent l w) u = load_config w u.
Proof. reflexivity. Qed.

Lemma truthy_str (s : string) : s <> "" -> truthy (PStr s) = true.
Proof.
  intros H. simpl. destruct (String.eqb s "") eqn:E; [|reflexivity].
  apply String.eqb_eq in E. contradiction.
Qed.

Lemma stored_keys (key : string) (v : pyval) (b : bool) (c : gmap string pyval) (i : string) :
  (if b then <["setup_completed" := PBool true]> (<[key := v]> c) else <[key := v]> c) !! i
    = None ->
  c !! i = None.
Proof.
  destruct b; intros H.
  - apply lookup_insert_None in H as [H _]. apply lookup_insert_None in H as [H _]. exact H.
  - apply lookup_insert_None in H as [H _]. exact H.
Qed.

(** The resolved configuration reads the stored dictionary only at the
    four connection keys. *)
Lemma resolve_ignores_display (w : World) (u : string) (x : pyval)
    (f : gmap string (gmap string pyval)) :
  load_config (with_user_files f w) u = <["max_display_files" := x]> (load_config w u) ->
  get_user_config (with_user_files f w) u = get_user_config w u.
Proof.
  intros H. unfold get_user_config. rewrite !webui_with_files.
  destruct (truthy (get_webui_config w "require_user_auth" (PBool true))); [|reflexivity].
  rewrite H. rewrite !fall_back_insert by discriminate.
  rewrite insert_insert_eq. reflexivity.
Qed.

Ltac open_config_set Hk Hv :=
  unfold config_command;
  change (String.eqb "set" "show") with false;
  change (String.eqb "set" "setup") with false;
  change (String.eqb "set" "set") with true; cbv iota;
  rewrite (proj2 (String.eqb_neq _ "") Hk), (proj2 (String.eqb_neq _ "") Hv);
  unfold bind at 1; unfold get_world at 1; cbv beta iota zeta.

Lemma config_set_string_run (u key value : string) (w : World) :
  key <> "" -> value <> "" ->
  In key ["alist_url"; "username"; "password"; "token"] ->
  snd (config_command u "set" key value w)
  = with_sent (sent w ++ [MConfigSet key (PStr value)])
      (with_user_files
         (<[u := if String.eqb key "alist_url"
                 then <["setup_completed" := PBool true]>
                        (<[key := PStr value]> (load_config w u))
                 else <[key := PStr value]> (load_config w u)]> (user_files w)) w).
Proof.
  intros Hk Hv Hin. open_config_set Hk Hv.
  rewrite (truthy_str value Hv), andb_true_r.
  simpl in Hin. destruct Hin as [<-|[<-|[<-|[<-|[]]]]]; reflexivity.
Qed.

Lemma config_set_display_run (u value : string) (w : World) :
  value <> "" ->
  snd (config_command u "set" "max_display_files" value w)
  = match Py.int_opt value with
    | Some n =>
        if (n <? 1)%Z || (n >? 100)%Z
        then with_sent (sent w ++ [MDisplayRange]) w
        else with_sent (sent w ++ [MConfigSet "max_display_files" (PInt n)])
               (with_user_files
                  (<[u := <["max_display_files" := PInt n]> (load_config w u)]>
                     (user_files w)) w)
    | None => with_sent (sent w ++ [MDisplayNotNumber]) w
    end.
Proof.
  intros Hv. assert (Hk : "max_display_files" <> "") by discriminate.
  open_config_set Hk Hv.
  change (String.eqb "max_display_files" "max_display_files") with true.
  change (existsb _ _) with true. cbv iota. simpl negb. cbv iota.
  destruct (Py.int_opt value) as [n|]; [|reflexivity].
  destruct (_ || _); reflexivity.
Qed.

Lemma config_set_unknown_run (u key value : string) (w : World) :
  key <> "" -> value <> "" ->
  ~ In key ["alist_url"; "username"; "password"; "token"; "max_display_files"] ->
  snd (config_command u "set" key value w) = with_sent (sent w ++ [MUnknownKey key]) w.
Proof.
  intros Hk Hv Hin. open_config_set Hk Hv.
  destruct (existsb _ _) eqn:E; [|reflexivity].
  exfalso. apply Hin. apply existsb_exists in E as (x & Hx & Ex).
  apply String.eqb_eq in Ex. subst x. exact Hx.
Qed.

Lemma resolve_shared_ignores_files (w w' : World) (u : string) :
  config w' = config w ->
  truthy (get_webui_config w "require_user_auth" (PBool true)) = false ->
  get_user_config w' u = get_user_config w u.
Proof.
  intros C Hs. unfold get_user_config.
  assert (G : forall k d, get_webui_config w' k d = get_webui_config w k d).
  { intros k d. unfold get_webui_config. rewrite C. reflexivity. }
  rewrite !G, Hs. reflexivity.
Qed.

(** X7. What [config set] does with a non-empty key and value.  One of
    the four connection keys is stored as given and read back by
    [load_config]; with user isolation on it is what the handlers then
    resolve.  Storing a server address marks the user as configured.
    [max_display_files] is stored only as an integer from 1 to 100, and
    storing it never changes what the handlers resolve, since the WebUI
    value always replaces it.  With isolation off nothing stored changes
    the resolved configuration.  Any other key is refused and no file is
    written. *)
Theorem config_set_effect (w : World) (user_id key value : string) :
  key <> "" -> value <> "" ->
  let w' := snd (config_command user_id "set" key value w) in
  let isolated := truthy (get_webui_config w "require_user_auth" (PBool true)) in
  (In key ["alist_url"; "username"; "password"; "token"] ->
     load_config w' user_id !! key = Some (PStr value)
     /\ (isolated = true -> get_user_config w' user_id !! key = Some (PStr value))
     /\ sent w' = sent w ++ [MConfigSet key (PStr value)])
  /\ (key = "alist_url" -> is_configured w' user_id = true)
  /\ (key = "max_display_files" ->
        get_user_config w' user_id = get_user_config w user_id
        /\ (user_files w' = user_files w
            \/ exists n, (1 <= n <= 100)%Z
                         /\ load_config w' user_id !! key = Some (PInt n)))
  /\ (isolated = false -> get_user_config w' user_id = get_user_config w user_id)
  /\ (~ In key ["alist_url"; "username"; "password"; "token"; "max_display_files"] ->
        user_files w' = user_files w /\ sent w' = sent w ++ [MUnknownKey key]).
Proof.
  intros Hk Hv w' isolated.
  assert (Hload : In key ["alist_url"; "username"; "password"; "token"] ->
                  load_config w' user_id
                  = if String.eqb key "alist_url"
                    then <["setup_completed" := PBool true]>
                           (<[key := PStr value]> (load_config w user_id))
                    else <[key := PStr value]> (load_config w user_id)).
  { intros Hin. unfold w'. rewrite (config_set_string_run user_id key value w Hk Hv Hin).
    rewrite load_with_sent.
    apply (load_after_save w user_id). intros i. apply stored_keys. }
  assert (Hkey : In key ["alist_url"; "username"; "password"; "token"] ->
                 load_config w' user_id !! key = Some (PStr value)).
  { intros Hin. rewrite (Hload Hin). destruct (String.eqb key "alist_url") eqn:E.
    - apply String.eqb_eq in E. subst key.
      rewrite lookup_insert_ne by discriminate. apply lookup_insert_eq.
    - apply lookup_insert_eq. }
  split; [|split; [|split; [|split]]].
  - intros Hin. split; [exact (Hkey Hin)|]. split.
    + intros Hiso. unfold get_user_config.
      assert (G : forall k d, get_webui_config w' k d = get_webui_config w k d).
      { intros k d. unfold w'. rewrite (config_set_string_run user_id key value w Hk Hv Hin).
        reflexivity. }
      rewrite !G. fold isolated. rewrite Hiso.
      pose proof (Hkey Hin) as Hl. pose proof (truthy_str value Hv) as Ht.
      simpl in Hin. destruct Hin as [<-|[<-|[<-|[<-|[]]]]];
        rewrite !lookup_insert_ne by discriminate.
      * rewrite !fall_back_other by discriminate.
        rewrite (fall_back_set _ _ _ _ Hl Ht). exact Hl.
      * rewrite !fall_back_other by discriminate.
        rewrite (fall_back_set "username" _ (PStr value)); [|
          rewrite !fall_back_other by discriminate; exact Hl | exact Ht].
        rewrite !fall_back_other by discriminate. exact Hl.
      * rewrite !fall_back_other by discriminate.
        rewrite (fall_back_set "password" _ (PStr value)); [|
          rewrite !fall_back_other by discriminate; exact Hl | exact Ht].
        rewrite !fall_back_other by discriminate. exact Hl.
      * rewrite (fall_back_set "token" _ (PStr value)); [|
          rewrite !fall_back_other by discriminate; exact Hl | exact Ht].
        rewrite !fall_back_other by discriminate. exact Hl.
    + unfold w'. rewrite (config_set_string_run user_id key value w Hk Hv Hin). reflexivity.
  - intros ->. unfold is_configured, dict_get.
    rewrite (Hload (or_introl eq_refl)). simpl String.eqb. cbv iota.
    rewrite lookup_insert_eq. rewrite lookup_insert_ne by discriminate.
    rewrite lookup_insert_eq. simpl. apply (truthy_str value Hv).
  - intros ->. unfold w'. rewrite (config_set_display_run user_id value w Hv).
    destruct (Py.int_opt value) as [n|].
    + destruct ((n <? 1)%Z || (n >? 100)%Z) eqn:E.
      * split; [|left; reflexivity]. apply get_user_config_ext; reflexivity.
      * apply orb_false_iff in E as [E1 E2].
        apply Z.ltb_ge in E1. rewrite Z.gtb_ltb in E2. apply Z.ltb_ge in E2.
        assert (L : load_config
                      (with_user_files
                         (<[user_id := <["max_display_files" := PInt n]>
                                         (load_config w user_id)]> (user_files w)) w) user_id
                    = <["max_display_files" := PInt n]> (load_config w user_id)).
        { apply (load_after_save w user_id). intros i Hi.
          apply lookup_insert_None in Hi as [Hi _]. exact Hi. }
        split.
        -- etransitivity; [|apply (resolve_ignores_display w user_id (PInt n) _ L)].
           apply get_user_config_ext; reflexivity.
        -- right. exists n. split; [lia|]. rewrite load_with_sent, L.
           apply lookup_insert_eq.
    + split; [|left; reflexivity]. apply get_user_config_ext; reflexivity.
  - intros Hs. apply resolve_shared_ignores_files; [|exact Hs].
    apply (settings_confined_handle user_id (CmdConfig "set" key value) w).
  - intros Hin. unfold w'. rewrite (config_set_unknown_run user_id key value w Hk Hv Hin).
    split; reflexivity.
Qed.

Lemma config_set_effect_witness :
  let w := sample_world down_remote in
  let w' := snd (config_command "u1" "set" "alist_url" "http://mine" w) in
  load_config w' "u1" !! "alist_url" = Some (PStr "http://mine")
  /\ is_configured w' "u1" = true.
Proof.
  intros w w'.
  pose proof (config_set_effect w "u1" "alist_url" "http://mine") as H.
  destruct H as (H1 & H2 & _); [discriminate|discriminate|].
  split.
  - destruct H1 as [L _]; [simpl; left; reflexivity|]. exact L.
  - apply H2. reflexivity.
Defined.

Lemma mask_lookup (k i : string) (c : gmap string pyval) :
  (if truthy (dict_get c k PNone) then <[k := PStr "***"]> c else c) !! i
  = if decide (i = k)
    then (if truthy (dict_get c k PNone) then Some (PStr "***") else c !! k)
    else c !! i.
Proof.
  destruct (decide (i = k)) as [->|Hne].
  - destruct (truthy _); [apply lookup_insert_eq|reflexivity].
  - destruct (truthy _); [apply lookup_insert_ne; congruence|reflexivity].
Qed.

Lemma mask_other (k i : string) (c : gmap string pyval) :
  i <> k ->
  (if truthy (dict_get c k PNone) then <[k := PStr "***"]> c else c) !! i = c !! i.
Proof. intros H. rewrite mask_lookup, decide_False by exact H. reflexivity. Qed.

Lemma dict_get_mask_other (k i : string) (d : pyval) (c : gmap string pyval) :
  i <> k ->
  dict_get (if truthy (dict_get c k PNone) then <[k := PStr "***"]> c else c) i d
  = dict_get c i d.
Proof. intros H. unfold dict_get at 1 3. rewrite mask_other by exact H. reflexivity. Qed.

(** X8. [config show] never displays a secret: in what it sends, a
    password or token that is set reads ["***"], the internal
    [setup_completed] flag is left out, and every other key shows the
    resolved value.  Nothing but the reply changes. *)
Theorem config_show_masks_secrets (w : World) (user_id key value : string) :
  exists shown,
    snd (config_command user_id "show" key value w)
    = with_sent (sent w ++ [MConfigShown shown]) w
    /\ shown !! "setup_completed" = None
    /\ (forall k, k = "password" \/ k = "token" ->
          shown !! k
          = if truthy (dict_get (get_user_config w user_id) k PNone)
            then Some (PStr "***")
            else get_user_config w user_id !! k)
    /\ (forall k x, k = "password" \/ k = "token" ->
          shown !! k = Some x -> x = PStr "***" \/ truthy x = false)
    /\ (forall k, k <> "password" -> k <> "token" -> k <> "setup_completed" ->
          shown !! k = get_user_config w user_id !! k).
Proof.
  unfold config_command. change (String.eqb "show" "show") with true. cbv iota.
  unfold bind, get_world. cbv beta iota zeta.
  eexists. split; [reflexivity|].
  set (cfg := get_user_config w user_id).
  assert (Hsec : forall k, k = "password" \/ k = "token" ->
            delete "setup_completed"
              (if truthy (dict_get
                   (if truthy (dict_get cfg "password" PNone)
                    then <["password" := PStr "***"]> cfg else cfg) "token" PNone)
               then <["token" := PStr "***"]>
                      (if truthy (dict_get cfg "password" PNone)
                       then <["password" := PStr "***"]> cfg else cfg)
               else (if truthy (dict_get cfg "password" PNone)
                     then <["password" := PStr "***"]> cfg else cfg)) !! k
            = if truthy (dict_get cfg k PNone) then Some (PStr "***") else cfg !! k).
  { intros k [->| ->]; rewrite lookup_delete_ne by discriminate; rewrite mask_lookup.
    - rewrite decide_False by discriminate. rewrite mask_lookup.
      rewrite decide_True by reflexivity. reflexivity.
    - rewrite decide_True by reflexivity.
      rewrite dict_get_mask_other by discriminate.
      rewrite mask_other by discriminate. reflexivity. }
  split; [apply lookup_delete_eq|]. split; [exact Hsec|]. split.
  - intros k x Hk Hx. rewrite (Hsec k Hk) in Hx.
    destruct (truthy (dict_get cfg k PNone)) eqn:E.
    + left. congruence.
    + right. unfold dict_get in E. rewrite Hx in E. exact E.
  - intros k H1 H2 H3. rewrite lookup_delete_ne by congruence.
    rewrite mask_lookup, decide_False by exact H2.
    rewrite mask_lookup, decide_False by exact H1. reflexivity.
Qed.

(** *** Paths *)

Local Open Scope string_scope.

Lemma append_nil_l (x : string) : "" ++ x = x.
Proof. reflexivity. Qed.

Lemma append_cons (a : ascii) (s x : string) : String a s ++ x = String a (s ++ x).
Proof. reflexivity. Qed.

Ltac app_simpl := rewrite ?append_nil_l, ?append_cons; simpl; rewrite ?append_nil_l, ?append_cons.

Lemma prefix_nil (x : string) : String.prefix "" x = true.
Proof. destruct x; reflexivity. Qed.

Lemma prefix_app (p x : string) : String.prefix p (p ++ x) = true.
Proof.
  induction p as [|a p IH]; app_simpl; [apply prefix_nil|].
  destruct (ascii_dec a a); [exact IH|contradiction].
Qed.

Lemma prefix_app_assoc (p x y : string) : String.prefix p ((p ++ x) ++ y) = true.
Proof.
  induction p as [|a p IH]; app_simpl; [apply prefix_nil|].
  destruct (ascii_dec a a); [exact IH|contradiction].
Qed.

Lemma prefix_longer (p : string) (a : ascii) (x : string) :
  String.prefix (p ++ String a x) p = false.
Proof.
  induction p as [|b p IH]; app_simpl; [reflexivity|].
  destruct (ascii_dec b b); [exact IH|contradiction].
Qed.

Lemma string_app_assoc (a b c : string) : (a ++ b) ++ c = a ++ (b ++ c).
Proof. induction a as [|x a IH]; app_simpl; [reflexivity|]. rewrite IH. reflexivity. Qed.

Lemma string_app_nil_r (a : string) : a ++ "" = a.
Proof. induction a as [|x a IH]; app_simpl; [reflexivity|]. rewrite IH. reflexivity. Qed.

Lemma string_app_length (a b : string) :
  String.length (a ++ b) = (String.length a + String.length b)%nat.
Proof. induction a as [|x a IH]; app_simpl; [reflexivity|]. rewrite IH. reflexivity. Qed.

(** [rstrip] goes through a prefix when something remains of the rest. *)
Lemma rstrip_app (c : ascii) (a b : string) :
  Py.rstrip c b <> "" -> Py.rstrip c (a ++ b) = a ++ Py.rstrip c b.
Proof.
  intros Hb. induction a as [|x a IH]; app_simpl; [reflexivity|].
  rewrite IH. destruct (a ++ Py.rstrip c b) eqn:E; [|reflexivity].
  destruct a; [contradiction|discriminate].
Qed.

(** When nothing remains of the rest, the prefix is stripped as well. *)
Lemma rstrip_app_all (c : ascii) (a b : string) :
  Py.rstrip c b = "" -> Py.rstrip c (a ++ b) = Py.rstrip c a.
Proof.
  intros Hb. induction a as [|x a IH]; app_simpl; [exact Hb|].
  rewrite IH. reflexivity.
Qed.

Lemma endswith_step (a : ascii) (t : string) :
  Py.endswith (String a t) "/"
  = match t with
    | EmptyString => Ascii.eqb a "/"
    | _ => Py.endswith t "/"
    end.
Proof.
  unfold Py.endswith. destruct t as [|b t].
  - simpl. destruct (Ascii.eqb a "/"); reflexivity.
  - cbn [String.length]. simpl Nat.leb.
    replace (S (S (String.length t)) - 1)%nat with (S (String.length t)) by lia.
    replace (S (String.length t) - 1)%nat with (String.length t) by lia.
    reflexivity.
Qed.

(** A path that does not end in a slash is its own stripped form. *)
Lemma rstrip_no_slash (s : string) : Py.endswith s "/" = false -> Py.rstrip "/" s = s.
Proof.
  induction s as [|a t IH]; [reflexivity|].
  rewrite endswith_step. intros H. simpl. destruct t as [|b t].
  - simpl. rewrite H. reflexivity.
  - rewrite (IH H). reflexivity.
Qed.

Lemma rstrip_step (c a : ascii) (t : string) :
  Py.rstrip c (String a t)
  = match Py.rstrip c t with
    | EmptyString => if Ascii.eqb a c then EmptyString else String a EmptyString
    | r => String a r
    end.
Proof. reflexivity. Qed.

(** A path that ends in a slash is its stripped form, a slash, and
    slashes. *)
Lemma rstrip_slash (s : string) :
  Py.endswith s "/" = true -> exists r, s = Py.rstrip "/" s ++ "/" ++ r.
Proof.
  induction s as [|a t IH]; [discriminate|].
  rewrite endswith_step. intros H. destruct t as [|b t].
  - apply Ascii.eqb_eq in H. subst a. exists "". reflexivity.
  - destruct (IH H) as [r Hr]. rewrite rstrip_step.
    destruct (Py.rstrip "/" (String b t)) as [|x y] eqn:E.
    + destruct (Ascii.eqb a "/") eqn:Ea.
      * apply Ascii.eqb_eq in Ea. subst a. exists (String b t). reflexivity.
      * exists r. rewrite append_cons. f_equal. exact Hr.
    + exists r. rewrite append_cons. f_equal. exact Hr.
Qed.

(** Entering a child by its name is a descent, and a change of path,
    exactly when something remains of the name once its trailing slashes
    are stripped. *)
Lemma forward_join (cur file_name : string) :
  Py.rstrip "/" file_name <> "" ->
  _is_forward_navigation cur (join_path cur file_name) = true
  /\ join_path cur file_name <> cur.
Proof.
  intros Hn. split.
  - unfold _is_forward_navigation.
    destruct (String.eqb (Py.rstrip "/" cur) "/") eqn:E.
    { apply String.eqb_eq in E. exfalso. exact (rstrip_not_single "/" cur E). }
    simpl negb. cbv iota. unfold Py.startswith, join_path.
    destruct (Py.endswith cur "/") eqn:Ee.
    + rewrite (rstrip_app "/" cur file_name Hn).
      destruct (rstrip_slash cur Ee) as [r Hr].
      rewrite Hr at 2. rewrite !string_app_assoc.
      rewrite <- (string_app_assoc (Py.rstrip "/" cur) "/").
      apply prefix_app.
    + assert (Hs : Py.rstrip "/" ("/" ++ file_name) = "/" ++ Py.rstrip "/" file_name)
        by (apply rstrip_app; exact Hn).
      rewrite (rstrip_app "/" cur ("/" ++ file_name)) by (rewrite Hs; discriminate).
      rewrite Hs, (rstrip_no_slash cur Ee).
      rewrite <- (string_app_assoc cur "/"). apply prefix_app.
  - unfold join_path. intros H.
    assert (L : forall x, cur ++ x = cur -> x = "").
    { intros x Hx. apply (f_equal String.length) in Hx.
      rewrite string_app_length in Hx. destruct x; [reflexivity|simpl in Hx; lia]. }
    destruct (Py.endswith cur "/").
    + apply L in H. subst file_name. apply Hn. reflexivity.
    + apply L in H. discriminate.
Qed.

Lemma forward_join_blank (cur file_name : string) :
  Py.rstrip "/" file_name = "" ->
  _is_forward_navigation cur (join_path cur file_name) = false.
Proof.
  intros Hn. unfold _is_forward_navigation.
  destruct (String.eqb (Py.rstrip "/" cur) "/") eqn:E.
  { apply String.eqb_eq in E. exfalso. exact (rstrip_not_single "/" cur E). }
  simpl negb. cbv iota. unfold Py.startswith, join_path.
  assert (Hnew : Py.rstrip "/" (if Py.endswith cur "/" then cur ++ file_name
                                else cur ++ "/" ++ file_name) = Py.rstrip "/" cur).
  { destruct (Py.endswith cur "/").
    - apply rstrip_app_all. exact Hn.
    - apply rstrip_app_all. rewrite append_cons, append_nil_l, rstrip_step, Hn.
      reflexivity. }
  rewrite Hnew. apply prefix_longer.
Qed.

Local Open Scope list_scope.

(** *** What a listing shows and what the indexes resolve to *)

Lemma touch_nav_present (u : string) (w : World) (s : NavState) :
  user_navigation_state w !! u = Some s -> touch_nav u w = w.
Proof. intros H. unfold touch_nav. rewrite H. reflexivity. Qed.

Lemma slice_bound_int (v : pyval) (n : Z) (w : World) :
  as_int v = Some n -> slice_bound v w = (Val (Some n), w).
Proof. destruct v; simpl; intros H; try discriminate; injection H as <-; reflexivity. Qed.

Lemma number_int (v : pyval) (n : Z) (w : World) :
  as_int v = Some n -> number v w = (Val n, w).
Proof. unfold number. intros ->. reflexivity. Qed.

(** An empty or null listing is reported as empty; nothing is stored. *)
Lemma format_empty_run (files : option (list Entry)) (path : string)
    (cfg : gmap string pyval) (u : string) (w : World) :
  files = None \/ files = Some [] ->
  _format_file_list files path cfg u w = (Val (TEmptyDir path), w).
Proof. intros [->| ->]; reflexivity. Qed.

(** A listing with entries: they are put in display order, cut to
    [max_display_files], numbered, and stored as the user's state. *)
Lemma format_run (fs : list Entry) (path : string) (cfg : gmap string pyval)
    (u : string) (n : Z) (w : World) :
  fs <> [] -> u <> "" ->
  as_int (dict_get cfg "max_display_files" (PInt 20)) = Some n ->
  let shown := Py.slice_to (display_order fs) n in
  let s := entered path shown (nav_of w u) in
  _format_file_list (Some fs) path cfg u w
  = (Val (TFiles path shown (length (List.filter is_dir fs))
            (length (List.filter (fun f => negb (is_dir f)) fs))
            (length (parent_paths s))),
     with_nav (<[u := s]> (user_navigation_state w)) w).
Proof.
  intros Hfs Hu Hn shown s. unfold _format_file_list.
  destruct fs as [|e l]; [contradiction|]. cbv zeta.
  rewrite (proj2 (String.eqb_neq u "") Hu). simpl negb. cbv iota.
  unfold bind at 1. unfold bind at 1. rewrite (slice_bound_int _ n w Hn).
  rewrite update_nav_run.
  unfold bind at 1. rewrite (slice_bound_int _ n _ Hn).
  unfold bind at 1. rewrite (number_int _ n _ Hn).
  unfold bind at 1. unfold bind at 1. rewrite get_nav_run.
  rewrite (touch_nav_present u _ s) by (simpl; apply lookup_insert_eq).
  unfold ret. rewrite nav_of_insert.
  destruct (decide (u = u)); [|contradiction]. reflexivity.
Qed.

(** When it returns a numbered text, the bound was a number. *)
Lemma format_returns_number (fs : list Entry) (path : string) (cfg : gmap string pyval)
    (u : string) (w : World) (t : ListText) :
  fs <> [] -> fst (_format_file_list (Some fs) path cfg u w) = Val t ->
  exists n, as_int (dict_get cfg "max_display_files" (PInt 20)) = Some n.
Proof.
  intros Hfs. destruct (as_int (dict_get cfg "max_display_files" (PInt 20))) as [n|] eqn:E;
    [intros _; exists n; reflexivity|].
  unfold _format_file_list. destruct fs as [|e l]; [contradiction|]. cbv zeta.
  destruct (dict_get cfg "max_display_files" (PInt 20)) eqn:Ev; try discriminate.
  - (* None: the slices pass, the minimum raises *)
    destruct (negb (String.eqb u "")).
    + unfold bind at 1. unfold bind at 1. simpl slice_bound. unfold ret at 1.
      rewrite update_nav_run. unfold bind. simpl. discriminate.
    + unfold bind. simpl. discriminate.
  - destruct (negb (String.eqb u "")); unfold bind; simpl; discriminate.
  - destruct (negb (String.eqb u "")); unfold bind; simpl; discriminate.
Qed.

Lemma cache_kept_format (files : option (list Entry)) (path : string)
    (cfg : gmap string pyval) (u : string) :
  respects cache_kept (_format_file_list files path cfg u).
Proof. frame_walk cache_leaf. Qed.

Lemma calls_kept_format (files : option (list Entry)) (path : string)
    (cfg : gmap string pyval) (u : string) :
  respects calls_kept (_format_file_list files path cfg u).
Proof. frame_walk calls_leaf. Qed.

Lemma format_cases (files : option (list Entry)) (path : string) (cfg : gmap string pyval)
    (u : string) (w : World) :
  u <> "" ->
  exists r w1, _format_file_list files path cfg u w = (r, w1)
  /\ sent w1 = sent w /\ user_upload_state w1 = user_upload_state w
  /\ (forall v, v <> u -> nav_of w1 v = nav_of w v)
  /\ cache_dir w1 = cache_dir w /\ calls w1 = calls w
  /\ match r with
     | Val (TEmptyDir p) => p = path /\ w1 = w
     | Val (TFiles p shown d f back) =>
         p = path /\ nav_of w1 u = entered path shown (nav_of w u)
         /\ back = length (parent_paths (nav_of w1 u))
         /\ exists fs n, files = Some fs /\ fs <> []
            /\ as_int (dict_get cfg "max_display_files" (PInt 20)) = Some n
            /\ shown = Py.slice_to (display_order fs) n
            /\ d = length (List.filter is_dir fs)
            /\ f = length (List.filter (fun e => negb (is_dir e)) fs)
     | Exc _ => True
     end.
Proof.
  intros Hu.
  destruct files as [fs|]; [destruct (decide (fs = [])) as [->|Hfs]|].
  - eexists _, _. split; [apply format_empty_run; right; reflexivity|].
    repeat split; reflexivity.
  - destruct (as_int (dict_get cfg "max_display_files" (PInt 20))) as [n|] eqn:En.
    + eexists _, _. split; [apply (format_run fs path cfg u n w Hfs Hu En)|].
      simpl. split; [reflexivity|]. split; [reflexivity|]. split.
      { intros v Hv. rewrite nav_of_insert. destruct (decide (v = u)); [contradiction|].
        reflexivity. }
      split; [reflexivity|]. split; [reflexivity|]. split; [reflexivity|].
      rewrite nav_of_insert. destruct (decide (u = u)); [|contradiction].
      split; [reflexivity|]. split; [reflexivity|].
      exists fs, n. repeat split; try reflexivity; assumption.
    + pose proof (staying_format u path (Some fs) cfg w) as (U & S & O & _).
      pose proof (cache_kept_format (Some fs) path cfg u w) as C.
      pose proof (calls_kept_format (Some fs) path cfg u w) as K.
      unfold cache_kept in C. unfold calls_kept in K.
      pose proof (format_returns_number fs path cfg u w) as Hr.
      destruct (_format_file_list (Some fs) path cfg u w) as [[t|e] w1]; simpl in *.
      * destruct (Hr t Hfs eq_refl) as [n Hn]. congruence.
      * eexists _, _. split; [reflexivity|]. repeat split; assumption.
  - eexists _, _. split; [apply format_empty_run; left; reflexivity|].
    repeat split; reflexivity.
Qed.

Lemma nav_of_same (w w' : World) (v : string) :
  user_navigation_state w' = user_navigation_state w -> nav_of w' v = nav_of w v.
Proof. intros H. unfold nav_of. rewrite H. reflexivity. Qed.

(** The cache lookup of [browse]: a hit leaves the world as it is and
    gives the data of the file named by the key; a miss changes nothing a
    user sees; a configuration without address raises before anything is
    done. *)
Lemma cache_lookup_cases (cfg : gmap string pyval) (target u : string) (enable age : pyval)
    (w : World) :
  let step := if truthy enable
              then (url <~ subscript cfg "alist_url" ;; get_cache url target u age)
              else ret None in
  (exists l url file a, step w = (Val (Some l), w)
     /\ cfg !! "alist_url" = Some url
     /\ cache_dir w !! _get_cache_key url target u = Some file /\ cf_data file = l
     /\ as_int age = Some a /\ (now w - cf_mtime file <= a)%Z)
  \/ (exists w0, step w = (Val None, w0) /\ backstage w w0)
  \/ (exists e, step w = (Exc e, w)).
Proof.
  intros step. unfold step. destruct (truthy enable).
  - unfold subscript. destruct (cfg !! "alist_url") as [url|] eqn:Eu.
    + unfold bind, ret. pose proof (backstage_get_cache url target u age w) as Hb.
      unfold get_cache in *.
      destruct (cache_dir w !! _get_cache_key url target u) as [file|] eqn:Ef.
      * destruct (as_int age) as [a|].
        -- destruct (now w - cf_mtime file >? a)%Z eqn:Ea.
           ++ right. left. eexists. split; [reflexivity|exact Hb].
           ++ left. exists (cf_data file), url, file, a. repeat split; try assumption.
              rewrite Z.gtb_ltb in Ea. apply Z.ltb_ge in Ea. exact Ea.
        -- right. left. eexists. split; [reflexivity|exact Hb].
      * right. left. eexists. split; [reflexivity|exact Hb].
    + right. right. exists "KeyError". reflexivity.
  - right. left. exists w. split; [reflexivity|]. reflexivity.
Qed.

(** The write to the cache after a fresh listing. *)
Lemma cache_store_cases (cfg : gmap string pyval) (target u : string) (enable : pyval)
    (l : Listing) (w : World) :
  let step := if truthy enable
              then (url <~ subscript cfg "alist_url" ;; set_cache url target u l)
              else ret tt in
  backstage w (snd (step w))
  /\ calls (snd (step w)) = calls w
  /\ match fst (step w) with
     | Val _ =>
         truthy enable = true ->
         exists url, cfg !! "alist_url" = Some url
           /\ cache_dir (snd (step w)) !! _get_cache_key url target u
              = Some {| cf_mtime := now w; cf_timestamp := now w; cf_data := l |}
     | Exc _ => True
     end.
Proof.
  intros step. unfold step. destruct (truthy enable).
  - unfold subscript. destruct (cfg !! "alist_url") as [url|] eqn:Eu.
    + unfold bind, ret, set_cache, modify. simpl. split; [repeat split|].
      split; [reflexivity|]. intros _. exists url. split; [reflexivity|].
      apply lookup_insert_eq.
    + simpl. split; [reflexivity|]. split; [reflexivity|exact I].
  - simpl. split; [reflexivity|]. split; [reflexivity|]. discriminate.
Qed.

Lemma browse_spec (u target : string) (cfg : gmap string pyval) (w : World) :
  u <> "" ->
  exists w' m, browse u target cfg w = (Val tt, w')
  /\ sent w' = sent w ++ [m]
  /\ user_upload_state w' = user_upload_state w
  /\ (forall v, v <> u -> nav_of w' v = nav_of w v)
  /\ listing_outcome cfg u target w w' m.
Proof.
  intros Hu. unfold browse, try_except.
  unfold bind at 1. unfold get_world at 1. cbv beta iota zeta.
  unfold bind at 1.
  destruct (cache_lookup_cases cfg target u
              (get_webui_config w "enable_cache" (PBool true))
              (get_webui_config w "cache_duration" (PInt 300)) w)
    as [(l & url & file & a & -> & Hurl & Hfile & Hl & Ha & Hfresh)|[(w0 & -> & B0)|(e & ->)]].
  - (* served from the cache *)
    unfold bind at 1.
    destruct (format_cases (content l) target cfg u w Hu)
      as (r & w1 & -> & S & U & O & C & K & Hr).
    destruct r as [t|e]; simpl.
    + eexists _, _. split; [reflexivity|]. simpl. rewrite S, U.
      split; [reflexivity|]. split; [reflexivity|].
      split; [intros v Hv; rewrite nav_of_with_sent; exact (O v Hv)|].
      destruct t as [p|p shown d f back]; simpl; rewrite ?nav_of_with_sent.
      * destruct Hr as [-> ->]. split; reflexivity.
      * destruct Hr as (-> & N & Bk & fs & n & Hfs & Hne & Hn & Hs & Hd & Hf).
        split; [reflexivity|]. split; [exact N|]. split; [exact Bk|].
        exists fs, n. repeat split; try assumption.
        exists url, file, a. rewrite Hl. repeat split; assumption.
    + eexists _, _. split; [reflexivity|]. simpl. rewrite S, U.
      repeat split. intros v Hv. rewrite nav_of_with_sent. exact (O v Hv).
  - (* asked from the server *)
    destruct B0 as (N0 & U0 & S0 & _ & _ & T0 & R0).
    unfold bind at 1.
    pose proof (backstage_connect cfg w0) as B1.
    destruct (AlistClient.connect cfg w0) as [[client|e] w1]; simpl in B1;
      destruct B1 as (N1 & U1 & S1 & _ & _ & T1 & R1).
    2:{ eexists _, _. split; [reflexivity|]. simpl. rewrite S1, S0, U1, U0.
        repeat split. intros v _. apply nav_of_same; simpl; congruence. }
    unfold bind at 1. unfold AlistClient.list_files at 1, bind at 1, request at 1, ret at 1.
    cbv beta iota.
    destruct (remote w1 (calls w1) (CallList (AlistClient.base_url client)
                                      (AlistClient.auth client) target)) as [| |l| | | | |] eqn:Er;
      try (eexists _, _; split; [reflexivity|]; simpl; rewrite S1, S0, U1, U0;
           repeat split; [intros v _; apply nav_of_same; simpl; congruence
                         | apply nav_of_same; simpl; congruence]).
    unfold bind at 1.
    set (w2 := with_calls _ w1).
    pose proof (cache_store_cases cfg target u
                  (get_webui_config w "enable_cache" (PBool true)) l w2) as (B3 & _ & H3).
    cbv zeta in B3, H3.
    destruct ((if truthy (get_webui_config w "enable_cache" (PBool true))
               then url <~ subscript cfg "alist_url";; set_cache url target u l
               else ret tt) w2) as [[[]|e] w3]; simpl in B3, H3;
      destruct B3 as (N3 & U3 & S3 & _ & _ & T3 & R3); simpl in N3, U3, S3, T3.
    2:{ eexists _, _. split; [reflexivity|]. simpl. rewrite S3, S1, S0, U3, U1, U0.
        repeat split. intros v _. apply nav_of_same; simpl; congruence. }
    assert (V3 : forall v, nav_of w3 v = nav_of w v)
      by (intros v; apply nav_of_same; congruence).
    unfold bind at 1.
    destruct (format_cases (content l) target cfg u w3 Hu)
      as (r & w4 & -> & S & U & O & C & K & Hr).
    destruct r as [t|e]; simpl.
    + eexists _, _. split; [reflexivity|]. simpl. rewrite S, U, S3, S1, S0, U3, U1, U0.
      split; [reflexivity|]. split; [reflexivity|].
      split; [intros v Hv; rewrite nav_of_with_sent, (O v Hv); apply V3|].
      destruct t as [p|p shown d f back]; simpl; rewrite ?nav_of_with_sent.
      * destruct Hr as [-> ->]. split; [reflexivity|apply V3].
      * destruct Hr as (-> & N & Bk & fs & n & Hfs & Hne & Hn & Hs & Hd & Hf).
        split; [reflexivity|]. split; [rewrite N, V3; reflexivity|]. split; [exact Bk|].
        exists fs, n. repeat split; try assumption.
        exists (calls w1), (AlistClient.base_url client), (AlistClient.auth client), l.
        split; [rewrite <- R0, <- R1; exact Er|]. split; [exact Hfs|].
        intros Hen. destruct (H3 Hen) as (url & Hurl & Hc). exists url.
        split; [exact Hurl|]. rewrite C, Hc.
        rewrite T1, T0. reflexivity.
    + eexists _, _. split; [reflexivity|]. simpl. rewrite S, U, S3, S1, S0, U3, U1, U0.
      repeat split. intros v Hv. rewrite nav_of_with_sent, (O v Hv). apply V3.
  - (* no address to make a cache key from *)
    eexists _, _. split; [reflexivity|]. simpl. repeat split.
Qed.

Lemma slice_to_firstn {A} (l : list A) (n : Z) : exists m, Py.slice_to l n = firstn m l.
Proof. unfold Py.slice_to. destruct (0 <=? n)%Z; eexists; reflexivity. Qed.

(** In what is shown no file comes before a directory. *)
Lemma shown_dirs_first (fs : list Entry) (n : Z) :
  exists a b, Py.slice_to (display_order fs) n = a ++ b
              /\ Forall (fun e => is_dir e = true) a
              /\ Forall (fun e => is_dir e = false) b.
Proof.
  destruct (slice_to_firstn (display_order fs) n) as [m ->].
  unfold display_order. rewrite firstn_app.
  eexists _, _. split; [reflexivity|]. split.
  - apply Forall_take. apply Forall_forall. intros e He.
    apply list_elem_of_In, filter_In in He. apply He.
  - apply Forall_take. apply Forall_forall. intros e He.
    apply list_elem_of_In, filter_In in He. destruct He as [_ He].
    destruct (is_dir e); [discriminate|reflexivity].
Qed.

(** Every entry shown is an entry of the listing. *)
Lemma shown_from_listing (fs : list Entry) (n : Z) (e : Entry) :
  In e (Py.slice_to (display_order fs) n) -> In e fs.
Proof.
  destruct (slice_to_firstn (display_order fs) n) as [m ->].
  intros He. apply list_elem_of_In in He. apply (subseteq_take m) in He.
  apply list_elem_of_In in He. unfold display_order in He.
  apply in_app_or in He as [He|He]; apply filter_In in He; apply He.
Qed.

Lemma item_of_state (u : string) (k : Z) (w : World) :
  fst (_get_item_by_number u k w)
  = Val (if (1 <=? k)%Z && (k <=? Z.of_nat (length (items (nav_of w u))))%Z
         then items (nav_of w u) !! Z.to_nat (k - 1) else None).
Proof.
  unfold _get_item_by_number, bind. rewrite get_nav_run.
  destruct (_ && _); reflexivity.
Qed.

Lemma entered_fields (p : string) (l : list Entry) (s : NavState) :
  current_path (entered p l s) = p /\ items (entered p l s) = l.
Proof.
  unfold entered. destruct (String.eqb p (current_path s)) eqn:E; simpl.
  - apply String.eqb_eq in E. split; [symmetry; exact E|reflexivity].
  - split; reflexivity.
Qed.

Lemma appends_download (u : string) (item : Entry) (cfg : gmap string pyval) :
  respects appends (_download_file u item cfg).
Proof. walk_appends. Qed.

Lemma single_reply {m m' : Msg} {l : list Msg} {s : list Msg} :
  s ++ [m] = s ++ m' :: l -> m = m'.
Proof. intros H. apply app_inv_head in H. injection H as -> _. reflexivity. Qed.

Lemma listing_outcome_from (cfg : gmap string pyval) (u target : string)
    (w w1 w' : World) (m : Msg) :
  (forall v, nav_of w1 v = nav_of w v) -> cache_dir w1 = cache_dir w ->
  remote w1 = remote w -> calls w1 = calls w -> now w1 = now w -> config w1 = config w ->
  listing_outcome cfg u target w1 w' m -> listing_outcome cfg u target w w' m.
Proof.
  intros V C R K T G. unfold listing_outcome.
  assert (W : forall k d, get_webui_config w1 k d = get_webui_config w k d)
    by (intros k d; unfold get_webui_config; rewrite G; reflexivity).
  destruct m; try (intros H; exact H).
  - destruct t as [q|q shown d f back].
    + rewrite (V u). intros H; exact H.
    + rewrite (V u). intros (Hp & N & Bk & fs & n & Hne & Hsrc & Hrest).
      split; [exact Hp|]. split; [exact N|]. split; [exact Bk|].
      exists fs, n. split; [exact Hne|]. split; [|exact Hrest].
      unfold listing_source in *. rewrite <- C, <- R, <- K, <- T, <- !W. exact Hsrc.
  - rewrite (V u). intros H; exact H.
Qed.

(** The ways [ls] ends: one reply of a listing attempt, one refusal, the
    start of a download, or [ValueError] for a number that [int] refuses,
    nothing sent. *)
Lemma ls_cases (u path : string) (w : World) :
  u <> "" ->
  exists r w', list_files u path w = (r, w')
  /\ ((exists m, sent w' = sent w ++ [m]
         /\ listing_outcome (get_user_config w u) u (ls_target w u path) w w' m)
      \/ sent w' = sent w ++ [MConfigMissing]
      \/ (exists n, sent w' = sent w ++ [MInvalidIndex n])
      \/ (exists file_name l, sent w' = sent w ++ MPreparing file_name :: l)
      \/ (r = Exc "ValueError" /\ w' = w)).
Proof.
  intros Hu. unfold list_files, ls_target.
  unfold bind at 1. unfold get_world. cbv beta iota zeta.
  destruct (negb (_validate_config (get_user_config w u))).
  { eexists _, _. split; [reflexivity|]. right. left. reflexivity. }
  destruct (Py.isdigit path).
  - unfold bind at 1. rewrite int_of_text_run.
    destruct (Py.int path) as [number|]; cbv beta iota;
      [|eexists _, _; split; [reflexivity|]; do 4 right; split; reflexivity].
    unfold bind at 1. rewrite get_nav_run. unfold bind at 1.
    rewrite item_by_number_run, !item_of_state.
    rewrite (touch_nav_view u u w).
    pose proof (touch_nav_rest u (touch_nav u w)) as (R1&G1&_&C1&_&U1&T1&_&S1&K1).
    pose proof (touch_nav_rest u w) as (R0&G0&_&C0&_&U0&T0&_&S0&K0).
    set (w1 := touch_nav u (touch_nav u w)) in *.
    assert (V1 : forall v, nav_of w1 v = nav_of w v)
      by (intros v; unfold w1; rewrite !touch_nav_view; reflexivity).
    destruct (if _ && _ then _ else None) as [item|]; cbv beta iota.
    + destruct (is_dir item).
      * destruct (browse_spec u (join_path (current_path (nav_of w u)) (name item))
                    (get_user_config w u) w1 Hu)
          as (w2 & m & -> & S & U & O & Hm).
        eexists _, _. split; [reflexivity|]. left. exists m.
        split; [rewrite S, S1, S0; reflexivity|].
        apply (listing_outcome_from _ _ _ w w1); [exact V1|congruence..|exact Hm].
      * unfold bind at 1.
        change (yield (MPreparing (name item)) w1)
          with (Val tt, with_sent (sent w1 ++ [MPreparing (name item)]) w1).
        cbv beta iota.
        pose proof (appends_download u item (get_user_config w u)
                      (with_sent (sent w1 ++ [MPreparing (name item)]) w1)) as [l Hl].
        destruct (_download_file u item (get_user_config w u) _) as [r w2].
        eexists _, _. split; [reflexivity|]. right. right. right. left.
        exists (name item), l. simpl in Hl. rewrite Hl, S1, S0, <- app_assoc. reflexivity.
    + eexists _, _. split; [reflexivity|]. right. right. left.
      exists number. simpl. rewrite S1, S0. reflexivity.
  - destruct (browse_spec u path (get_user_config w u) w Hu)
      as (w2 & m & -> & S & U & O & Hm).
    eexists _, _. split; [reflexivity|]. left. exists m. split; assumption.
Qed.

(** A numbered listing as the one reply of [ls]: the outcome of the
    listing of the path the argument stands for. *)
Lemma ls_listing_state (w : World) (u path p : string) (shown : list Entry)
    (d f back : nat) (from_cache : bool) :
  u <> "" ->
  sent (snd (list_files u path w))
  = sent w ++ [MListing (TFiles p shown d f back) from_cache] ->
  listing_outcome (get_user_config w u) u (ls_target w u path) w
    (snd (list_files u path w)) (MListing (TFiles p shown d f back) from_cache).
Proof.
  intros Hu. destruct (ls_cases u path w Hu) as (r & w' & -> & Hc). simpl. intros Hsent.
  destruct Hc as [(m & S & Hm)|[S|[(n & S)|[(fname & l & S)|[_ S]]]]];
    [| | | |subst w'; rewrite <- (app_nil_r (sent w)) in Hsent at 1];
    try rewrite S in Hsent; apply app_inv_head in Hsent; try discriminate.
  assert (Em : m = MListing (TFiles p shown d f back) from_cache) by congruence.
  subst m. exact Hm.
Qed.

(** X9. When [ls] answers with a numbered listing, what was shown is what
    the sender's state now holds: the path shown is the path the argument
    stands for and is the current path, the entries shown are the indexed
    entries in the same order, so that every number resolves to the entry
    displayed under it and any other number to nothing, and the count of
    levels to go back is the depth of the ancestor stack.  The entries
    shown are, directories first and cut to [max_display_files], those of
    a cache file for this user, path and address that is no older than
    [cache_duration] (and then no request was sent), or those of the
    server's reply (which, caching being enabled, is then the cache file);
    the two totals count the whole reply. *)
Theorem listing_shown_is_indexed (w : World) (user_id path p : string)
    (shown : list Entry) (d f back : nat) (from_cache : bool) :
  user_id <> "" ->
  sent (snd (handle user_id (CmdLs path) w))
  = sent w ++ [MListing (TFiles p shown d f back) from_cache] ->
  let w' := snd (handle user_id (CmdLs path) w) in
  p = ls_target w user_id path
  /\ nav_of w' user_id = entered p shown (nav_of w user_id)
  /\ current_path (nav_of w' user_id) = p
  /\ items (nav_of w' user_id) = shown
  /\ back = length (parent_paths (nav_of w' user_id))
  /\ (forall k, fst (_get_item_by_number user_id k w')
                = Val (if (1 <=? k)%Z && (k <=? Z.of_nat (length shown))%Z
                       then shown !! Z.to_nat (k - 1) else None))
  /\ (exists fs n,
        listing_source (get_user_config w user_id) w w' user_id p from_cache fs
        /\ shown = Py.slice_to (display_order fs) n
        /\ d = length (List.filter is_dir fs)
        /\ f = length (List.filter (fun e => negb (is_dir e)) fs))
  /\ (exists a b, shown = a ++ b /\ Forall (fun e => is_dir e = true) a
                  /\ Forall (fun e => is_dir e = false) b).
Proof.
  intros Hu Hsent w'. subst w'. cbn [handle] in *.
  pose proof (ls_listing_state w user_id path p shown d f back from_cache Hu Hsent) as Hout.
  simpl in Hout. destruct Hout as (Hp & N & Bk & fs & n & Hne & Hsrc & Hn & Hs & Hd & Hf).
  split; [exact Hp|]. rewrite <- Hp in *.
  destruct (entered_fields p shown (nav_of w user_id)) as [Ec Ei].
  split; [exact N|]. split; [rewrite N; exact Ec|]. split; [rewrite N; exact Ei|].
  split; [exact Bk|]. split.
  - intros k. rewrite item_of_state, N, Ei. reflexivity.
  - split.
    + exists fs, n. repeat split; assumption.
    + rewrite Hs. apply shown_dirs_first.
Qed.

Lemma listing_shown_is_indexed_witness :
  let w' := snd (handle "u1" (CmdLs "/") (sample_world sample_remote)) in
  current_path (nav_of w' "u1") = "/"
  /\ items (nav_of w' "u1")
     = [ {| name := "b"; is_dir := true; size := 0; modified := "" |};
         {| name := "c"; is_dir := true; size := 0; modified := "" |};
         {| name := "notes.txt"; is_dir := false; size := 120; modified := "" |} ].
Proof.
  intros w'.
  destruct (listing_shown_is_indexed (sample_world sample_remote) "u1" "/" "/"
              [ {| name := "b"; is_dir := true; size := 0; modified := "" |};
                {| name := "c"; is_dir := true; size := 0; modified := "" |};
                {| name := "notes.txt"; is_dir := false; size := 120; modified := "" |} ]
              2 1 0 false) as (_ & _ & Hc & Hi & _).
  - discriminate.
  - vm_compute. reflexivity.
  - split; assumption.
Defined.

(** X10. Entering a listed directory by its number and going back is a
    round trip.  When [ls <n>] answers with a listing and entry [n] has a
    name of which something remains without its trailing slashes, the path
    listed is the current path joined with that name, the path left is
    pushed on the ancestor stack, and the listing offers one more level to
    go back.  In any later world where the user still stands there, [quit]
    restores the stack, and when it answers with the listing of the parent
    the user stands again where the descent started. *)
Theorem enter_by_number_and_go_back (w : World) (user_id path p : string)
    (number : Z) (e : Entry)
    (shown : list Entry) (d f back : nat) (from_cache : bool) :
  user_id <> "" -> Py.isdigit path = true -> Py.int path = Some number ->
  fst (_get_item_by_number user_id number w) = Val (Some e) ->
  Py.rstrip "/" (name e) <> ""%string ->
  sent (snd (handle user_id (CmdLs path) w))
  = sent w ++ [MListing (TFiles p shown d f back) from_cache] ->
  let s := nav_of w user_id in
  let w1 := snd (handle user_id (CmdLs path) w) in
  p = join_path (current_path s) (name e)
  /\ current_path (nav_of w1 user_id) = p
  /\ parent_paths (nav_of w1 user_id) = parent_paths s ++ [current_path s]
  /\ back = S (length (parent_paths s))
  /\ forall w2,
       nav_of w2 user_id = nav_of w1 user_id ->
       _validate_config (get_user_config w2 user_id) = true ->
       let w3 := snd (handle user_id CmdQuit w2) in
       parent_paths (nav_of w3 user_id) = parent_paths s
       /\ forall t, sent w3 = sent w2 ++ [MWentBack t] ->
                    current_path (nav_of w3 user_id) = current_path s.
Proof.
  intros Hu Hdigit Hint Hitem Hname Hsent s w1. subst w1. cbn [handle] in *.
  remember (nav_of w user_id) as s0 eqn:Es. subst s.
  pose proof (ls_listing_state w user_id path p shown d f back from_cache Hu Hsent) as Hout.
  simpl in Hout. destruct Hout as (Hp & N & Bk & _).
  rewrite <- Hp in N. unfold ls_target in Hp. rewrite Hdigit, Hint, Hitem in Hp. rewrite <- Es in Hp, N.
  destruct (forward_join (current_path s0) (name e) Hname) as [Hfwd Hne].
  rewrite <- Hp in Hfwd, Hne.
  assert (Hst : nav_of (snd (list_files user_id path w)) user_id
                = {| current_path := p; items := shown;
                     parent_paths := parent_paths s0 ++ [current_path s0] |}).
  { rewrite N. unfold entered. rewrite (proj2 (String.eqb_neq _ _) Hne), Hfwd. reflexivity. }
  split; [exact Hp|]. split; [rewrite Hst; reflexivity|].
  split; [rewrite Hst; reflexivity|].
  split; [rewrite Bk, Hst; simpl; rewrite length_app; simpl; lia|].
  intros w2 Hsame Hvalid. cbv zeta.
  assert (Hstack : parent_paths (nav_of w2 user_id) = parent_paths s0 ++ [current_path s0])
    by (rewrite Hsame, Hst; reflexivity).
  destruct (quit_pop_spec user_id w2 _ _ Hvalid Hstack)
    as (r & w3 & -> & _ & _ & P & msg & S & Hmsg).
  simpl. split; [exact P|].
  intros t Ht. rewrite S in Ht. apply app_inv_head in Ht.
  assert (Em : msg = MWentBack t) by congruence. subst msg.
  destruct Hmsg as [[Hm _]|[[x Hm]|(t' & _ & Hc)]]; try discriminate. exact Hc.
Qed.

Lemma enter_by_number_and_go_back_witness :
  let w := snd (handle "u1" (CmdLs "/") (sample_world sample_remote)) in
  let w1 := snd (handle "u1" (CmdLs "1") w) in
  let w3 := snd (handle "u1" CmdQuit w1) in
  current_path (nav_of w1 "u1") = "/b"%string
  /\ parent_paths (nav_of w1 "u1") = ["/"%string]
  /\ parent_paths (nav_of w3 "u1") = []
  /\ current_path (nav_of w3 "u1") = "/"%string.
Proof.
  intros w w1 w3.
  pose (shown := [ {| name := "b"; is_dir := true; size := 0; modified := "" |};
                   {| name := "c"; is_dir := true; size := 0; modified := "" |};
                   {| name := "notes.txt"; is_dir := false; size := 120; modified := "" |} ]).
  destruct (enter_by_number_and_go_back w "u1" "1" "/b" 1%Z
              {| name := "b"; is_dir := true; size := 0; modified := "" |}
              shown 2 1 1 false) as (_ & Hc & Hp & _ & Hq).
  - discriminate.
  - reflexivity.
  - reflexivity.
  - vm_compute. reflexivity.
  - vm_compute. discriminate.
  - vm_compute. reflexivity.
  - destruct (Hq w1) as [Hs Hback].
    + reflexivity.
    + vm_compute. reflexivity.
    + split; [exact Hc|]. split; [exact Hp|]. split; [exact Hs|].
      apply (Hback (TFiles "/" shown 2 1 0)). vm_compute. reflexivity.
Defined.

(** *** Listings answered from the cache *)

(** [browse] on a fresh cache file: the cached data is formatted, nothing
    is asked from the server. *)
Lemma browse_hit (u target : string) (cfg : gmap string pyval) (w : World)
    (url : pyval) (file : CacheFile) (age n : Z) (fs : list Entry) :
  u <> "" ->
  truthy (get_webui_config w "enable_cache" (PBool true)) = true ->
  as_int (get_webui_config w "cache_duration" (PInt 300)) = Some age ->
  cfg !! "alist_url" = Some url ->
  cache_dir w !! _get_cache_key url target u = Some file ->
  (now w - cf_mtime file <= age)%Z ->
  content (cf_data file) = Some fs -> fs <> [] ->
  as_int (dict_get cfg "max_display_files" (PInt 20)) = Some n ->
  let shown := Py.slice_to (display_order fs) n in
  let s := entered target shown (nav_of w u) in
  browse u target cfg w
  = (Val tt,
     with_sent (sent w ++ [MListing (TFiles target shown (length (List.filter is_dir fs))
                                       (length (List.filter (fun f => negb (is_dir f)) fs))
                                       (length (parent_paths s))) true])
       (with_nav (<[u := s]> (user_navigation_state w)) w)).
Proof.
  intros Hu Hen Hage Hurl Hfile Hfresh Hfs Hne Hn shown s.
  unfold browse, try_except.
  unfold bind at 1. unfold get_world at 1. cbv beta iota zeta.
  rewrite Hen. unfold bind at 1. unfold bind at 1. unfold subscript. rewrite Hurl.
  unfold ret at 1. unfold get_cache. rewrite Hfile, Hage.
  replace (now w - cf_mtime file >? age)%Z with false
    by (symmetry; rewrite Z.gtb_ltb; apply Z.ltb_ge; exact Hfresh).
  unfold bind at 1. rewrite Hfs.
  rewrite (format_run fs target cfg u n w Hne Hu Hn). reflexivity.
Qed.

(** X11. A listing repeated within [cache_duration] is answered from the
    cache.  When [ls] of a path has been answered with a listing fetched
    from the server while caching is enabled, then in any later world with
    the same configuration, the same cache file and a clock no more than
    [cache_duration] seconds further, [ls] of the same path sends no
    request at all and shows the same entries and totals, marked as
    cached. *)
Theorem repeated_listing_is_cached (w w2 : World) (user_id path p : string)
    (shown : list Entry) (d f back : nat) (age : Z) :
  user_id <> "" -> Py.isdigit path = false ->
  truthy (get_webui_config w "enable_cache" (PBool true)) = true ->
  as_int (get_webui_config w "cache_duration" (PInt 300)) = Some age ->
  let w1 := snd (handle user_id (CmdLs path) w) in
  sent w1 = sent w ++ [MListing (TFiles p shown d f back) false] ->
  config w2 = config w -> user_files w2 = user_files w ->
  cache_dir w2 = cache_dir w1 -> (now w2 - now w <= age)%Z ->
  let w3 := snd (handle user_id (CmdLs path) w2) in
  calls w3 = calls w2
  /\ exists back',
       sent w3 = sent w2 ++ [MListing (TFiles p shown d f back') true]
       /\ back' = length (parent_paths (nav_of w3 user_id)).
Proof.
  intros Hu Hdigit Hen Hage w1 Hsent Hcfg Hfiles Hcache Hnow w3.
  subst w1 w3. cbn [handle] in *.
  pose proof (ls_listing_state w user_id path p shown d f back false Hu Hsent) as Hout.
  assert (Ht : ls_target w user_id path = path)
    by (unfold ls_target; rewrite Hdigit; reflexivity).
  rewrite Ht in Hout.
  simpl in Hout. destruct Hout as (Hp & _ & _ & fs & n & Hne & Hsrc & Hn & Hs & Hd & Hf).
  subst p.
  destruct Hsrc as (h & b & a & l & _ & Hfs & Hstore).
  destruct (Hstore Hen) as (url & Hurl & Hfile).
  (* the configuration was valid, or the first listing would not have come *)
  assert (Hvalid : _validate_config (get_user_config w user_id) = true).
  { destruct (_validate_config (get_user_config w user_id)) eqn:E; [reflexivity|].
    exfalso. revert Hsent. unfold list_files. unfold bind at 1.
    unfold get_world. cbv beta iota zeta. rewrite E. simpl.
    intros H. apply app_inv_head in H. discriminate. }
  assert (Hsame : get_user_config w2 user_id = get_user_config w user_id)
    by (apply get_user_config_ext; assumption).
  assert (W : forall k dflt, get_webui_config w2 k dflt = get_webui_config w k dflt)
    by (intros k dflt; unfold get_webui_config; rewrite Hcfg; reflexivity).
  assert (Hrun : list_files user_id path w2
                 = browse user_id path (get_user_config w user_id) w2).
  { unfold list_files. unfold bind at 1. unfold get_world. cbv beta iota zeta.
    rewrite Hsame, Hvalid, Hdigit. reflexivity. }
  rewrite Hrun.
  rewrite (browse_hit user_id path (get_user_config w user_id) w2 url
             {| cf_mtime := now w; cf_timestamp := now w; cf_data := l |} age n fs);
    try assumption.
  - simpl. split; [reflexivity|]. eexists. split.
    + rewrite Hs, Hd, Hf. reflexivity.
    + rewrite nav_of_with_sent, nav_of_insert.
      destruct (decide (user_id = user_id)); [reflexivity|contradiction].
  - rewrite W. exact Hen.
  - rewrite W. exact Hage.
  - rewrite Hcache. exact Hfile.
Qed.

Lemma repeated_listing_is_cached_witness :
  let w := sample_world sample_remote in
  let w1 := snd (handle "u1" (CmdLs "/") w) in
  let w3 := snd (handle "u1" (CmdLs "/") w1) in
  calls w3 = calls w1.
Proof.
  intros w w1 w3.
  pose (shown := [ {| name := "b"; is_dir := true; size := 0; modified := "" |};
                   {| name := "c"; is_dir := true; size := 0; modified := "" |};
                   {| name := "notes.txt"; is_dir := false; size := 120; modified := "" |} ]).
  destruct (repeated_listing_is_cached w w1 "u1" "/" "/" shown 2 1 0 300) as [H _].
  - discriminate.
  - reflexivity.
  - vm_compute. reflexivity.
  - vm_compute. reflexivity.
  - vm_compute. reflexivity.
  - reflexivity.
  - reflexivity.
  - reflexivity.
  - vm_compute. discriminate.
  - exact H.
Defined.

(** *** Downloaded files *)

(** The chunk loop sends progress lines and does nothing else. *)
Lemma receive_chunks_run (file_size downloaded : Z) (chunks : list Z) (w : World) :
  exists l, receive_chunks file_size downloaded chunks w
            = (Val tt, with_sent (sent w ++ l) w)
            /\ Forall (fun m => exists a b, m = MProgress a b) l.
Proof.
  revert downloaded w. induction chunks as [|len rest IH]; intros downloaded w.
  - exists []. split; [|constructor]. simpl. unfold ret. f_equal.
    destruct w; simpl. rewrite app_nil_r. reflexivity.
  - cbn [receive_chunks]. cbv zeta.
    destruct ((file_size >? 10 * MiB)%Z && ((downloaded + len) mod (10 * MiB) <? 8192)%Z).
    + unfold bind at 1. unfold yield at 1, modify at 1.
      destruct (IH (downloaded + len)%Z
                  (with_sent (sent w ++ [MProgress (downloaded + len) file_size]) w))
        as (l & -> & Hl).
      exists (MProgress (downloaded + len) file_size :: l). split.
      * simpl. rewrite <- app_assoc. reflexivity.
      * constructor; [eauto|exact Hl].
    + unfold bind at 1. unfold ret at 1.
      destruct (IH (downloaded + len)%Z w) as (l & -> & Hl).
      exists l. split; [reflexivity|exact Hl].
Qed.

(** A task that wakes creates no temporary file. *)
Lemma wake_downloads (x : Z * Task) (w : World) : downloads (wake x w) ⊆ downloads w.
Proof.
  unfold wake. destruct x as [d [u|f]]; simpl.
  - rewrite auto_cancel_run.
    destruct (waiting _); simpl; [reflexivity|].
    pose proof (touch_upload_rest u (with_now (Z.max (now w) d) w)) as (_&_&_&_&D&_).
    rewrite D. reflexivity.
  - intros x Hx. apply elem_of_difference in Hx. apply Hx.
Qed.

Lemma wake_all_downloads (l : list (Z * Task)) (w : World) :
  downloads (fold_left (fun w x => wake x w) l w) ⊆ downloads w.
Proof.
  revert w. induction l as [|x l IH]; intros w; simpl; [reflexivity|].
  etransitivity; [apply IH|apply wake_downloads].
Qed.

Lemma wake_all_cleans (l : list (Z * Task)) (d : Z) (f : string * Z * string) (w : World) :
  In (d, CleanupFile f) l ->
  f ∉ downloads (fold_left (fun w x => wake x w) l w).
Proof.
  revert w. induction l as [|x l IH]; intros w Hin; [destruct Hin|].
  simpl. destruct Hin as [->|Hin].
  - intros Hf. apply wake_all_downloads in Hf. unfold wake in Hf. simpl in Hf.
    apply elem_of_difference in Hf as [_ Hn]. apply Hn. apply elem_of_singleton. reflexivity.
  - apply IH. exact Hin.
Qed.

(** The passing of time creates no temporary file, and removes every
    file whose clean-up is due. *)
Lemma advance_downloads (t : Z) (w : World) : downloads (advance t w) ⊆ downloads w.
Proof.
  unfold advance. simpl. etransitivity; [apply wake_all_downloads|]. reflexivity.
Qed.

Lemma advance_cleans (t d : Z) (f : string * Z * string) (w : World) :
  In (d, CleanupFile f) (tasks w) -> (d <= t)%Z -> f ∉ downloads (advance t w).
Proof.
  intros Hin Hdue. unfold advance. simpl.
  apply (wake_all_cleans _ d). apply by_wake_up_In.
  apply filter_In. split; [exact Hin|]. simpl. apply Z.leb_le. exact Hdue.
Qed.

Lemma progress_is_no_file (l : list Msg) :
  Forall (fun m => exists a b, m = MProgress a b) l ->
  forall n t, ~ In (MSendFile n t) l.
Proof.
  intros H n t Hin. rewrite Forall_forall in H.
  destruct (H _ (proj2 (list_elem_of_In _ _) Hin)) as (a & b & E). discriminate.
Qed.

(** How [_download_file] ends: without sending a file, or with the file
    fetched, announced and sent, its temporary copy on disk and its
    clean-up pending. *)
Lemma download_cases (u : string) (item : Entry) (cfg : gmap string pyval) (w : World) :
  exists r w' l, _download_file u item cfg w = (r, w')
  /\ sent w' = sent w ++ l /\ now w' = now w
  /\ ((forall n t, ~ In (MSendFile n t) l)
      \/ (let temp := (u, now w, name item) in
          exists pre, l = pre ++ [MDownloadDone; MSendFile (name item) temp]
          /\ (forall n t, ~ In (MSendFile n t) pre)
          /\ temp ∈ downloads w'
          /\ In ((now w + 10)%Z, CleanupFile temp) (tasks w'))).
Proof.
  assert (Hone : forall m : Msg, (forall n t, m <> MSendFile n t) ->
                 forall n t, ~ In (MSendFile n t) [m]).
  { intros m Hm n t [E|[]]. exact (Hm n t E). }
  assert (Hnil : forall n t, ~ In (MSendFile n t) []) by (intros n t []).
  unfold _download_file. cbv zeta. unfold bind at 1. unfold get_world. cbv beta iota.
  unfold bind at 1. unfold number.
  destruct (as_int (get_webui_config w "max_download_size" (PInt 50))) as [mb|].
  2:{ exists (Exc "TypeError"), w, []. rewrite app_nil_r. repeat split. left. exact Hnil. }
  unfold ret at 1. cbv beta iota.
  destruct (size item >? mb * 1024 * 1024)%Z.
  { eexists _, _, [_]. split; [reflexivity|]. repeat split. left. apply Hone. discriminate. }
  unfold fetch_and_send, try_except. cbv zeta.
  unfold bind at 1. rewrite get_nav_run.
  pose proof (touch_nav_rest u w) as (_&_&_&_&_&_&T0&_&S0&_).
  set (w0 := touch_nav u w) in *.
  unfold bind at 1.
  pose proof (backstage_connect cfg w0) as B1.
  destruct (AlistClient.connect cfg w0) as [[client|e] w1]; simpl in B1;
    destruct B1 as (_ & _ & S1 & _ & _ & T1 & _).
  2:{ eexists _, _, [_]. split; [reflexivity|]. simpl. rewrite S1, S0, T1, T0.
      repeat split. left. apply Hone. discriminate. }
  unfold bind at 1.
  pose proof (backstage_client_url client
                (join_path (current_path (nav_of w u)) (name item)) w1) as B2.
  destruct (AlistClient.get_download_url client _ w1) as [[[url|]|e] w2]; simpl in B2;
    destruct B2 as (_ & _ & S2 & _ & _ & T2 & _).
  3:{ eexists _, _, [_]. split; [reflexivity|]. simpl. rewrite S2, S1, S0, T2, T1, T0.
      repeat split. left. apply Hone. discriminate. }
  2:{ eexists _, _, [_]. split; [reflexivity|]. simpl. rewrite S2, S1, S0, T2, T1, T0.
      repeat split. left. apply Hone. discriminate. }
  unfold bind at 1. unfold get_world. cbv beta iota.
  unfold bind at 1. unfold yield at 1, modify at 1. cbv beta iota.
  unfold bind at 1. unfold request at 1. cbv beta iota.
  set (w3 := with_calls _ _).
  assert (Hfail : forall m : Msg, (forall n t, m <> MSendFile n t) ->
            exists l, sent (with_sent (sent w3 ++ [m]) w3) = sent w ++ l
                      /\ now (with_sent (sent w3 ++ [m]) w3) = now w
                      /\ forall n t, ~ In (MSendFile n t) l).
  { intros m Hm. exists [MDownloadStart (name item) (size item); m].
    unfold w3. simpl. rewrite S2, S1, S0, T2, T1, T0, <- app_assoc.
    repeat split. intros n t [E|[E|[]]]; [discriminate|exact (Hm n t E)]. }
  destruct (remote (with_sent _ w2) (calls (with_sent _ w2)) (CallFetch url))
    as [| | | | | |status chunks|e].
  1-6: destruct (Hfail (MDownloadFailed "ClientError")) as (lm & Hs & Ht & Hl);
       [discriminate|];
       eexists _, _, lm; (split; [reflexivity|]); split; [exact Hs|]; split; [exact Ht|];
       left; exact Hl.
  2:{ destruct (Hfail (MDownloadFailed e)) as (lm & Hs & Ht & Hl); [discriminate|].
      eexists _, _, lm. split; [reflexivity|]. split; [exact Hs|]. split; [exact Ht|].
      left. exact Hl. }
  destruct (status =? 200)%Z.
  2:{ destruct (Hfail (MDownloadHttp status)) as (lm & Hs & Ht & Hl); [discriminate|].
      eexists _, _, lm. split; [reflexivity|]. split; [exact Hs|]. split; [exact Ht|].
      left. exact Hl. }
  unfold bind at 1. unfold modify at 1. cbv beta iota.
  unfold bind at 1.
  match goal with
  | |- context [receive_chunks ?a ?b ?c ?x] =>
      destruct (receive_chunks_run a b c x) as (lp & -> & Hlp)
  end.
  eexists _, _, (MDownloadStart (name item) (size item)
                   :: lp ++ [MDownloadDone; MSendFile (name item) (u, now w, name item)]).
  split; [reflexivity|]. simpl.
  rewrite S2, S1, S0, T2, T1, T0. split; [|split; [reflexivity|]].
  - rewrite <- !app_assoc. reflexivity.
  - right. exists (MDownloadStart (name item) (size item) :: lp).
    split; [reflexivity|]. split.
    + intros n t [E|Hin]; [discriminate|]. exact (progress_is_no_file lp Hlp n t Hin).
    + split.
      * apply elem_of_union_l, elem_of_singleton. reflexivity.
      * apply in_or_app. right. left. reflexivity.
Qed.

(** X12. A file that is sent is cleaned up.  Whenever [_download_file]
    sends a file, it is the entry asked for, sent last, right after the
    notice that the download is done; its temporary copy is named after
    the user, the time and the entry, is on disk when the handler ends, and
    is gone once ten seconds have passed.  The passing of time never
    creates a temporary file. *)
Theorem sent_file_is_cleaned_up (w : World) (user_id : string) (item : Entry)
    (cfg : gmap string pyval) (file_name : string) (temp : string * Z * string)
    (l : list Msg) :
  let w' := snd (_download_file user_id item cfg w) in
  sent w' = sent w ++ l -> In (MSendFile file_name temp) l ->
  file_name = name item /\ temp = (user_id, now w, name item)
  /\ (exists pre, l = pre ++ [MDownloadDone; MSendFile file_name temp])
  /\ temp ∈ downloads w'
  /\ (forall t, (now w + 10 <= t)%Z -> temp ∉ downloads (advance t w'))
  /\ (forall t f, f ∈ downloads (advance t w') -> f ∈ downloads w').
Proof.
  intros w'. subst w'.
  destruct (download_cases user_id item cfg w) as (r & w' & l' & -> & S & T & Hc).
  simpl. intros Hsent Hin. rewrite S in Hsent. apply app_inv_head in Hsent. subst l'.
  destruct Hc as [Hno|(pre & -> & Hpre & Hfile & Htask)]; [destruct (Hno _ _ Hin)|].
  apply in_app_or in Hin as [Hin|[E|[E|[]]]]; [destruct (Hpre _ _ Hin)|discriminate|].
  injection E as <- <-.
  split; [reflexivity|]. split; [reflexivity|]. split; [exists pre; reflexivity|].
  split; [exact Hfile|]. split.
  - intros t Ht. apply (advance_cleans t (now w + 10)); assumption.
  - intros t f. apply advance_downloads.
Qed.

Lemma sent_file_is_cleaned_up_witness :
  let w := browsing_world (fun _ c => match c with
                                      | CallGet _ _ _ =>
                                          REntry {| name := "notes.txt"; is_dir := false;
                                                    size := 120; modified := "" |}
                                      | CallFetch _ => RBody 200 [120%Z]
                                      | _ => RNone
                                      end) in
  let item := {| name := "notes.txt"; is_dir := false; size := 120; modified := "" |} in
  let w' := snd (_download_file "u1" item (get_user_config w "u1") w) in
  ("u1", 1000%Z, "notes.txt") ∈ downloads w'
  /\ ("u1", 1000%Z, "notes.txt") ∉ downloads (advance 1010 w').
Proof.
  intros w item w'.
  destruct (sent_file_is_cleaned_up w "u1" item (get_user_config w "u1") "notes.txt"
              ("u1", 1000%Z, "notes.txt")
              [MDownloadStart "notes.txt" 120; MDownloadDone;
               MSendFile "notes.txt" ("u1", 1000%Z, "notes.txt")])
    as (_ & _ & _ & Hd & Hc & _).
  - vm_compute. reflexivity.
  - simpl. right. right. left. reflexivity.
  - split; [exact Hd|]. apply Hc. vm_compute. discriminate.
Defined.

(** *** Where requests go *)

#[local] Instance only_calls_preorder (P : Call -> Prop) : PreOrder (only_calls P).
Proof.
  split.
  - intros w. exists []. split; [rewrite app_nil_r; reflexivity|constructor].
  - intros a b c (l1 & E1 & F1) (l2 & E2 & F2). exists (l1 ++ l2).
    split; [rewrite E2, E1, app_assoc; reflexivity|]. apply Forall_app. split; assumption.
Qed.

Lemma calls_kept_only (P : Call -> Prop) (w w' : World) :
  calls_kept w w' -> only_calls P w w'.
Proof.
  intros H. exists []. split; [rewrite app_nil_r; exact H|constructor].
Qed.

Lemma ensures_bind {A B} (R : World -> World -> Prop) `{!PreOrder R}
    (Q : A -> Prop) (m : M A) (k : A -> M B) :
  ensures R Q m -> (forall a, Q a -> respects R (k a)) -> respects R (bind m k).
Proof.
  intros Hm Hk w. unfold bind. destruct (Hm w) as [Hr Hq].
  destruct (m w) as [[a|e] w1]; simpl in *; [|exact Hr].
  etransitivity; [exact Hr|apply (Hk a Hq)].
Qed.

Lemma only_request (P : Call -> Prop) (c : Call) :
  P c -> respects (only_calls P) (request c).
Proof. intros Hc w. exists [c]. split; [reflexivity|]. constructor; [exact Hc|constructor]. Qed.

Lemma client_auth (cfg : gmap string pyval) (c : AlistClient.t) :
  client_of cfg c ->
  truthy (dict_get cfg "token" (PStr "")) = true ->
  AlistClient.auth c = Some (dict_get cfg "token" (PStr "")).
Proof.
  intros [_ Ht] Htok. unfold AlistClient.auth. rewrite (Ht Htok), Htok. reflexivity.
Qed.

(** Entering the client: a login, if any, is made with the configured
    credentials in the absence of a token; the client made talks to the
    configured server with the configured token. *)
Lemma connect_ensures (cfg : gmap string pyval) :
  ensures (only_calls (server_call cfg)) (client_of cfg) (AlistClient.connect cfg).
Proof.
  intros w.
  unfold AlistClient.connect, AlistClient.login, subscript, bind, ret, raise, request.
  destruct (cfg !! "alist_url") as [v|] eqn:Eu; [|simpl; split; [reflexivity|exact I]].
  destruct v as [| | |url|]; try (simpl; split; [reflexivity|exact I]).
  cbv zeta.
  cbn [AlistClient.base_url AlistClient.username AlistClient.password AlistClient.token].
  assert (Hs : server_of cfg = Py.rstrip "/" url) by (unfold server_of; rewrite Eu; reflexivity).
  destruct (truthy (dict_get cfg "token" (PStr ""))) eqn:Et,
           (truthy (dict_get cfg "username" (PStr ""))) eqn:Eus,
           (truthy (dict_get cfg "password" (PStr ""))) eqn:Ep;
    cbn [negb andb]; cbv beta iota;
    try (simpl; split; [reflexivity|]; split; [simpl; symmetry; exact Hs|];
         intros H; try reflexivity; congruence).
  split.
  - exists [CallLogin (Py.rstrip "/" url) (dict_get cfg "username" (PStr ""))
              (dict_get cfg "password" (PStr ""))].
    split; [match goal with
            | |- context [remote w (calls w) ?c] => destruct (remote w (calls w) c)
            end; reflexivity|].
    constructor; [|constructor]. simpl. rewrite Hs, Et, Eus, Ep. repeat split.
  - match goal with
    | |- context [remote w (calls w) ?c] => destruct (remote w (calls w) c)
    end; simpl; (split; [symmetry; exact Hs|intros H; congruence]).
Qed.

Lemma only_client_list (cfg : gmap string pyval) (c : AlistClient.t) (p : string) :
  client_of cfg c -> respects (only_calls (server_call cfg)) (AlistClient.list_files c p).
Proof.
  intros Hc. unfold AlistClient.list_files.
  respects_step; [|respects_step]. apply only_request. simpl.
  split; [apply Hc|apply (client_auth cfg c Hc)].
Qed.

Lemma only_client_info (cfg : gmap string pyval) (c : AlistClient.t) (p : string) :
  client_of cfg c -> respects (only_calls (server_call cfg)) (AlistClient.get_file_info c p).
Proof.
  intros Hc. unfold AlistClient.get_file_info.
  respects_step; [|respects_step]. apply only_request. simpl.
  split; [apply Hc|apply (client_auth cfg c Hc)].
Qed.

Lemma only_client_search (cfg : gmap string pyval) (c : AlistClient.t) (k p : string) :
  client_of cfg c -> respects (only_calls (server_call cfg)) (AlistClient.search_files c k p).
Proof.
  intros Hc. unfold AlistClient.search_files.
  respects_step; [|respects_step]. apply only_request. simpl.
  split; [apply Hc|apply (client_auth cfg c Hc)].
Qed.

Lemma only_client_upload (cfg : gmap string pyval) (c : AlistClient.t)
    (file_path : string) (file_exists : bool) (target filename : string) :
  client_of cfg c ->
  respects (only_calls (server_call cfg))
    (AlistClient.upload_file c file_path file_exists target filename).
Proof.
  intros Hc. unfold AlistClient.upload_file.
  destruct (negb file_exists); [respects_step|].
  respects_step; [|respects_step]. apply only_request. simpl.
  split; [apply Hc|apply (client_auth cfg c Hc)].
Qed.

(** The download link is the server's download path. *)
Lemma url_ensures (cfg : gmap string pyval) (c : AlistClient.t) (p : string) :
  client_of cfg c ->
  ensures (only_calls (server_call cfg))
    (fun r => forall url, r = Some url -> server_call cfg (CallFetch url))
    (AlistClient.get_download_url c p).
Proof.
  intros Hc w. unfold AlistClient.get_download_url, bind.
  pose proof (only_client_info cfg c p Hc w) as Hi.
  destruct (AlistClient.get_file_info c p w) as [[[e|]|x] w1]; simpl in *.
  - destruct (negb (is_dir e)); simpl; (split; [exact Hi|]).
    + intros url [= <-]. exists p. destruct Hc as [-> _]. reflexivity.
    + discriminate.
  - split; [exact Hi|discriminate].
  - split; [exact Hi|exact I].
Qed.

Lemma ensures_respects {A} (R : World -> World -> Prop) (Q : A -> Prop) (m : M A) :
  ensures R Q m -> respects R m.
Proof. intros H w. apply H. Qed.

Create HintDb commands.
#[local] Hint Unfold config_command list_files browse search_files file_info
  get_download_link quit_navigation relist_previous upload_command
  handle_file_message help_command _download_file fetch_and_send _upload_file
  _upload_image upload_fetched put_and_refresh _format_file_list
  _get_item_by_number : commands.

(** Walking a handler whose configuration is fixed: the client is
    entered and used by the lemmas on its requests, every other step
    makes no request. *)
Ltac server_walk :=
  cbv zeta;
  repeat first
    [ eapply ensures_bind; [exact _ | apply connect_ensures | intros ? ?]
    | eapply ensures_bind; [exact _ | apply url_ensures; assumption | intros ? ?]
    | apply only_client_list; assumption
    | apply only_client_info; assumption
    | apply only_client_search; assumption
    | apply only_client_upload; assumption
    | eapply ensures_respects; apply url_ensures; assumption
    | apply only_request; solve [eauto]
    | respects_step; cbv zeta
    | apply respects_receive_chunks; [exact _ | intros ?]
    | progress autounfold with commands; cbv zeta
    | apply (respects_weaken (only_calls _) calls_kept);
      [intros ? ?; apply calls_kept_only | solve [calls_leaf]] ].

(** The first step of a handler reads the configuration of the world it
    starts in. *)
Ltac fix_config :=
  unfold bind at 1; unfold get_world at 1; cbv beta iota zeta;
  lazymatch goal with
  | |- ?R ?w0 (snd (?m ?w0)) => apply (fun H : respects R m => H w0)
  end.

Lemma only_calls_ls (w : World) (u path : string) :
  only_calls (server_call (get_user_config w u)) w (snd (list_files u path w)).
Proof. unfold list_files. fix_config. server_walk. Qed.

Lemma only_calls_quit (w : World) (u : string) :
  only_calls (server_call (get_user_config w u)) w (snd (quit_navigation u w)).
Proof. unfold quit_navigation. fix_config. server_walk. Qed.

Lemma only_calls_search (w : World) (u keyword path : string) :
  only_calls (server_call (get_user_config w u)) w (snd (search_files u keyword path w)).
Proof.
  unfold search_files. destruct (String.eqb keyword "").
  - apply calls_kept_only. reflexivity.
  - fix_config. server_walk.
Qed.

Lemma only_calls_info (w : World) (u path : string) :
  only_calls (server_call (get_user_config w u)) w (snd (file_info u path w)).
Proof.
  unfold file_info. destruct (String.eqb path "").
  - apply calls_kept_only. reflexivity.
  - fix_config. server_walk.
Qed.

Lemma only_calls_download (w : World) (u path : string) :
  only_calls (server_call (get_user_config w u)) w (snd (get_download_link u path w)).
Proof.
  unfold get_download_link. destruct (String.eqb path "").
  - apply calls_kept_only. reflexivity.
  - fix_config. server_walk.
Qed.

Lemma only_calls_config (w : World) (u action key value : string) :
  only_calls (server_call (get_user_config w u)) w
    (snd (config_command u action key value w)).
Proof.
  destruct (String.eqb action "test") eqn:E.
  - unfold config_command.
    destruct (String.eqb action "show"); [apply calls_kept_only; unfold calls_kept; walk_calls|].
    destruct (String.eqb action "setup"); [apply calls_kept_only; reflexivity|].
    destruct (String.eqb action "set"); [apply calls_kept_only; unfold calls_kept; walk_calls|].
    rewrite E. fix_config. server_walk.
  - apply calls_kept_only. apply (calls_kept_config u action key value E w).
Qed.

Lemma only_calls_attachments (w : World) (u : string) (l : list Attachment) :
  only_calls (server_call (get_user_config w u)) w (snd (handle_file_message u l w)).
Proof.
  unfold handle_file_message. unfold bind at 1. rewrite get_upload_run.
  pose proof (touch_upload_rest u w) as (_ & G & F & _ & _ & _ & _ & _ & _ & K).
  destruct (negb (waiting (upload_of w u))).
  - apply calls_kept_only. exact K.
  - etransitivity; [apply calls_kept_only; exact K|].
    unfold bind at 1. unfold get_world at 1. cbv beta iota zeta.
    rewrite (get_user_config_ext w (touch_upload u w) u G F).
    lazymatch goal with
    | |- ?R ?w0 (snd (?m ?w0)) => apply (fun H : respects R m => H w0)
    end.
    server_walk.
Qed.

(** X13. Requests go nowhere but to the configured server.  Whatever the
    command, every request it sends is addressed to the server of the
    sender's resolved configuration.  The user name and password are sent
    only in a login, and a login is made only when no token is configured;
    every other request of the API then carries the configured token; the
    bytes of a file are fetched from the download path of that same
    server. *)
Theorem requests_go_to_configured_server (w : World) (user_id : string) (c : Command) :
  exists l, calls (snd (handle user_id c w)) = calls w ++ l
            /\ Forall (server_call (get_user_config w user_id)) l.
Proof.
  destruct c; cbn [handle].
  - apply only_calls_config.
  - apply only_calls_ls.
  - apply only_calls_search.
  - apply only_calls_info.
  - apply only_calls_download.
  - apply only_calls_quit.
  - apply (calls_kept_only _ w). apply calls_kept_upload.
  - apply (calls_kept_only _ w). apply calls_kept_help.
  - apply only_calls_attachments.
Qed.

(** *** Where an upload goes *)

#[local] Instance puts_only_preorder (p d : string) : PreOrder (puts_only p d).
Proof.
  split.
  - intros w. exists []. split; [rewrite app_nil_r; reflexivity|]. intros ? ? ? ? [].
  - intros a b c (l1 & E1 & F1) (l2 & E2 & F2). exists (l1 ++ l2).
    split; [rewrite E2, E1, app_assoc; reflexivity|].
    intros x y fp dd Hin. apply in_app_or in Hin as [Hin|Hin]; eauto.
Qed.

Lemma calls_kept_puts (p d : string) (w w' : World) : calls_kept w w' -> puts_only p d w w'.
Proof.
  intros H. exists []. split; [rewrite app_nil_r; exact H|]. intros ? ? ? ? [].
Qed.

Lemma puts_request (p d : string) (c : Call) :
  not_put c -> respects (puts_only p d) (request c).
Proof.
  intros Hc w. exists [c]. split; [reflexivity|].
  intros b a fp dd [E|[]]. subst c. destruct Hc.
Qed.

Lemma puts_connect (p d : string) (cfg : gmap string pyval) :
  respects (puts_only p d) (AlistClient.connect cfg).
Proof.
  unfold AlistClient.connect, AlistClient.login.
  repeat first [ apply puts_request; exact I | respects_step; cbv zeta ].
Qed.

Lemma puts_client_list (p d : string) (c : AlistClient.t) (path : string) :
  respects (puts_only p d) (AlistClient.list_files c path).
Proof.
  unfold AlistClient.list_files.
  repeat first [ apply puts_request; exact I | respects_step; cbv zeta ].
Qed.

(** The client's upload: when it reports success, the one request it made
    is the upload of the local file to the target directory under the
    given name. *)
Lemma puts_client_upload (c : AlistClient.t) (p target filename : string) :
  ensures (puts_only p (Py.rstrip "/" target ++ "/" ++ filename)%string)
    (fun _ => True) (AlistClient.upload_file c p true target filename).
Proof.
  intros w. unfold AlistClient.upload_file. simpl negb. cbv iota.
  unfold bind, request, ret. cbv beta iota. simpl.
  split; [|exact I].
  eexists [_]. split; [reflexivity|].
  intros b a fp dd [E|[]]. injection E as _ _ <- <-. split; reflexivity.
Qed.

Lemma puts_format (p d : string) (files : option (list Entry)) (path : string)
    (cfg : gmap string pyval) (u : string) :
  respects (puts_only p d) (_format_file_list files path cfg u).
Proof.
  apply (respects_weaken (puts_only p d) calls_kept); [apply calls_kept_puts|].
  apply calls_kept_format.
Qed.

Lemma puts_upload_fetched (image : bool) (u target filename : string)
    (cfg : gmap string pyval) (p : string) (file_size : Z) :
  respects (puts_only p (Py.rstrip "/" target ++ "/" ++ filename)%string)
    (upload_fetched image u target filename cfg p true file_size).
Proof.
  unfold upload_fetched, put_and_refresh. cbv zeta.
  repeat first
    [ eapply ensures_bind; [exact _ | apply puts_client_upload | intros ? _]
    | apply puts_connect | apply puts_client_list | apply puts_format
    | respects_step; cbv zeta
    | apply (respects_weaken (puts_only _ _) calls_kept);
      [apply calls_kept_puts | solve [calls_leaf]] ].
Qed.

Lemma upload_of_same (w w' : World) (v : string) :
  user_upload_state w' = user_upload_state w -> upload_of w' v = upload_of w v.
Proof. intros H. unfold upload_of. rewrite H. reflexivity. Qed.

(** How the transfer ends: the wait untouched and no success announced, or
    the wait over.  A success announced names this upload. *)
Lemma put_and_refresh_cases (image : bool) (u target filename : string)
    (cfg : gmap string pyval) (p : string) (ex : bool) (file_size : Z) (w : World) :
  exists r w' l,
    put_and_refresh image u target filename cfg p ex file_size w = (r, w')
    /\ sent w' = sent w ++ l
    /\ (forall img f t, In (MUploadOk img f t) l -> img = image /\ f = filename /\ t = target)
    /\ (forall e, ~ In (MUploadFailed e) l)
    /\ ((user_upload_state w' = user_upload_state w
         /\ forall img f t, ~ In (MUploadOk img f t) l)
        \/ upload_of w' u = initial_upload).
Proof.
  unfold put_and_refresh. unfold bind at 1. unfold yield at 1, modify at 1. cbv beta iota.
  set (m0 := MUploadStart image filename file_size target).
  set (w0 := with_sent (sent w ++ [m0]) w).
  assert (Hstart : forall wf : World, sent wf = sent w0 -> sent wf = sent w ++ [m0])
    by (intros wf H; rewrite H; reflexivity).
  assert (Hno : (forall img f t, In (MUploadOk img f t) [m0] -> img = image /\ f = filename /\ t = target)
                /\ (forall e, ~ In (MUploadFailed e) [m0])
                /\ forall img f t, ~ In (MUploadOk img f t) [m0]).
  { unfold m0. repeat split; intros; intros; try (destruct H as [H|[]]; discriminate).
    intros [H|[]]; discriminate. intros [H|[]]; discriminate. }
  destruct Hno as (Hno1 & Hno2 & Hno3).
  unfold bind at 1.
  pose proof (backstage_connect cfg w0) as B1.
  destruct (AlistClient.connect cfg w0) as [[client|e] w1]; simpl in B1;
    destruct B1 as (_ & U1 & S1 & _).
  2:{ eexists _, _, [m0]. split; [reflexivity|]. split; [simpl; rewrite S1; reflexivity|].
      split; [exact Hno1|]. split; [exact Hno2|]. left. split; [exact U1|exact Hno3]. }
  unfold bind at 1.
  pose proof (backstage_client_upload client p ex target filename w1) as B2.
  destruct (AlistClient.upload_file client p ex target filename w1) as [[[|]|e] w2];
    simpl in B2; destruct B2 as (_ & U2 & S2 & _).
  3:{ eexists _, _, [m0]. split; [reflexivity|]. split; [simpl; rewrite S2, S1; reflexivity|].
      split; [exact Hno1|]. split; [exact Hno2|]. left. split; [rewrite U2, U1; reflexivity|exact Hno3]. }
  2:{ eexists _, _, [m0; MUploadRejected]. split; [reflexivity|]. simpl.
      split; [rewrite S2, S1; simpl; rewrite <- app_assoc; reflexivity|].
      split; [intros img f t [H|[H|[]]]; discriminate|].
      split; [intros e [H|[H|[]]]; discriminate|].
      left. split; [rewrite U2, U1; reflexivity|]. intros img f t [H|[H|[]]]; discriminate. }
  (* the server took the file *)
  unfold bind at 1. unfold yield at 1, modify at 1. cbv beta iota.
  unfold bind at 1. rewrite set_waiting_run. cbv beta iota.
  set (ok := MUploadOk image filename target).
  set (w3 := with_upload _ _).
  assert (S3 : sent w3 = sent w ++ [m0; ok]).
  { unfold w3. simpl. rewrite S2, S1. simpl. rewrite <- app_assoc. reflexivity. }
  assert (H3 : upload_of w3 u = initial_upload).
  { unfold w3. rewrite upload_of_insert. destruct (decide (u = u)); [reflexivity|contradiction]. }
  assert (Hok : forall l', (forall m, In m l' -> exists t, m = MDirRefreshed t) ->
            (forall img f t, In (MUploadOk img f t) ([m0; ok] ++ l') ->
               img = image /\ f = filename /\ t = target)
            /\ forall e, ~ In (MUploadFailed e) ([m0; ok] ++ l')).
  { intros l' Hl'. split.
    - intros img f t [H|[H|H]]; [discriminate|injection H as <- <- <-; repeat split|].
      destruct (Hl' _ H) as [x Hx]. discriminate.
    - intros e [H|[H|H]]; [discriminate|discriminate|].
      destruct (Hl' _ H) as [x Hx]. discriminate. }
  clearbody w3.
  unfold bind at 1.
  pose proof (backstage_client_list client target w3) as B4.
  destruct (AlistClient.list_files client target w3) as [[[result|]|e] w4];
    simpl in B4; destruct B4 as (_ & U4 & S4 & _).
  3:{ destruct (Hok []) as [Ha Hb]; [intros m []|].
      eexists _, _, ([m0; ok] ++ []). split; [reflexivity|].
      split; [rewrite S4, S3, app_nil_r; reflexivity|].
      split; [exact Ha|]. split; [exact Hb|]. right.
      rewrite (upload_of_same w3 w4 u U4). exact H3. }
  2:{ destruct (Hok []) as [Ha Hb]; [intros m []|].
      eexists _, _, ([m0; ok] ++ []). split; [reflexivity|].
      split; [simpl; rewrite S4, S3; reflexivity|].
      split; [exact Ha|]. split; [exact Hb|]. right.
      rewrite (upload_of_same w3 w4 u U4). exact H3. }
  unfold bind at 1.
  pose proof (staying_format u target (content result) cfg w4) as (U5 & S5 & _).
  destruct (_format_file_list (content result) target cfg u w4) as [[t|e] w5];
    simpl in U5, S5.
  - destruct (Hok [MDirRefreshed t]) as [Ha Hb]; [intros m [<-|[]]; eauto|].
    eexists _, _, ([m0; ok] ++ [MDirRefreshed t]). split; [reflexivity|].
    split; [simpl; rewrite S5, S4, S3, <- app_assoc; reflexivity|].
    split; [exact Ha|]. split; [exact Hb|]. right.
    change (upload_of w5 u = initial_upload).
    rewrite (upload_of_same w4 w5 u U5), (upload_of_same w3 w4 u U4). exact H3.
  - destruct (Hok []) as [Ha Hb]; [intros m []|].
    eexists _, _, ([m0; ok] ++ []). split; [reflexivity|].
    split; [rewrite S5, S4, S3, app_nil_r; reflexivity|].
    split; [exact Ha|]. split; [exact Hb|]. right.
    rewrite (upload_of_same w4 w5 u U5), (upload_of_same w3 w4 u U4). exact H3.
Qed.

Lemma upload_outcome_one (image : bool) (u target filename : string) (w : World) (m : Msg) :
  (forall img f t, m <> MUploadOk img f t) ->
  upload_outcome image u target filename w (with_sent (sent w ++ [m]) w).
Proof.
  intros Hm. exists [m]. split; [reflexivity|].
  split; [intros img f t [E|[]]; destruct (Hm _ _ _ E)|].
  left. split; [reflexivity|]. intros img f t [E|[]]. exact (Hm _ _ _ E).
Qed.

Lemma upload_outcome_none (image : bool) (u target filename : string) (w w' : World) :
  sent w' = sent w -> upload_of w' u = upload_of w u ->
  upload_outcome image u target filename w w'.
Proof.
  intros S U. exists []. split; [rewrite app_nil_r; exact S|].
  split; [intros img f t []|]. left. split; [exact U|]. intros img f t [].
Qed.

(** The handler of the [try] of an upload: the failure is reported and
    the wait ended. *)
Lemma upload_outcome_failed (image : bool) (u target filename : string)
    (w w1 : World) (e : string) :
  upload_outcome image u target filename w w1 ->
  upload_outcome image u target filename w
    (snd ((yield (MUploadFailed e) ;;; _set_user_upload_waiting u false "/") w1)).
Proof.
  intros (l & S & Hn & _). unfold bind at 1. unfold yield, modify. cbv beta iota.
  rewrite set_waiting_run. simpl.
  exists (l ++ [MUploadFailed e]). split; [rewrite S, app_assoc; reflexivity|]. split.
  - intros img f t Hin. apply in_app_or in Hin as [Hin|[E|[]]]; [eauto|discriminate].
  - right. rewrite upload_of_insert. destruct (decide (u = u)); [reflexivity|contradiction].
Qed.

Lemma upload_outcome_from (image : bool) (u target filename : string) (w w0 w' : World) :
  sent w0 = sent w -> upload_of w0 u = upload_of w u ->
  upload_outcome image u target filename w0 w' ->
  upload_outcome image u target filename w w'.
Proof.
  intros S U (l & Sl & Hn & Hc). exists l. rewrite <- S, <- U.
  split; [exact Sl|]. split; [exact Hn|exact Hc].
Qed.

Lemma upload_fetched_outcome (image : bool) (u target filename : string)
    (cfg : gmap string pyval) (p : string) (ex : bool) (file_size : Z) (w : World) :
  upload_outcome image u target filename w
    (snd (upload_fetched image u target filename cfg p ex file_size w)).
Proof.
  unfold upload_fetched. unfold bind at 1. unfold get_world. cbv beta iota zeta.
  unfold bind at 1. unfold number.
  destruct (as_int (get_webui_config w "max_upload_size" (PInt 100))) as [mb|].
  2:{ simpl. apply upload_outcome_none; reflexivity. }
  unfold ret at 1. cbv beta iota.
  destruct (file_size >? mb * 1024 * 1024)%Z.
  { apply upload_outcome_one. discriminate. }
  destruct (put_and_refresh_cases image u target filename cfg p ex file_size w)
    as (r & w' & l & -> & S & Hn & _ & Hc).
  exists l. split; [exact S|]. split; [exact Hn|].
  destruct Hc as [[U Hno]|Hi]; [left|right; exact Hi].
  split; [apply upload_of_same; exact U|exact Hno].
Qed.

(** The body of the [try] of [_upload_file] or [_upload_image], run
    where the handler found the user waiting. *)
Lemma guarded_upload (image : bool) (u target filename : string)
    (body : M unit) (w : World) :
  upload_outcome image u target filename w (snd (body w)) ->
  upload_outcome image u target filename w
    (snd (try_except body
            (fun e => yield (MUploadFailed e) ;;; _set_user_upload_waiting u false "/") w)).
Proof.
  intros Hb. unfold try_except. destruct (body w) as [[[]|e] w1]; simpl in Hb; [exact Hb|].
  apply upload_outcome_failed. exact Hb.
Qed.

Lemma no_success_one (u : string) (w : World) (m : Msg) :
  (forall img f t, m <> MUploadOk img f t) ->
  no_success u w (with_sent (sent w ++ [m]) w).
Proof.
  intros Hm. exists [m]. split; [reflexivity|].
  split; [intros img f t [E|[]]; exact (Hm _ _ _ E)|]. left. reflexivity.
Qed.

Lemma no_success_reset (u : string) (w w1 : World) (m : Msg) :
  (forall img f t, m <> MUploadOk img f t) ->
  sent w1 = sent w ->
  no_success u w (snd ((yield m ;;; _set_user_upload_waiting u false "/") w1)).
Proof.
  intros Hm S. unfold bind at 1. unfold yield, modify. cbv beta iota.
  rewrite set_waiting_run. simpl.
  exists [m]. split; [rewrite S; reflexivity|]. split.
  - intros img f t [E|[]]. exact (Hm _ _ _ E).
  - right. rewrite upload_of_insert. destruct (decide (u = u)); [reflexivity|contradiction].
Qed.

Lemma no_success_from (u : string) (w w0 w' : World) :
  sent w0 = sent w -> upload_of w0 u = upload_of w u ->
  no_success u w0 w' -> no_success u w w'.
Proof.
  intros S U (l & Sl & Hn & Hc). exists l. rewrite <- S, <- U.
  split; [exact Sl|]. split; [exact Hn|exact Hc].
Qed.

Lemma quiet_reset (u : string) (m : Msg) (w1 : World) :
  calls (snd ((yield m ;;; _set_user_upload_waiting u false "/") w1)) = calls w1.
Proof. walk_calls. Qed.

Lemma puts_reset (p d u : string) (m : Msg) :
  respects (puts_only p d) (yield m ;;; _set_user_upload_waiting u false "/").
Proof.
  apply (respects_weaken (puts_only p d) calls_kept); [apply calls_kept_puts|].
  intros w. apply quiet_reset.
Qed.

Lemma puts_guarded (p d u : string) (body : M unit) (w : World) :
  puts_only p d w (snd (body w)) ->
  puts_only p d w
    (snd (try_except body
            (fun e => yield (MUploadFailed e) ;;; _set_user_upload_waiting u false "/") w)).
Proof.
  intros Hb. unfold try_except. destruct (body w) as [[[]|e] w1]; simpl in Hb; [exact Hb|].
  etransitivity; [exact Hb|]. apply puts_reset.
Qed.

Lemma puts_from (p d : string) (w w0 w' : World) :
  calls w0 = calls w -> puts_only p d w0 w' -> puts_only p d w w'.
Proof. intros K (l & E & H). exists l. rewrite <- K. split; assumption. Qed.

(** How a message with attachments ends for a sender who is waiting to
    upload: the first attachment, fetched to a local file, was handed to
    the transfer, bound for the directory the wait names; or no success is
    announced and no request made. *)
Lemma attachment_outcome (u : string) (comps : list Attachment) (w : World) :
  waiting (upload_of w u) = true ->
  let w' := snd (handle_file_message u comps w) in
  (exists x rest p file_size,
      comps = x :: rest /\ att_fetch x = FetchPath p true file_size /\ p <> ""
      /\ upload_outcome (att_is_image x) u (target_path (upload_of w u))
           (upload_name (now w) x p) w w'
      /\ puts_only p (Py.rstrip "/" (target_path (upload_of w u)) ++ "/"
                        ++ upload_name (now w) x p)%string w w')
  \/ (no_success u w w' /\ calls w' = calls w).
Proof.
  intros Hw w'. remember w' as wf eqn:E. subst w'. unfold handle_file_message in E.
  unfold bind at 1 in E. rewrite get_upload_run, Hw in E.
  change (negb true) with false in E. cbv beta iota in E.
  pose proof (touch_upload_rest u w) as (_&_&_&_&_&_&T1&_&S1&K1).
  pose proof (touch_upload_view u u w) as V1.
  set (w1 := touch_upload u w) in *.
  unfold bind at 1 in E. unfold get_world in E. cbv beta iota zeta in E.
  destruct (negb (_validate_config (get_user_config w1 u))).
  { right. subst wf. split; [apply no_success_reset; [discriminate|exact S1]|].
    rewrite quiet_reset. exact K1. }
  destruct comps as [|x rest].
  { right. subst wf. split; [|exact K1].
    apply (no_success_from u w w1 _ S1 V1). apply no_success_one. discriminate. }
  pose proof (touch_upload_rest u w1) as (_&_&_&_&_&_&T2&_&S2&K2).
  pose proof (touch_upload_view u u w1) as V2.
  assert (S : sent (touch_upload u w1) = sent w) by congruence.
  assert (V : upload_of (touch_upload u w1) u = upload_of w u) by congruence.
  assert (T : now (touch_upload u w1) = now w) by congruence.
  assert (K : calls (touch_upload u w1) = calls w) by congruence.
  destruct (att_is_image x) eqn:Ei.
  - unfold _upload_image in E. unfold bind at 1 in E. rewrite get_upload_run in E.
    cbv zeta in E. rewrite V1 in E.
    set (w2 := touch_upload u w1) in *.
    destruct (att_fetch x) as [e| |p ex file_size] eqn:Ef.
    + right. subst wf. unfold try_except, raise.
      split; [apply no_success_reset; [discriminate|exact S]|].
      rewrite quiet_reset. exact K.
    + right. subst wf. unfold try_except. split; [|exact K].
      apply no_success_from with (w0 := w2); try assumption.
      apply no_success_one. discriminate.
    + destruct (String.eqb p "" || negb ex) eqn:Eg.
      * right. subst wf. unfold try_except. split; [|exact K].
        apply no_success_from with (w0 := w2); try assumption.
        apply no_success_one. discriminate.
      * apply orb_false_iff in Eg as [Ep Ex]. apply String.eqb_neq in Ep.
        destruct ex; [|discriminate].
        left. exists x, rest, p, file_size.
        split; [reflexivity|]. split; [exact Ef|]. split; [exact Ep|]. subst wf.
        assert (Hname : upload_name (now w) x p
                        = ("image_" ++ pretty (now w2)
                             ++ (if existsb (Py.endswith (Py.lower p)) image_suffixes
                                 then Py.splitext_ext p else ".jpg"))%string)
          by (unfold upload_name; rewrite Ei, T; reflexivity).
        rewrite Hname. split.
        -- apply upload_outcome_from with (w0 := w2); try assumption.
           rewrite Ei. apply guarded_upload.
           unfold bind at 1. unfold get_world. cbv beta iota zeta.
           apply upload_fetched_outcome.
        -- apply puts_from with (w0 := w2); [exact K|]. apply puts_guarded.
           unfold bind at 1. unfold get_world. cbv beta iota zeta.
           apply puts_upload_fetched.
  - unfold _upload_file in E. unfold bind at 1 in E. rewrite get_upload_run in E.
    cbv zeta in E. rewrite V1 in E.
    set (w2 := touch_upload u w1) in *.
    destruct (att_fetch x) as [e| |p ex file_size] eqn:Ef.
    + right. subst wf. unfold try_except, raise.
      split; [apply no_success_reset; [discriminate|exact S]|].
      rewrite quiet_reset. exact K.
    + right. subst wf. unfold try_except. split; [|exact K].
      apply no_success_from with (w0 := w2); try assumption.
      apply no_success_one. discriminate.
    + destruct (String.eqb p "" || negb ex) eqn:Eg.
      * right. subst wf. unfold try_except. split; [|exact K].
        apply no_success_from with (w0 := w2); try assumption.
        apply no_success_one. discriminate.
      * apply orb_false_iff in Eg as [Ep Ex]. apply String.eqb_neq in Ep.
        destruct ex; [|discriminate].
        left. exists x, rest, p, file_size.
        split; [reflexivity|]. split; [exact Ef|]. split; [exact Ep|]. subst wf.
        assert (Hname : upload_name (now w) x p = att_name x)
          by (unfold upload_name; rewrite Ei; reflexivity).
        rewrite Hname. split.
        -- apply upload_outcome_from with (w0 := w2); try assumption.
           rewrite Ei. apply guarded_upload. apply upload_fetched_outcome.
        -- apply puts_from with (w0 := w2); [exact K|]. apply puts_guarded.
           apply puts_upload_fetched.
Qed.

(** X14. An attachment goes where [upload] was asked.  For a sender who
    is waiting to upload, every upload request the message causes is of
    the first attachment's local file, into the directory named when the
    wait began (wherever the sender has navigated since), under the
    attachment's own name, or for an image under a name made of the time
    and the extension.  The upload intent is afterwards either exactly as
    it was or reset; and when a success is announced it names that
    directory and that name, and the wait is over. *)
Theorem upload_lands_in_waiting_target (w : World) (user_id : string)
    (comps : list Attachment) :
  waiting (upload_of w user_id) = true ->
  let target := target_path (upload_of w user_id) in
  let w' := snd (handle user_id (Attachments comps) w) in
  (exists lc, calls w' = calls w ++ lc
     /\ forall b a fp dest, In (CallPut b a fp dest) lc ->
          exists x rest file_size,
            comps = x :: rest /\ att_fetch x = FetchPath fp true file_size
            /\ dest = (Py.rstrip "/" target ++ "/" ++ upload_name (now w) x fp)%string)
  /\ (upload_of w' user_id = upload_of w user_id \/ upload_of w' user_id = initial_upload)
  /\ (forall l img fname t,
        sent w' = sent w ++ l -> In (MUploadOk img fname t) l ->
        t = target /\ upload_of w' user_id = initial_upload
        /\ exists x rest p file_size,
             comps = x :: rest /\ att_fetch x = FetchPath p true file_size
             /\ img = att_is_image x /\ fname = upload_name (now w) x p).
Proof.
  intros Hw target w'. subst target w'. cbn [handle].
  destruct (attachment_outcome user_id comps w Hw)
    as [(x & rest & p & fs & Hc & Hf & Hp & (l & S & Hn & Ho) & (lc & K & Hlc))
       |[(l & S & Hn & Ho) K]].
  - split; [|split].
    + exists lc. split; [exact K|]. intros b a fp dest Hin.
      destruct (Hlc b a fp dest Hin) as [-> ->]. exists x, rest, fs. auto.
    + destruct Ho as [[Ho _]|Ho]; [left|right]; exact Ho.
    + intros l' img fname t S' Hin. rewrite S in S'. apply app_inv_head in S'. subst l'.
      destruct (Hn img fname t Hin) as (-> & -> & ->). split; [reflexivity|]. split.
      * destruct Ho as [[_ Ho]|Ho]; [destruct (Ho _ _ _ Hin)|exact Ho].
      * exists x, rest, p, fs. auto.
  - split; [|split].
    + exists []. rewrite app_nil_r. split; [exact K|]. intros b a fp dest [].
    + exact Ho.
    + intros l' img fname t S' Hin. rewrite S in S'. apply app_inv_head in S'. subst l'.
      destruct (Hn _ _ _ Hin).
Qed.

Lemma upload_lands_in_waiting_target_witness :
  let w := snd (upload_command "u1" "" (browsing_world sample_remote)) in
  let file := {| att_is_image := false; att_name := "f.txt";
                 att_fetch := FetchPath "/tmp/f.txt" true 10 |} in
  let w' := snd (handle "u1" (Attachments [file]) w) in
  upload_of w' "u1" = upload_of w "u1" \/ upload_of w' "u1" = initial_upload.
Proof.
  intros w file w'.
  destruct (upload_lands_in_waiting_target w "u1" [file]) as (_ & H & _).
  - vm_compute. reflexivity.
  - exact H.
Defined.

(** *** What a search shows *)

Lemma slice_to_length {A} (l : list A) (n : Z) :
  (0 <= n)%Z ->
  (length (Py.slice_to l n) + Z.to_nat (Z.of_nat (length l) - n))%nat = length l
  \/ (Z.of_nat (length l) < n)%Z.
Proof.
  intros Hn. unfold Py.slice_to.
  replace (0 <=? n)%Z with true by (symmetry; apply Z.leb_le; exact Hn).
  rewrite length_firstn.
  destruct (Z_lt_dec (Z.of_nat (length l)) n) as [Hlt|Hge]; [right; exact Hlt|left]. lia.
Qed.

(** How [search] ends. *)
Lemma search_cases (u keyword path : string) (w : World) :
  exists w' m, search_files u keyword path w = (Val tt, w')
  /\ sent w' = sent w ++ [m]
  /\ match m with
     | MSearchResult k p shown hidden =>
         k = keyword /\ p = path
         /\ exists files n history base auth,
              remote w history (CallSearch base auth keyword path) = RFound files
              /\ files <> []
              /\ as_int (dict_get (get_user_config w u) "max_display_files" (PInt 20))
                 = Some n
              /\ shown = Py.slice_to files n
              /\ hidden = Z.to_nat (Z.of_nat (length files) - n)
     | MSearchNothing _ | MSearchFailed _ | MNeedKeyword | MConfigMissing => True
     | _ => False
     end.
Proof.
  unfold search_files. destruct (String.eqb keyword "").
  { eexists _, _. split; [reflexivity|]. split; [reflexivity|exact I]. }
  unfold bind at 1. unfold get_world. cbv beta iota zeta.
  destruct (negb (_validate_config (get_user_config w u))).
  { eexists _, _. split; [reflexivity|]. split; [reflexivity|exact I]. }
  unfold try_except. unfold bind at 1.
  pose proof (backstage_connect (get_user_config w u) w) as B1.
  destruct (AlistClient.connect (get_user_config w u) w) as [[client|e] w1]; simpl in B1;
    destruct B1 as (_ & _ & S1 & _ & _ & _ & R1).
  2:{ eexists _, _. split; [reflexivity|]. simpl. rewrite S1. split; [reflexivity|exact I]. }
  unfold bind at 1. unfold AlistClient.search_files at 1, bind at 1, request at 1, ret at 1.
  cbv beta iota.
  destruct (remote w1 (calls w1) (CallSearch (AlistClient.base_url client)
                                    (AlistClient.auth client) keyword path))
    as [| | | |files| | |] eqn:Er;
    try (eexists _, _; split; [reflexivity|]; simpl; rewrite S1;
         split; [reflexivity|exact I]).
  destruct files as [|f0 fs].
  { eexists _, _. split; [reflexivity|]. simpl. rewrite S1. split; [reflexivity|exact I]. }
  unfold bind at 1. unfold number.
  destruct (as_int (dict_get (get_user_config w u) "max_display_files" (PInt 20)))
    as [n|] eqn:En.
  2:{ eexists _, _. split; [reflexivity|]. simpl. rewrite S1. split; [reflexivity|exact I]. }
  eexists _, _. split; [reflexivity|]. simpl. rewrite S1. split; [reflexivity|].
  split; [reflexivity|]. split; [reflexivity|].
  exists (f0 :: fs), n, (calls w1), (AlistClient.base_url client), (AlistClient.auth client).
  split; [rewrite <- R1; exact Er|]. split; [discriminate|]. split; [reflexivity|].
  split; reflexivity.
Qed.

(** X15. What a search shows.  When [search] answers with results, they
    are the server's reply to the search request for that keyword and
    path, cut to [max_display_files] and in the server's order.  For a
    bound that is not negative and not above the number of results, the
    results shown and the number announced as not shown add up to all
    results; a search never indexes what it shows, the navigation state is
    as before. *)
Theorem search_shows_and_counts (w : World) (user_id keyword path k p : string)
    (shown : list Entry) (hidden : nat) :
  sent (snd (handle user_id (CmdSearch keyword path) w))
  = sent w ++ [MSearchResult k p shown hidden] ->
  let w' := snd (handle user_id (CmdSearch keyword path) w) in
  k = keyword /\ p = path
  /\ (forall v, nav_of w' v = nav_of w v)
  /\ exists files n history base auth,
       remote w history (CallSearch base auth keyword path) = RFound files
       /\ as_int (dict_get (get_user_config w user_id) "max_display_files" (PInt 20)) = Some n
       /\ shown = Py.slice_to files n
       /\ ((0 <= n <= Z.of_nat (length files))%Z ->
           shown = firstn (Z.to_nat n) files
           /\ (length shown + hidden)%nat = length files).
Proof.
  cbn [handle]. intros Hsent.
  destruct (search_cases user_id keyword path w) as (w' & m & E & S & Hm).
  rewrite E in Hsent |- *. simpl in Hsent |- *.
  rewrite S in Hsent. apply app_inv_head in Hsent.
  assert (Em : m = MSearchResult k p shown hidden) by congruence. subst m.
  destruct Hm as (-> & -> & files & n & h & b & a & Hr & Hne & Hn & Hs & Hh).
  split; [reflexivity|]. split; [reflexivity|]. split.
  - intros v. pose proof (nav_kept_search user_id keyword path w v) as Hv.
    rewrite E in Hv. exact Hv.
  - exists files, n, h, b, a. split; [exact Hr|]. split; [exact Hn|]. split; [exact Hs|].
    intros [H0 Hle]. split.
    + rewrite Hs. unfold Py.slice_to.
      replace (0 <=? n)%Z with true by (symmetry; apply Z.leb_le; exact H0). reflexivity.
    + rewrite Hs, Hh. destruct (slice_to_length files n H0) as [H|H]; [exact H|lia].
Qed.

Lemma search_shows_and_counts_witness :
  let found := [ {| name := "a.txt"; is_dir := false; size := 1; modified := "" |};
                 {| name := "b.txt"; is_dir := false; size := 2; modified := "" |} ] in
  let w := sample_world (fun _ c => match c with
                                    | CallSearch _ _ _ _ => RFound found
                                    | _ => RNone
                                    end) in
  nav_of (snd (handle "u1" (CmdSearch "txt" "/") w)) "u1" = nav_of w "u1".
Proof.
  intros found w.
  destruct (search_shows_and_counts w "u1" "txt" "/" "txt" "/" found 0) as (_ & _ & H & _).
  - vm_compute. reflexivity.
  - exact (H "u1").
Defined.
